(** * Iron-Eye: kettlebell snatch detector — Kalman filter and rep/set state machine

    A shallow embedding of
      - [src/lib/filters/KalmanFilter.ts]   (class [KalmanFilter1D]), and
      - the rep detector module             (class [SnatchRepDetector]),
    followed by the properties of the specification that concern them; and
    of the code around the two:
      - [src/lib/filters/KalmanFilter.ts]   (classes [KalmanFilter3D] and
                                             [AngleKalmanFilter]),
      - [src/lib/services/PoseDetectionService.ts]
                                            (the filtering of landmarks and
                                             angles, the hand detection),
      - [src/lib/stores.ts]                 (the stores and their actions),
    with properties read off that code.

    Numbers.  A TypeScript [number] is an IEEE-754 binary64 value; it is
    modelled by Rocq's primitive [float], which is the same format with the
    same rounding (round-to-nearest-even) for [+ - * /], the same infinities,
    signed zeros and NaN.  Closed terms therefore evaluate to the very value a
    JavaScript engine computes.  The two counters of the detector
    ([setCounter], [repCounter]) only ever hold small non-negative integers,
    on which binary64 arithmetic is exact below 2^53; they are modelled in
    [Z].

    Effects.  A method of a class is a function from the object's fields
    (a record) to the new fields.  Callback invocations are the observable
    output of the detector: a method returns the list of events it delivers,
    in order (registration and removal of callbacks by clients is not
    modelled; the events are what any registered callback would receive).
    Readings of [performance.now()] are explicit arguments.

    Names.  The class declares two methods called [onPhaseChange]: a private
    one with three parameters, the handler of a phase change (lines 366-401),
    and further down a public one with one parameter, the registration of a
    phase callback (lines 684-690).  A JavaScript class keeps the last method
    declared under a name, and the [private] modifier and the parameter types
    are erased when the module is compiled: at run time the class has the
    public method only.  The call
    [this.onPhaseChange(this.currentPhase, newPhase, timestamp)] of
    [processFrame] therefore runs the registration, with the old phase as its
    [callback], and is modelled so; the array [phaseCallbacks] it appends to
    is a field of the record.  The private handler is embedded as
    [onPhaseChange_handler]; no method of the class as it runs calls it. *)

From Stdlib Require Import Floats Uint63 ZArith List Bool Lia.
Import ListNotations.

Set Warnings "-inexact-float".
#[local] Set Primitive Projections.

Local Open Scope float_scope.

(* ------------------------------------------------------------------------- *)
(** ** The fragment of JavaScript's [Math] and array library that is used     *)
(* ------------------------------------------------------------------------- *)

Module JS.

(** [Math.max(a, b)]: NaN if either argument is NaN; [+0] is larger than
    [-0]. *)
Definition Math_max (a b : float) : float :=
  match PrimFloat.compare a b with
  | FLt => b
  | FGt => a
  | FEq => if PrimFloat.get_sign a then b else a
  | FNotComparable => nan
  end.

(** [Math.min(a, b)]: NaN if either argument is NaN; [-0] is smaller than
    [+0]. *)
Definition Math_min (a b : float) : float :=
  match PrimFloat.compare a b with
  | FLt => a
  | FGt => b
  | FEq => if PrimFloat.get_sign a then a else b
  | FNotComparable => nan
  end.

(** [Math.max(...xs)]: [-Infinity] on the empty array. *)
Definition Math_max_list (xs : list float) : float :=
  fold_left Math_max xs neg_infinity.

(** [Math.min(...xs)]: [+Infinity] on the empty array. *)
Definition Math_min_list (xs : list float) : float :=
  fold_left Math_min xs infinity.

Definition Math_abs (x : float) : float := PrimFloat.abs x.

(** An integer of magnitude below 2^63 as a float (exact below 2^53). *)
Definition of_Z (n : Z) : float :=
  match n with
  | Z0 => 0
  | Zpos _ => PrimFloat.of_uint63 (Uint63.of_Z n)
  | Zneg _ => - PrimFloat.of_uint63 (Uint63.of_Z (Z.opp n))
  end.

(** [xs.length] as a number. *)
Definition length {A} (xs : list A) : float := of_Z (Z.of_nat (List.length xs)).

(** [Math.round(x)]: the integer nearest to [x], ties towards [+Infinity];
    NaN, the infinities and the zeros are returned unchanged; a result of
    zero keeps the sign of [x].  A finite [x = (-1)^s * m * 2^e] with
    [0 <= e] is already an integer; otherwise [floor (x + 1/2)] is computed
    exactly over [Z]. *)
Definition Math_round (x : float) : float :=
  match Prim2SF x with
  | S754_finite s m e =>
      if (0 <=? e)%Z then x
      else
        let k := (- e)%Z in
        let sm := if s then Z.neg m else Z.pos m in
        let n := ((sm + 2 ^ (k - 1)) / 2 ^ k)%Z in
        if (n =? 0)%Z then (if s then neg_zero else zero) else of_Z n
  | _ => x
  end.

(** [x ** 2].  ECMAScript leaves the precision of [**] to the engine; the
    square is taken as the correctly rounded product, and is exact wherever
    this development evaluates it. *)
Definition sq (x : float) : float := x * x.

(** [xs.reduce((a, b) => a + b, 0)]. *)
Definition sum (xs : list float) : float := fold_left PrimFloat.add xs 0.

(** [xs[i]] used as a number: an index out of range reads [undefined],
    which arithmetic turns into NaN. *)
Definition index (xs : list float) (i : nat) : float := nth i xs nan.

(** [xs[xs.length - 1]] used as a number. *)
Definition last (xs : list float) : float := List.last xs nan.

End JS.

(* ------------------------------------------------------------------------- *)
(** ** [KalmanFilter1D]                                                       *)
(* ------------------------------------------------------------------------- *)

Module Kalman.

Record KalmanState := mkKalmanState {
  position : float;
  velocity : float;
  positionVariance : float;
  velocityVariance : float;
  covariance : float;
}.

Record KalmanConfig := mkKalmanConfig {
  processNoise : float;             (* Q *)
  measurementNoise : float;         (* R *)
  initialPositionVariance : float;
  initialVelocityVariance : float;
}.

(** [Partial<KalmanConfig>]: every field may be absent. *)
Record PartialKalmanConfig := mkPartialKalmanConfig {
  processNoise_opt : option float;
  measurementNoise_opt : option float;
  initialPositionVariance_opt : option float;
  initialVelocityVariance_opt : option float;
}.

(** [a ?? b] *)
Definition nullish (a : option float) (b : float) : float :=
  match a with Some v => v | None => b end.

Record KalmanFilter1D := mkKalmanFilter1D {
  state : KalmanState;
  config : KalmanConfig;
  lastTimestamp : option float;     (* number | null *)
}.

(** Assignments to single fields of [this.state]. *)
Definition set_position (v : float) (st : KalmanState) : KalmanState :=
  mkKalmanState v (velocity st) (positionVariance st) (velocityVariance st) (covariance st).
Definition set_velocity (v : float) (st : KalmanState) : KalmanState :=
  mkKalmanState (position st) v (positionVariance st) (velocityVariance st) (covariance st).
Definition set_positionVariance (v : float) (st : KalmanState) : KalmanState :=
  mkKalmanState (position st) (velocity st) v (velocityVariance st) (covariance st).
Definition set_velocityVariance (v : float) (st : KalmanState) : KalmanState :=
  mkKalmanState (position st) (velocity st) (positionVariance st) v (covariance st).
Definition set_covariance (v : float) (st : KalmanState) : KalmanState :=
  mkKalmanState (position st) (velocity st) (positionVariance st) (velocityVariance st) v.

Definition set_state (st : KalmanState) (f : KalmanFilter1D) : KalmanFilter1D :=
  mkKalmanFilter1D st (config f) (lastTimestamp f).
Definition set_lastTimestamp (t : option float) (f : KalmanFilter1D) : KalmanFilter1D :=
  mkKalmanFilter1D (state f) (config f) t.

(** [constructor(config: Partial<KalmanConfig> = {})] *)
Definition new (c : PartialKalmanConfig) : KalmanFilter1D :=
  let cfg := {|
    processNoise := nullish (processNoise_opt c) 0.1;
    measurementNoise := nullish (measurementNoise_opt c) 0.5;
    initialPositionVariance := nullish (initialPositionVariance_opt c) 1.0;
    initialVelocityVariance := nullish (initialVelocityVariance_opt c) 1.0;
  |} in
  {| state := {|
       position := 0;
       velocity := 0;
       positionVariance := initialPositionVariance cfg;
       velocityVariance := initialVelocityVariance cfg;
       covariance := 0 |};
     config := cfg;
     lastTimestamp := None |}.

(** [reset(initialPosition: number = 0)] *)
Definition reset (initialPosition : float) (f : KalmanFilter1D) : KalmanFilter1D :=
  {| state := {|
       position := initialPosition;
       velocity := 0;
       positionVariance := initialPositionVariance (config f);
       velocityVariance := initialVelocityVariance (config f);
       covariance := 0 |};
     config := config f;
     lastTimestamp := None |}.

(** [private predict(dt)].  The five fields are read into locals first; the
    assignments to [this.state.*] that follow use the locals, not the
    fields already overwritten. *)
Definition predict (dt : float) (f : KalmanFilter1D) : KalmanFilter1D :=
  let processNoise := processNoise (config f) in
  let position := position (state f) in
  let velocity := velocity (state f) in
  let positionVariance := positionVariance (state f) in
  let velocityVariance := velocityVariance (state f) in
  let covariance := covariance (state f) in
  let f := set_state (set_position (position + velocity * dt) (state f)) f in
  let dt2 := dt * dt in
  let f := set_state (set_positionVariance
             (positionVariance + 2 * dt * covariance + dt2 * velocityVariance
              + processNoise * dt2) (state f)) f in
  let f := set_state (set_velocityVariance (velocityVariance + processNoise) (state f)) f in
  let f := set_state (set_covariance
             (covariance + dt * velocityVariance + processNoise * dt) (state f)) f in
  f.

(** The time step of [update]: 1/30 s on the first call, otherwise the
    elapsed milliseconds in seconds, clamped to [0.001, 0.5]. *)
Definition time_step (timestamp : float) (f : KalmanFilter1D) : float :=
  let dt := 1 / 30 in
  match lastTimestamp f with
  | Some last =>
      let dt := (timestamp - last) / 1000 in
      JS.Math_max 0.001 (JS.Math_min dt 0.5)
  | None => dt
  end.

(** The measurement-incorporation part of [update] (after [this.predict]). *)
Definition correct (measurement : float) (f : KalmanFilter1D) : KalmanFilter1D :=
  let measurementNoise := measurementNoise (config f) in
  let position := position (state f) in
  let velocity := velocity (state f) in
  let positionVariance := positionVariance (state f) in
  let velocityVariance := velocityVariance (state f) in
  let covariance := covariance (state f) in
  let innovation := measurement - position in
  let innovationVariance := positionVariance + measurementNoise in
  let kalmanGainPosition := positionVariance / innovationVariance in
  let kalmanGainVelocity := covariance / innovationVariance in
  let f := set_state (set_position (position + kalmanGainPosition * innovation) (state f)) f in
  let f := set_state (set_velocity (velocity + kalmanGainVelocity * innovation) (state f)) f in
  let f := set_state (set_positionVariance
             ((1 - kalmanGainPosition) * positionVariance) (state f)) f in
  let f := set_state (set_velocityVariance
             (velocityVariance - kalmanGainVelocity * covariance) (state f)) f in
  let f := set_state (set_covariance ((1 - kalmanGainPosition) * covariance) (state f)) f in
  f.

(** [update(measurement, timestamp): KalmanState]; returns the filter after
    the call and the copy [{ ...this.state }] handed to the caller. *)
Definition update (measurement timestamp : float) (f : KalmanFilter1D)
  : KalmanFilter1D * KalmanState :=
  let dt := time_step timestamp f in
  let f := set_lastTimestamp (Some timestamp) f in
  let f := predict dt f in
  let f := correct measurement f in
  (f, state f).

Definition getState (f : KalmanFilter1D) : KalmanState := state f.
Definition getPosition (f : KalmanFilter1D) : float := position (state f).
Definition getVelocity (f : KalmanFilter1D) : float := velocity (state f).

(** The predicted state in the words of the specification (section 4.1,
    step 2), for process noise [Q] and time step [dt]. *)
Definition predicted_spec (Q dt : float) (st : KalmanState) : KalmanState :=
  {| position := position st + velocity st * dt;
     velocity := velocity st;
     positionVariance :=
       positionVariance st + 2 * dt * covariance st
       + dt * dt * velocityVariance st + Q * (dt * dt);
     velocityVariance := velocityVariance st + Q;
     covariance := covariance st + dt * velocityVariance st + Q * dt |}.

End Kalman.

(* ------------------------------------------------------------------------- *)
(** ** Data model of the rep detector                                         *)
(* ------------------------------------------------------------------------- *)

(** [enum SnatchPhase] *)
Inductive SnatchPhase : Set :=
  | IDLE | BACKSWING | HIKE | PULL | PUNCH | LOCKOUT | DROP | RETURN.

Definition SnatchPhase_eq_dec (a b : SnatchPhase) : {a = b} + {a <> b}.
Proof. decide equality. Defined.

(** [a === b] on phases *)
Definition phase_eqb (a b : SnatchPhase) : bool :=
  if SnatchPhase_eq_dec a b then true else false.

(** ['left' | 'right'] *)
Inductive Hand : Set := Left | Right.

(** [interface JointAngles] (degrees) *)
Record JointAngles := mkJointAngles {
  leftElbow : float;
  rightElbow : float;
  leftShoulder : float;
  rightShoulder : float;
  leftHip : float;
  rightHip : float;
  leftKnee : float;
  rightKnee : float;
  spine : float;
  leftShoulderAbduction : float;
  rightShoulderAbduction : float;
}.

(** [interface FilteredLandmark extends Landmark] *)
Record FilteredLandmark := mkFilteredLandmark {
  x : float;
  y : float;
  z : float;
  visibility : float;
  velocityX : float;
  velocityY : float;
  velocityZ : float;
  speed : float;
}.

(** [interface PoseFrame], with the fields [processFrame] destructures.  The
    raw landmark arrays and [dominantHand] are never read by the detector. *)
Record PoseFrame := mkPoseFrame {
  timestamp : float;
  wristPosition : FilteredLandmark;
  wristSpeed : float;
  jointAngles : JointAngles;
  shoulderHeight : float;
  hipHeight : float;
}.

(** An entry of [phaseHistory]. *)
Record PhaseInterval := mkPhaseInterval {
  pi_phase : SnatchPhase;
  pi_startTime : float;
  pi_endTime : float;
}.

(** An entry of [RepData.phases]. *)
Record RepPhase := mkRepPhase {
  rp_phase : SnatchPhase;
  rp_startTime : float;
  rp_endTime : float;
  rp_duration : float;
}.

Record RepJointAngles := mkRepJointAngles {
  maxShoulderAbduction : float;
  maxElbowAngle : float;
  minHipAngle : float;
  lockoutShoulderAngle : float;
}.

(** [interface RepData] *)
Record RepData := mkRepData {
  repNumber : Z;
  rep_startTime : float;
  rep_endTime : float;
  rep_duration : float;
  rep_peakVelocity : float;
  meanVelocity : float;
  peakHeight : float;
  lockoutTime : float;
  phases : list RepPhase;
  rep_jointAngles : RepJointAngles;
  power : float;
  rep_hand : Hand;
}.

(** [interface SetData] *)
Record SetData := mkSetData {
  setNumber : Z;
  set_startTime : float;
  set_endTime : float;
  set_duration : float;
  set_hand : Hand;
  reps : list RepData;
  set_totalReps : float;
  set_averageVelocity : float;
  set_peakVelocity : float;
  velocityDropoff : float;
  set_averagePower : float;
  fatigueFactor : float;
  set_kettlebellWeight : float;
}.

Inductive AlertType : Set := velocity_drop | form_degradation | power_drop.
Inductive Severity : Set := warning | critical.

(** The text of an alert.  The source builds it from a template literal
    around [drop.toFixed(1)]; the number is kept as a number here, its
    decimal rendering is not modelled. *)
Inductive AlertText : Set :=
  | Critical_velocity_drop | Velocity_dropping | Critical_power_drop | Power_dropping.

(** [interface FatigueAlert] *)
Record FatigueAlert := mkFatigueAlert {
  alert_timestamp : float;
  alert_setNumber : Z;
  alert_repNumber : Z;
  alert_type : AlertType;
  message : AlertText * float;
  severity : Severity;
  velocityDropPercent : option float;
}.

(** [interface SessionData].  [sessionId] is the string
    [`session_${startTime}`]; it is represented by the number it prints. *)
Record SessionData := mkSessionData {
  sessionId : float;
  session_startTime : float;
  session_endTime : float;
  session_duration : float;
  session_kettlebellWeight : float;
  session_sets : list SetData;
  totalReps : float;
  totalSets : float;
  session_averageVelocity : float;
  session_peakVelocity : float;
  session_averagePower : float;
  totalWork : float;
  session_fatigueAlerts : list FatigueAlert;
}.

(** [interface SnatchDetectorConfig], flattened. *)
Record SnatchDetectorConfig := mkSnatchDetectorConfig {
  kettlebellWeight : float;
  (* velocityThresholds *)
  backswingMin : float;
  pullMin : float;
  lockoutMax : float;
  (* positionThresholds *)
  backswingHeightRatio : float;
  lockoutHeightRatio : float;
  (* fatigueThresholds *)
  velocityDropWarning : float;
  velocityDropCritical : float;
  powerDropWarning : float;
  powerDropCritical : float;
  (* setDetection *)
  maxRepGap : float;
  minRepsForSet : float;
}.

Definition DEFAULT_CONFIG : SnatchDetectorConfig := {|
  kettlebellWeight := 16;
  backswingMin := -0.15;
  pullMin := 0.2;
  lockoutMax := 0.05;
  backswingHeightRatio := 0.7;
  lockoutHeightRatio := 0.3;
  velocityDropWarning := 15;
  velocityDropCritical := 25;
  powerDropWarning := 20;
  powerDropCritical := 35;
  maxRepGap := 5000;
  minRepsForSet := 1;
|}.

(** What the registered callbacks observe.  Callbacks are taken to be
    observers: they do not call back into the detector. *)
Inductive Event :=
  | PhaseEvent (p : SnatchPhase)
  | RepEvent (r : RepData)
  | SetEvent (s : SetData)
  | FatigueEvent (a : FatigueAlert).

(** An entry of [phaseCallbacks].  The array is declared to hold functions;
    a client's callback is known by a number here.  The call of
    [onPhaseChange] in [processFrame] appends a phase, which is not a
    function. *)
Inductive PhaseCallback :=
  | Listener (id : nat)
  | NotAFunction (p : SnatchPhase).

(** The private fields of [class SnatchRepDetector] (the arrays
    [repCallbacks], [setCallbacks] and [fatigueCallbacks] apart). *)
Record Detector := mkDetector {
  config : SnatchDetectorConfig;
  currentPhase : SnatchPhase;
  phaseStartTime : float;
  phaseHistory : list PhaseInterval;
  repInProgress : bool;
  currentRepStartTime : float;
  velocityHistory : list (float * float);        (* { time, velocity } *)
  heightHistory : list (float * float);          (* { time, height } *)
  angleHistory : list (float * JointAngles);     (* { time, angles } *)
  currentSetStartTime : float;
  currentSetReps : list RepData;
  lastRepEndTime : float;
  sessionStartTime : float;
  sets : list SetData;
  fatigueAlerts : list FatigueAlert;
  baselineVelocities : list float;
  baselinePowers : list float;
  velocityFilter : Kalman.KalmanFilter1D;
  phaseCallbacks : list PhaseCallback;
  isActive : bool;
  currentHand : Hand;
  setCounter : Z;
  repCounter : Z;
}.

(** Assignment to one field, [this.f = v]. *)
Definition set_config v (s : Detector) : Detector :=
  mkDetector v (currentPhase s) (phaseStartTime s) (phaseHistory s) (repInProgress s)
    (currentRepStartTime s) (velocityHistory s) (heightHistory s) (angleHistory s)
    (currentSetStartTime s) (currentSetReps s) (lastRepEndTime s) (sessionStartTime s)
    (sets s) (fatigueAlerts s) (baselineVelocities s) (baselinePowers s)
    (velocityFilter s) (phaseCallbacks s) (isActive s) (currentHand s) (setCounter s) (repCounter s).
Definition set_currentPhase v (s : Detector) : Detector :=
  mkDetector (config s) v (phaseStartTime s) (phaseHistory s) (repInProgress s)
    (currentRepStartTime s) (velocityHistory s) (heightHistory s) (angleHistory s)
    (currentSetStartTime s) (currentSetReps s) (lastRepEndTime s) (sessionStartTime s)
    (sets s) (fatigueAlerts s) (baselineVelocities s) (baselinePowers s)
    (velocityFilter s) (phaseCallbacks s) (isActive s) (currentHand s) (setCounter s) (repCounter s).
Definition set_phaseStartTime v (s : Detector) : Detector :=
  mkDetector (config s) (currentPhase s) v (phaseHistory s) (repInProgress s)
    (currentRepStartTime s) (velocityHistory s) (heightHistory s) (angleHistory s)
    (currentSetStartTime s) (currentSetReps s) (lastRepEndTime s) (sessionStartTime s)
    (sets s) (fatigueAlerts s) (baselineVelocities s) (baselinePowers s)
    (velocityFilter s) (phaseCallbacks s) (isActive s) (currentHand s) (setCounter s) (repCounter s).
Definition set_phaseHistory v (s : Detector) : Detector :=
  mkDetector (config s) (currentPhase s) (phaseStartTime s) v (repInProgress s)
    (currentRepStartTime s) (velocityHistory s) (heightHistory s) (angleHistory s)
    (currentSetStartTime s) (currentSetReps s) (lastRepEndTime s) (sessionStartTime s)
    (sets s) (fatigueAlerts s) (baselineVelocities s) (baselinePowers s)
    (velocityFilter s) (phaseCallbacks s) (isActive s) (currentHand s) (setCounter s) (repCounter s).
Definition set_repInProgress v (s : Detector) : Detector :=
  mkDetector (config s) (currentPhase s) (phaseStartTime s) (phaseHistory s) v
    (currentRepStartTime s) (velocityHistory s) (heightHistory s) (angleHistory s)
    (currentSetStartTime s) (currentSetReps s) (lastRepEndTime s) (sessionStartTime s)
    (sets s) (fatigueAlerts s) (baselineVelocities s) (baselinePowers s)
    (velocityFilter s) (phaseCallbacks s) (isActive s) (currentHand s) (setCounter s) (repCounter s).
Definition set_currentRepStartTime v (s : Detector) : Detector :=
  mkDetector (config s) (currentPhase s) (phaseStartTime s) (phaseHistory s)
    (repInProgress s) v (velocityHistory s) (heightHistory s) (angleHistory s)
    (currentSetStartTime s) (currentSetReps s) (lastRepEndTime s) (sessionStartTime s)
    (sets s) (fatigueAlerts s) (baselineVelocities s) (baselinePowers s)
    (velocityFilter s) (phaseCallbacks s) (isActive s) (currentHand s) (setCounter s) (repCounter s).
Definition set_velocityHistory v (s : Detector) : Detector :=
  mkDetector (config s) (currentPhase s) (phaseStartTime s) (phaseHistory s)
    (repInProgress s) (currentRepStartTime s) v (heightHistory s) (angleHistory s)
    (currentSetStartTime s) (currentSetReps s) (lastRepEndTime s) (sessionStartTime s)
    (sets s) (fatigueAlerts s) (baselineVelocities s) (baselinePowers s)
    (velocityFilter s) (phaseCallbacks s) (isActive s) (currentHand s) (setCounter s) (repCounter s).
Definition set_heightHistory v (s : Detector) : Detector :=
  mkDetector (config s) (currentPhase s) (phaseStartTime s) (phaseHistory s)
    (repInProgress s) (currentRepStartTime s) (velocityHistory s) v (angleHistory s)
    (currentSetStartTime s) (currentSetReps s) (lastRepEndTime s) (sessionStartTime s)
    (sets s) (fatigueAlerts s) (baselineVelocities s) (baselinePowers s)
    (velocityFilter s) (phaseCallbacks s) (isActive s) (currentHand s) (setCounter s) (repCounter s).
Definition set_angleHistory v (s : Detector) : Detector :=
  mkDetector (config s) (currentPhase s) (phaseStartTime s) (phaseHistory s)
    (repInProgress s) (currentRepStartTime s) (velocityHistory s) (heightHistory s) v
    (currentSetStartTime s) (currentSetReps s) (lastRepEndTime s) (sessionStartTime s)
    (sets s) (fatigueAlerts s) (baselineVelocities s) (baselinePowers s)
    (velocityFilter s) (phaseCallbacks s) (isActive s) (currentHand s) (setCounter s) (repCounter s).
Definition set_currentSetStartTime v (s : Detector) : Detector :=
  mkDetector (config s) (currentPhase s) (phaseStartTime s) (phaseHistory s)
    (repInProgress s) (currentRepStartTime s) (velocityHistory s) (heightHistory s)
    (angleHistory s) v (currentSetReps s) (lastRepEndTime s) (sessionStartTime s)
    (sets s) (fatigueAlerts s) (baselineVelocities s) (baselinePowers s)
    (velocityFilter s) (phaseCallbacks s) (isActive s) (currentHand s) (setCounter s) (repCounter s).
Definition set_currentSetReps v (s : Detector) : Detector :=
  mkDetector (config s) (currentPhase s) (phaseStartTime s) (phaseHistory s)
    (repInProgress s) (currentRepStartTime s) (velocityHistory s) (heightHistory s)
    (angleHistory s) (currentSetStartTime s) v (lastRepEndTime s) (sessionStartTime s)
    (sets s) (fatigueAlerts s) (baselineVelocities s) (baselinePowers s)
    (velocityFilter s) (phaseCallbacks s) (isActive s) (currentHand s) (setCounter s) (repCounter s).
Definition set_lastRepEndTime v (s : Detector) : Detector :=
  mkDetector (config s) (currentPhase s) (phaseStartTime s) (phaseHistory s)
    (repInProgress s) (currentRepStartTime s) (velocityHistory s) (heightHistory s)
    (angleHistory s) (currentSetStartTime s) (currentSetReps s) v (sessionStartTime s)
    (sets s) (fatigueAlerts s) (baselineVelocities s) (baselinePowers s)
    (velocityFilter s) (phaseCallbacks s) (isActive s) (currentHand s) (setCounter s) (repCounter s).
Definition set_sessionStartTime v (s : Detector) : Detector :=
  mkDetector (config s) (currentPhase s) (phaseStartTime s) (phaseHistory s)
    (repInProgress s) (currentRepStartTime s) (velocityHistory s) (heightHistory s)
    (angleHistory s) (currentSetStartTime s) (currentSetReps s) (lastRepEndTime s) v
    (sets s) (fatigueAlerts s) (baselineVelocities s) (baselinePowers s)
    (velocityFilter s) (phaseCallbacks s) (isActive s) (currentHand s) (setCounter s) (repCounter s).
Definition set_sets v (s : Detector) : Detector :=
  mkDetector (config s) (currentPhase s) (phaseStartTime s) (phaseHistory s)
    (repInProgress s) (currentRepStartTime s) (velocityHistory s) (heightHistory s)
    (angleHistory s) (currentSetStartTime s) (currentSetReps s) (lastRepEndTime s)
    (sessionStartTime s) v (fatigueAlerts s) (baselineVelocities s) (baselinePowers s)
    (velocityFilter s) (phaseCallbacks s) (isActive s) (currentHand s) (setCounter s) (repCounter s).
Definition set_fatigueAlerts v (s : Detector) : Detector :=
  mkDetector (config s) (currentPhase s) (phaseStartTime s) (phaseHistory s)
    (repInProgress s) (currentRepStartTime s) (velocityHistory s) (heightHistory s)
    (angleHistory s) (currentSetStartTime s) (currentSetReps s) (lastRepEndTime s)
    (sessionStartTime s) (sets s) v (baselineVelocities s) (baselinePowers s)
    (velocityFilter s) (phaseCallbacks s) (isActive s) (currentHand s) (setCounter s) (repCounter s).
Definition set_baselineVelocities v (s : Detector) : Detector :=
  mkDetector (config s) (currentPhase s) (phaseStartTime s) (phaseHistory s)
    (repInProgress s) (currentRepStartTime s) (velocityHistory s) (heightHistory s)
    (angleHistory s) (currentSetStartTime s) (currentSetReps s) (lastRepEndTime s)
    (sessionStartTime s) (sets s) (fatigueAlerts s) v (baselinePowers s)
    (velocityFilter s) (phaseCallbacks s) (isActive s) (currentHand s) (setCounter s) (repCounter s).
Definition set_baselinePowers v (s : Detector) : Detector :=
  mkDetector (config s) (currentPhase s) (phaseStartTime s) (phaseHistory s)
    (repInProgress s) (currentRepStartTime s) (velocityHistory s) (heightHistory s)
    (angleHistory s) (currentSetStartTime s) (currentSetReps s) (lastRepEndTime s)
    (sessionStartTime s) (sets s) (fatigueAlerts s) (baselineVelocities s) v
    (velocityFilter s) (phaseCallbacks s) (isActive s) (currentHand s) (setCounter s) (repCounter s).
Definition set_velocityFilter v (s : Detector) : Detector :=
  mkDetector (config s) (currentPhase s) (phaseStartTime s) (phaseHistory s)
    (repInProgress s) (currentRepStartTime s) (velocityHistory s) (heightHistory s)
    (angleHistory s) (currentSetStartTime s) (currentSetReps s) (lastRepEndTime s)
    (sessionStartTime s) (sets s) (fatigueAlerts s) (baselineVelocities s)
    (baselinePowers s) v (phaseCallbacks s) (isActive s) (currentHand s) (setCounter s) (repCounter s).
Definition set_phaseCallbacks v (s : Detector) : Detector :=
  mkDetector (config s) (currentPhase s) (phaseStartTime s) (phaseHistory s)
    (repInProgress s) (currentRepStartTime s) (velocityHistory s) (heightHistory s)
    (angleHistory s) (currentSetStartTime s) (currentSetReps s) (lastRepEndTime s)
    (sessionStartTime s) (sets s) (fatigueAlerts s) (baselineVelocities s)
    (baselinePowers s) (velocityFilter s) v (isActive s) (currentHand s) (setCounter s)
    (repCounter s).
Definition set_isActive v (s : Detector) : Detector :=
  mkDetector (config s) (currentPhase s) (phaseStartTime s) (phaseHistory s)
    (repInProgress s) (currentRepStartTime s) (velocityHistory s) (heightHistory s)
    (angleHistory s) (currentSetStartTime s) (currentSetReps s) (lastRepEndTime s)
    (sessionStartTime s) (sets s) (fatigueAlerts s) (baselineVelocities s)
    (baselinePowers s) (velocityFilter s) (phaseCallbacks s) v (currentHand s) (setCounter s)
    (repCounter s).
Definition set_currentHand v (s : Detector) : Detector :=
  mkDetector (config s) (currentPhase s) (phaseStartTime s) (phaseHistory s)
    (repInProgress s) (currentRepStartTime s) (velocityHistory s) (heightHistory s)
    (angleHistory s) (currentSetStartTime s) (currentSetReps s) (lastRepEndTime s)
    (sessionStartTime s) (sets s) (fatigueAlerts s) (baselineVelocities s)
    (baselinePowers s) (velocityFilter s) (phaseCallbacks s) (isActive s) v (setCounter s) (repCounter s).
Definition set_setCounter v (s : Detector) : Detector :=
  mkDetector (config s) (currentPhase s) (phaseStartTime s) (phaseHistory s)
    (repInProgress s) (currentRepStartTime s) (velocityHistory s) (heightHistory s)
    (angleHistory s) (currentSetStartTime s) (currentSetReps s) (lastRepEndTime s)
    (sessionStartTime s) (sets s) (fatigueAlerts s) (baselineVelocities s)
    (baselinePowers s) (velocityFilter s) (phaseCallbacks s) (isActive s) (currentHand s) v (repCounter s).
Definition set_repCounter v (s : Detector) : Detector :=
  mkDetector (config s) (currentPhase s) (phaseStartTime s) (phaseHistory s)
    (repInProgress s) (currentRepStartTime s) (velocityHistory s) (heightHistory s)
    (angleHistory s) (currentSetStartTime s) (currentSetReps s) (lastRepEndTime s)
    (sessionStartTime s) (sets s) (fatigueAlerts s) (baselineVelocities s)
    (baselinePowers s) (velocityFilter s) (phaseCallbacks s) (isActive s) (currentHand s) (setCounter s) v.

(* ------------------------------------------------------------------------- *)
(** ** [class SnatchRepDetector]                                              *)
(* ------------------------------------------------------------------------- *)

(** JavaScript's relational operators on numbers (false on NaN). *)
Definition lt (a b : float) : bool := PrimFloat.ltb a b.
Definition gt (a b : float) : bool := PrimFloat.ltb b a.
Definition le (a b : float) : bool := PrimFloat.leb a b.
Definition ge (a b : float) : bool := PrimFloat.leb b a.

(** The angle of the tracked side. *)
Definition shoulderAbductionOf (h : Hand) (a : JointAngles) : float :=
  match h with Left => leftShoulderAbduction a | Right => rightShoulderAbduction a end.
Definition elbowOf (h : Hand) (a : JointAngles) : float :=
  match h with Left => leftElbow a | Right => rightElbow a end.
Definition hipOf (h : Hand) (a : JointAngles) : float :=
  match h with Left => leftHip a | Right => rightHip a end.

(** [constructor(config)]; the merge [{ ...DEFAULT_CONFIG, ...config }] is
    done by the caller, who passes the resulting configuration. *)
Definition new (cfg : SnatchDetectorConfig) : Detector := {|
  config := cfg;
  currentPhase := IDLE;
  phaseStartTime := 0;
  phaseHistory := [];
  repInProgress := false;
  currentRepStartTime := 0;
  velocityHistory := [];
  heightHistory := [];
  angleHistory := [];
  currentSetStartTime := 0;
  currentSetReps := [];
  lastRepEndTime := 0;
  sessionStartTime := 0;
  sets := [];
  fatigueAlerts := [];
  baselineVelocities := [];
  baselinePowers := [];
  velocityFilter :=
    Kalman.new (Kalman.mkPartialKalmanConfig (Some 0.1) (Some 0.2) None None);
  phaseCallbacks := [];
  isActive := false;
  currentHand := Right;
  setCounter := 0;
  repCounter := 0;
|}.

(** [reset()] *)
Definition reset (s : Detector) : Detector :=
  let s := set_currentPhase IDLE s in
  let s := set_phaseStartTime 0 s in
  let s := set_phaseHistory [] s in
  let s := set_repInProgress false s in
  let s := set_currentRepStartTime 0 s in
  let s := set_velocityHistory [] s in
  let s := set_heightHistory [] s in
  let s := set_angleHistory [] s in
  let s := set_velocityFilter (Kalman.reset 0 (velocityFilter s)) s in
  s.

(** [start(hand)]; [now] is the reading of [performance.now()]. *)
Definition start (hand : Hand) (now : float) (s : Detector) : Detector :=
  let s := set_isActive true s in
  let s := set_currentHand hand s in
  let s := set_sessionStartTime now s in
  let s := set_currentSetStartTime (sessionStartTime s) s in
  reset s.

Definition pause (s : Detector) : Detector := set_isActive false s.
Definition resume (s : Detector) : Detector := set_isActive true s.

(** [getPeakVelocityInPhase()] *)
Definition getPeakVelocityInPhase (s : Detector) : float :=
  let phaseVelocities :=
    filter (fun v => ge (fst v) (phaseStartTime s)) (velocityHistory s) in
  if (0 <? List.length phaseVelocities)%nat
  then JS.Math_max_list (map snd phaseVelocities)
  else 0.

(** [getPhaseDuration(currentTime)] *)
Definition getPhaseDuration (currentTime : float) (s : Detector) : float :=
  currentTime - phaseStartTime s.

(** [detectPhase(velocity, heightRatio, angles, timestamp)] *)
Definition detectPhase (velocity heightRatio : float) (angles : JointAngles)
    (timestamp : float) (s : Detector) : SnatchPhase :=
  let cfg := config s in
  let shoulderAngle := shoulderAbductionOf (currentHand s) angles in
  match currentPhase s with
  | IDLE =>
      if lt velocity (backswingMin cfg) && lt heightRatio (backswingHeightRatio cfg)
      then BACKSWING else currentPhase s
  | BACKSWING =>
      if gt velocity 0 && lt heightRatio (backswingHeightRatio cfg)
      then HIKE else currentPhase s
  | HIKE =>
      if gt velocity (pullMin cfg) then PULL
      else if lt velocity (backswingMin cfg) then BACKSWING
      else currentPhase s
  | PULL =>
      if gt heightRatio (lockoutHeightRatio cfg * 0.7)
         && lt velocity (getPeakVelocityInPhase s * 0.5)
      then PUNCH else currentPhase s
  | PUNCH =>
      if lt (JS.Math_abs velocity) (lockoutMax cfg)
         && gt heightRatio (lockoutHeightRatio cfg)
         && gt shoulderAngle 150
      then LOCKOUT else currentPhase s
  | LOCKOUT =>
      if lt velocity (-0.1) then DROP else currentPhase s
  | DROP =>
      if lt heightRatio (lockoutHeightRatio cfg * 0.7) then RETURN else currentPhase s
  | RETURN =>
      if lt velocity (backswingMin cfg) && lt heightRatio (backswingHeightRatio cfg)
      then BACKSWING
      else if lt (JS.Math_abs velocity) 0.05 && gt (getPhaseDuration timestamp s) 500
      then IDLE
      else currentPhase s
  end.

(** [calculatePower(peakVelocity, meanVelocity, duration)] *)
Definition calculatePower (peakVelocity meanVelocity duration : float) (s : Detector)
    : float :=
  let mass := kettlebellWeight (config s) in
  let g := 9.81 in
  let estimatedHeight := meanVelocity * (duration / 1000) * 0.5 in
  let potentialWork := mass * g * JS.Math_abs estimatedHeight in
  let kineticWork := 0.5 * mass * JS.sq peakVelocity in
  let totalWork := potentialWork + kineticWork in
  let power := totalWork / (duration / 1000) in
  JS.Math_round power.

(** [emitFatigueAlert(alert)] *)
Definition emitFatigueAlert (alert : FatigueAlert) (s : Detector)
    : Detector * list Event :=
  (set_fatigueAlerts (fatigueAlerts s ++ [alert]) s, [FatigueEvent alert]).

(** [checkFatigue(rep)] *)
Definition checkFatigue (rep : RepData) (s : Detector) : Detector * list Event :=
  if (List.length (baselineVelocities s) <? 3)%nat then (s, [])
  else
    let baselineVel := JS.sum (baselineVelocities s) / JS.length (baselineVelocities s) in
    let baselinePower := JS.sum (baselinePowers s) / JS.length (baselinePowers s) in
    let velocityDrop := ((baselineVel - rep_peakVelocity rep) / baselineVel) * 100 in
    let powerDrop := ((baselinePower - power rep) / baselinePower) * 100 in
    let cfg := config s in
    let alert ty text drop sev pct := {|
      alert_timestamp := rep_endTime rep;
      alert_setNumber := (setCounter s + 1)%Z;
      alert_repNumber := repNumber rep;
      alert_type := ty;
      message := (text, drop);
      severity := sev;
      velocityDropPercent := pct |} in
    let '(s, ev1) :=
      if ge velocityDrop (velocityDropCritical cfg) then
        emitFatigueAlert
          (alert velocity_drop Critical_velocity_drop velocityDrop critical
                 (Some velocityDrop)) s
      else if ge velocityDrop (velocityDropWarning cfg) then
        emitFatigueAlert
          (alert velocity_drop Velocity_dropping velocityDrop warning
                 (Some velocityDrop)) s
      else (s, []) in
    let '(s, ev2) :=
      if ge powerDrop (powerDropCritical cfg) then
        emitFatigueAlert
          (alert power_drop Critical_power_drop powerDrop critical None) s
      else if ge powerDrop (powerDropWarning cfg) then
        emitFatigueAlert
          (alert power_drop Power_dropping powerDrop warning None) s
      else (s, []) in
    (s, ev1 ++ ev2).

(** [finalizeRep(timestamp)] *)
Definition finalizeRep (timestamp : float) (s : Detector) : Detector * list Event :=
  let repStartTime := currentRepStartTime s in
  let repEndTime := timestamp in
  let duration := repEndTime - repStartTime in
  let inRep {A} (e : float * A) := ge (fst e) repStartTime && le (fst e) repEndTime in
  let repVelocities := filter inRep (velocityHistory s) in
  let repHeights := filter inRep (heightHistory s) in
  let repAngles := filter inRep (angleHistory s) in
  let peakVelocity := JS.Math_max_list (map snd repVelocities) in
  let meanVelocity :=
    fold_left (fun sum v => sum + snd v) repVelocities 0 / JS.length repVelocities in
  let peakHeight := JS.Math_max_list (map snd repHeights) in
  let lockoutPhase := find (fun p => phase_eqb (pi_phase p) LOCKOUT) (phaseHistory s) in
  let lockoutTime :=
    match lockoutPhase with
    | Some p => pi_endTime p - pi_startTime p
    | None => 0
    end in
  let hand := currentHand s in
  let jointAngles := {|
    maxShoulderAbduction :=
      JS.Math_max_list (map (fun a => shoulderAbductionOf hand (snd a)) repAngles);
    maxElbowAngle := JS.Math_max_list (map (fun a => elbowOf hand (snd a)) repAngles);
    minHipAngle := JS.Math_min_list (map (fun a => hipOf hand (snd a)) repAngles);
    lockoutShoulderAngle :=
      match lockoutPhase, rev repAngles with
      | Some _, a :: _ => shoulderAbductionOf hand (snd a)
      | _, _ => 0
      end |} in
  let power := calculatePower peakVelocity meanVelocity duration s in
  let s := set_repCounter (repCounter s + 1)%Z s in
  let repData := {|
    repNumber := repCounter s;
    rep_startTime := repStartTime;
    rep_endTime := repEndTime;
    rep_duration := duration;
    rep_peakVelocity := peakVelocity;
    meanVelocity := meanVelocity;
    peakHeight := peakHeight;
    lockoutTime := lockoutTime;
    phases :=
      map (fun p => {| rp_phase := pi_phase p;
                       rp_startTime := pi_startTime p;
                       rp_endTime := pi_endTime p;
                       rp_duration := pi_endTime p - pi_startTime p |})
          (phaseHistory s);
    rep_jointAngles := jointAngles;
    power := power;
    rep_hand := currentHand s |} in
  let s := set_currentSetReps (currentSetReps s ++ [repData]) s in
  let s := set_lastRepEndTime repEndTime s in
  let '(s, alerts) := checkFatigue repData s in
  let s :=
    if (List.length (baselineVelocities s) <? 3)%nat then
      let s := set_baselineVelocities (baselineVelocities s ++ [peakVelocity]) s in
      set_baselinePowers (baselinePowers s ++ [power]) s
    else s in
  let s := set_repInProgress false s in
  let s := set_phaseHistory [] s in
  (s, alerts ++ [RepEvent repData]).

(** [finalizeSet()] *)
Definition finalizeSet (s : Detector) : Detector * list Event :=
  if lt (JS.length (currentSetReps s)) (minRepsForSet (config s)) then
    (set_currentSetReps [] s, [])
  else
    let s := set_setCounter (setCounter s + 1)%Z s in
    let reps := currentSetReps s in
    let endTime := lastRepEndTime s in
    let velocities := map rep_peakVelocity reps in
    let powers := map power reps in
    let avgVelocity := JS.sum velocities / JS.length velocities in
    let peakVel := JS.Math_max_list velocities in
    let avgPower := JS.sum powers / JS.length powers in
    let firstRepVel := JS.index velocities 0 in
    let lastRepVel := JS.last velocities in
    let velocityDropoff := ((firstRepVel - lastRepVel) / firstRepVel) * 100 in
    let fatigueFactor :=
      JS.Math_min 1 (JS.Math_max 0
        (velocityDropoff / 50
         + (JS.index powers 0 - JS.last powers) / JS.index powers 0 / 2)) in
    let setData := {|
      setNumber := setCounter s;
      set_startTime := currentSetStartTime s;
      set_endTime := endTime;
      set_duration := endTime - currentSetStartTime s;
      set_hand := currentHand s;
      reps := reps;
      set_totalReps := JS.length reps;
      set_averageVelocity := avgVelocity;
      set_peakVelocity := peakVel;
      velocityDropoff := velocityDropoff;
      set_averagePower := avgPower;
      fatigueFactor := fatigueFactor;
      set_kettlebellWeight := kettlebellWeight (config s) |} in
    let s := set_sets (sets s ++ [setData]) s in
    let s := set_currentSetReps [] s in
    let s := set_baselineVelocities [] s in
    let s := set_baselinePowers [] s in
    (s, [SetEvent setData]).

(** [private onPhaseChange(oldPhase, newPhase, timestamp)] (lines 366-401),
    the handler of a phase change.  The public method of the same name
    declared after it takes its place in the class: see [onPhaseChange]. *)
Definition onPhaseChange_handler (oldPhase newPhase : SnatchPhase) (timestamp : float)
    (s : Detector) : Detector * list Event :=
  let s :=
    if gt (phaseStartTime s) 0 then
      set_phaseHistory
        (phaseHistory s ++ [ {| pi_phase := oldPhase;
                                pi_startTime := phaseStartTime s;
                                pi_endTime := timestamp |} ]) s
    else s in
  let s := set_currentPhase newPhase s in
  let s := set_phaseStartTime timestamp s in
  let notified := [PhaseEvent newPhase] in
  if phase_eqb newPhase BACKSWING && negb (repInProgress s) then
    let s := set_repInProgress true s in
    let s := set_currentRepStartTime timestamp s in
    let s := set_phaseHistory [] s in
    (s, notified)
  else if phase_eqb oldPhase LOCKOUT && phase_eqb newPhase DROP then
    if repInProgress s then
      let '(s, ev) := finalizeRep timestamp s in (s, notified ++ ev)
    else (s, notified)
  else if phase_eqb newPhase IDLE && repInProgress s then
    let s := set_repInProgress false s in
    let s := set_phaseHistory [] s in
    (s, notified)
  else (s, notified).

(** [onPhaseChange(callback)] (lines 684-690), the method the name
    [onPhaseChange] denotes at run time.  The function it returns, which
    removes the entry again, is not modelled: [processFrame] drops it. *)
Definition onPhaseChange (callback : PhaseCallback) (s : Detector) : Detector :=
  set_phaseCallbacks (phaseCallbacks s ++ [callback]) s.

(** [processFrame(frame)].  The call
    [this.onPhaseChange(this.currentPhase, newPhase, timestamp)] passes the
    old phase as [callback]; the two further arguments are ignored. *)
Definition processFrame (frame : PoseFrame) (s : Detector) : Detector * list Event :=
  if negb (isActive s) then (s, [])
  else
    let timestamp := timestamp frame in
    let wristPosition := wristPosition frame in
    let jointAngles := jointAngles frame in
    let '(filter, filteredState) :=
      Kalman.update (- velocityY wristPosition) timestamp (velocityFilter s) in
    let s := set_velocityFilter filter s in
    let verticalVelocity := Kalman.velocity filteredState in
    let normalizedHeight := 1 - y wristPosition in
    let heightRatio :=
      (hipHeight frame - y wristPosition) / (hipHeight frame - shoulderHeight frame) in
    let s := set_velocityHistory (velocityHistory s ++ [(timestamp, verticalVelocity)]) s in
    let s := set_heightHistory (heightHistory s ++ [(timestamp, normalizedHeight)]) s in
    let s := set_angleHistory (angleHistory s ++ [(timestamp, jointAngles)]) s in
    let maxHistoryLength := 300%nat in
    let s :=
      if (maxHistoryLength <? List.length (velocityHistory s))%nat then
        let s := set_velocityHistory (tl (velocityHistory s)) s in
        let s := set_heightHistory (tl (heightHistory s)) s in
        set_angleHistory (tl (angleHistory s)) s
      else s in
    let newPhase := detectPhase verticalVelocity heightRatio jointAngles timestamp s in
    let s :=
      if negb (phase_eqb newPhase (currentPhase s))
      then onPhaseChange (NotAFunction (currentPhase s)) s
      else s in
    if (0 <? List.length (currentSetReps s))%nat
       && gt (timestamp - lastRepEndTime s) (maxRepGap (config s))
       && phase_eqb (currentPhase s) IDLE
    then
      let '(s, ev) := finalizeSet s in
      (set_currentSetStartTime timestamp s, ev)
    else (s, []).

(** [getSessionData(endTime)] *)
Definition getSessionData (endTime : float) (s : Detector) : SessionData :=
  let allReps := flat_map reps (sets s) in
  let allVelocities := map rep_peakVelocity allReps in
  let allPowers := map power allReps in
  {| sessionId := sessionStartTime s;
     session_startTime := sessionStartTime s;
     session_endTime := endTime;
     session_duration := endTime - sessionStartTime s;
     session_kettlebellWeight := kettlebellWeight (config s);
     session_sets := sets s;
     totalReps := JS.length allReps;
     totalSets := JS.length (sets s);
     session_averageVelocity :=
       if (0 <? List.length allVelocities)%nat
       then JS.sum allVelocities / JS.length allVelocities else 0;
     session_peakVelocity :=
       if (0 <? List.length allVelocities)%nat
       then JS.Math_max_list allVelocities else 0;
     session_averagePower :=
       if (0 <? List.length allPowers)%nat
       then JS.sum allPowers / JS.length allPowers else 0;
     totalWork :=
       fold_left (fun sum r => sum + power r * (rep_duration r / 1000)) allReps 0;
     session_fatigueAlerts := fatigueAlerts s |}.

(** [stop()]; [now] is the reading of [performance.now()] taken after the
    set has been finalized. *)
Definition stop (now : float) (s : Detector) : Detector * list Event * SessionData :=
  let s := set_isActive false s in
  let '(s, ev) :=
    if ge (JS.length (currentSetReps s)) (minRepsForSet (config s))
    then finalizeSet s
    else (s, []) in
  let endTime := now in
  (s, ev, getSessionData endTime s).

(** [switchHand(hand)]; [now] is the reading of [performance.now()]. *)
Definition switchHand (hand : Hand) (now : float) (s : Detector)
    : Detector * list Event :=
  let '(s, ev) :=
    if (0 <? List.length (currentSetReps s))%nat then finalizeSet s else (s, []) in
  let s := set_currentHand hand s in
  let s := set_currentSetStartTime now s in
  (s, ev).

(** [setKettlebellWeight(weight)] *)
Definition setKettlebellWeight (weight : float) (s : Detector) : Detector :=
  let c := config s in
  set_config
    (mkSnatchDetectorConfig weight (backswingMin c) (pullMin c) (lockoutMax c)
       (backswingHeightRatio c) (lockoutHeightRatio c) (velocityDropWarning c)
       (velocityDropCritical c) (powerDropWarning c) (powerDropCritical c)
       (maxRepGap c) (minRepsForSet c)) s.

Definition getCurrentPhase (s : Detector) : SnatchPhase := currentPhase s.
Definition getCurrentSetReps (s : Detector) : list RepData := currentSetReps s.
Definition isRepInProgress (s : Detector) : bool := repInProgress s.

(* ------------------------------------------------------------------------- *)
(** ** KalmanFilter.ts: [KalmanFilter3D] and [AngleKalmanFilter] *)
(* ------------------------------------------------------------------------- *)

(** [Math.sqrt], taken as the correctly rounded square root of binary64. *)
Definition Math_sqrt (v : float) : float := PrimFloat.sqrt v.

Module Kalman3D.

(** The [{ x, y, z }] objects passed to and returned by the filter. *)
Record Vec3 := mkVec3 {
  vec_x : float;
  vec_y : float;
  vec_z : float;
}.

Record KalmanFilter3D := mkKalmanFilter3D {
  filterX : Kalman.KalmanFilter1D;
  filterY : Kalman.KalmanFilter1D;
  filterZ : Kalman.KalmanFilter1D;
}.

(** [constructor(config: Partial<KalmanConfig> = {})] *)
Definition new (c : Kalman.PartialKalmanConfig) : KalmanFilter3D :=
  {| filterX := Kalman.new c; filterY := Kalman.new c; filterZ := Kalman.new c |}.

(** [reset(initialPosition = { x: 0, y: 0, z: 0 })] *)
Definition reset (initialPosition : Vec3) (f : KalmanFilter3D) : KalmanFilter3D :=
  {| filterX := Kalman.reset (vec_x initialPosition) (filterX f);
     filterY := Kalman.reset (vec_y initialPosition) (filterY f);
     filterZ := Kalman.reset (vec_z initialPosition) (filterZ f) |}.

(** [update(measurement, timestamp)]: the filter afterwards, and the
    position and velocity returned. *)
Definition update (measurement : Vec3) (timestamp : float) (f : KalmanFilter3D)
    : KalmanFilter3D * (Vec3 * Vec3) :=
  let '(fx, stateX) := Kalman.update (vec_x measurement) timestamp (filterX f) in
  let '(fy, stateY) := Kalman.update (vec_y measurement) timestamp (filterY f) in
  let '(fz, stateZ) := Kalman.update (vec_z measurement) timestamp (filterZ f) in
  ({| filterX := fx; filterY := fy; filterZ := fz |},
   ({| vec_x := Kalman.position stateX;
       vec_y := Kalman.position stateY;
       vec_z := Kalman.position stateZ |},
    {| vec_x := Kalman.velocity stateX;
       vec_y := Kalman.velocity stateY;
       vec_z := Kalman.velocity stateZ |})).

Definition getPosition (f : KalmanFilter3D) : Vec3 :=
  {| vec_x := Kalman.getPosition (filterX f);
     vec_y := Kalman.getPosition (filterY f);
     vec_z := Kalman.getPosition (filterZ f) |}.

Definition getVelocity (f : KalmanFilter3D) : Vec3 :=
  {| vec_x := Kalman.getVelocity (filterX f);
     vec_y := Kalman.getVelocity (filterY f);
     vec_z := Kalman.getVelocity (filterZ f) |}.

(** [getSpeed()] *)
Definition getSpeed (f : KalmanFilter3D) : float :=
  let vel := getVelocity f in
  Math_sqrt (vec_x vel * vec_x vel + vec_y vel * vec_y vel + vec_z vel * vec_z vel).

End Kalman3D.

Module AngleFilter.

(** A key of a [Partial<KalmanConfig>] object as the object spread sees it:
    left out, present with the value [undefined], or present with a
    number. *)
Inductive Field : Set := Absent | Undefined | Value (v : float).

Record PartialConfig := mkPartialConfig {
  processNoise : Field;
  measurementNoise : Field;
  initialPositionVariance : Field;
  initialVelocityVariance : Field;
}.

(** [config.key]: [undefined] for a key left out. *)
Definition read (f : Field) : option float :=
  match f with Value v => Some v | _ => None end.

(** One key of [{ key: base, ...config }]: an own key of [config] wins,
    whatever its value. *)
Definition spread (base over : Field) : Field :=
  match over with Absent => base | _ => over end.

(** The object as [KalmanFilter1D]'s constructor reads it. *)
Definition as_partial (c : PartialConfig) : Kalman.PartialKalmanConfig :=
  Kalman.mkPartialKalmanConfig (read (processNoise c)) (read (measurementNoise c))
    (read (initialPositionVariance c)) (read (initialVelocityVariance c)).

Record AngleKalmanFilter := mkAngleKalmanFilter {
  filter : Kalman.KalmanFilter1D;
}.

(** [constructor(config: Partial<KalmanConfig> = {})] *)
Definition new (c : PartialConfig) : AngleKalmanFilter :=
  let literal := {|
    processNoise :=
      spread (Value (Kalman.nullish (read (processNoise c)) 0.05)) (processNoise c);
    measurementNoise :=
      spread (Value (Kalman.nullish (read (measurementNoise c)) 0.3)) (measurementNoise c);
    initialPositionVariance := spread Absent (initialPositionVariance c);
    initialVelocityVariance := spread Absent (initialVelocityVariance c);
  |} in
  {| filter := Kalman.new (as_partial literal) |}.

(** [reset(initialAngle: number = 0)] *)
Definition reset (initialAngle : float) (f : AngleKalmanFilter) : AngleKalmanFilter :=
  {| filter := Kalman.reset initialAngle (filter f) |}.

(** [update(angleDegrees, timestamp)]: the filter afterwards and the pair
    [{ angle, angularVelocity }]. *)
Definition update (angleDegrees timestamp : float) (f : AngleKalmanFilter)
    : AngleKalmanFilter * (float * float) :=
  let '(g, state) := Kalman.update angleDegrees timestamp (filter f) in
  ({| filter := g |}, (Kalman.position state, Kalman.velocity state)).

Definition getAngle (f : AngleKalmanFilter) : float := Kalman.getPosition (filter f).
Definition getAngularVelocity (f : AngleKalmanFilter) : float :=
  Kalman.getVelocity (filter f).

End AngleFilter.

(* ------------------------------------------------------------------------- *)
(** ** PoseDetectionService.ts: landmark filtering and the dominant hand *)
(* ------------------------------------------------------------------------- *)

Module Pose.

(** [interface Landmark] *)
Record Landmark := mkLandmark {
  lm_x : float;
  lm_y : float;
  lm_z : float;
  lm_visibility : float;
}.

(** ['left' | 'right' | 'auto'] *)
Inductive HandSetting : Set := auto | fixed (h : Hand).

(** The names under which the angle filters are kept. *)
Inductive AngleName : Set :=
  | leftElbow_ | rightElbow_ | leftShoulder_ | rightShoulder_ | leftHip_ | rightHip_
  | leftKnee_ | rightKnee_ | spine_ | leftShoulderAbduction_ | rightShoulderAbduction_.

Definition angleName_eqb (a b : AngleName) : bool :=
  match a, b with
  | leftElbow_, leftElbow_ | rightElbow_, rightElbow_ | leftShoulder_, leftShoulder_
  | rightShoulder_, rightShoulder_ | leftHip_, leftHip_ | rightHip_, rightHip_
  | leftKnee_, leftKnee_ | rightKnee_, rightKnee_ | spine_, spine_
  | leftShoulderAbduction_, leftShoulderAbduction_
  | rightShoulderAbduction_, rightShoulderAbduction_ => true
  | _, _ => false
  end.

(** A JavaScript [Map], as the list of its entries in insertion order. *)
Definition map_get {K V} (eqb : K -> K -> bool) (k : K) (m : list (K * V)) : option V :=
  match find (fun e => eqb (fst e) k) m with
  | Some e => Some (snd e)
  | None => None
  end.

Definition map_set {K V} (eqb : K -> K -> bool) (k : K) (v : V) (m : list (K * V))
    : list (K * V) :=
  if existsb (fun e => eqb (fst e) k) m
  then map (fun e => if eqb (fst e) k then (k, v) else e) m
  else m ++ [(k, v)].

(** The part of the service that pose processing reads and writes. *)
Record PoseDetectionService := mkPoseDetectionService {
  config_dominantHand : HandSetting;
  landmarkFilters : list (nat * Kalman3D.KalmanFilter3D);
  angleFilters : list (AngleName * AngleFilter.AngleKalmanFilter);
  dominantHand : Hand;
  handActivityCount_left : Z;
  handActivityCount_right : Z;
}.

(** [POSE_LANDMARKS] *)
Definition LEFT_SHOULDER := 11%nat.
Definition RIGHT_SHOULDER := 12%nat.
Definition LEFT_ELBOW := 13%nat.
Definition RIGHT_ELBOW := 14%nat.
Definition LEFT_WRIST := 15%nat.
Definition RIGHT_WRIST := 16%nat.
Definition LEFT_HIP := 23%nat.
Definition RIGHT_HIP := 24%nat.
Definition LEFT_KNEE := 25%nat.
Definition RIGHT_KNEE := 26%nat.

Definition keyLandmarks : list nat :=
  [LEFT_WRIST; RIGHT_WRIST; LEFT_ELBOW; RIGHT_ELBOW; LEFT_SHOULDER; RIGHT_SHOULDER;
   LEFT_HIP; RIGHT_HIP; LEFT_KNEE; RIGHT_KNEE].

Definition angleNames : list AngleName :=
  [leftElbow_; rightElbow_; leftShoulder_; rightShoulder_; leftHip_; rightHip_;
   leftKnee_; rightKnee_; spine_; leftShoulderAbduction_; rightShoulderAbduction_].

(** [initializeFilters()] *)
Definition initializeFilters (s : PoseDetectionService) : PoseDetectionService :=
  let lf :=
    fold_left
      (fun m idx =>
         map_set Nat.eqb idx
           (Kalman3D.new (Kalman.mkPartialKalmanConfig (Some 0.1) (Some 0.3) None None)) m)
      keyLandmarks (landmarkFilters s) in
  let af :=
    fold_left
      (fun m name =>
         map_set angleName_eqb name
           (AngleFilter.new
              (AngleFilter.mkPartialConfig (AngleFilter.Value 0.05) (AngleFilter.Value 0.2)
                 AngleFilter.Absent AngleFilter.Absent)) m)
      angleNames (angleFilters s) in
  mkPoseDetectionService (config_dominantHand s) lf af (dominantHand s)
    (handActivityCount_left s) (handActivityCount_right s).

(** [constructor(config)], as far as the fields above go:
    [dominantHand: config.dominantHand ?? 'auto']. *)
Definition new (dominantHand_opt : option HandSetting) : PoseDetectionService :=
  initializeFilters
    {| config_dominantHand :=
         match dominantHand_opt with Some h => h | None => auto end;
       landmarkFilters := [];
       angleFilters := [];
       dominantHand := Right;
       handActivityCount_left := 0;
       handActivityCount_right := 0 |}.

(** The landmark returned for a landmark that is not filtered. *)
Definition unfiltered (lm : Landmark) : FilteredLandmark :=
  mkFilteredLandmark (lm_x lm) (lm_y lm) (lm_z lm) (lm_visibility lm) 0 0 0 0.

(** The body of the [map] callback of [filterLandmarks]. *)
Definition filterLandmark (idx : nat) (lm : Landmark) (timestamp : float)
    (filters : list (nat * Kalman3D.KalmanFilter3D))
    : list (nat * Kalman3D.KalmanFilter3D) * FilteredLandmark :=
  match map_get Nat.eqb idx filters with
  | Some filter =>
      if gt (lm_visibility lm) 0.5 then
        let '(filter, (position, velocity)) :=
          Kalman3D.update (Kalman3D.mkVec3 (lm_x lm) (lm_y lm) (lm_z lm)) timestamp filter in
        (map_set Nat.eqb idx filter filters,
         mkFilteredLandmark
           (Kalman3D.vec_x position) (Kalman3D.vec_y position) (Kalman3D.vec_z position)
           (lm_visibility lm)
           (Kalman3D.vec_x velocity) (Kalman3D.vec_y velocity) (Kalman3D.vec_z velocity)
           (Math_sqrt (JS.sq (Kalman3D.vec_x velocity) + JS.sq (Kalman3D.vec_y velocity)
                       + JS.sq (Kalman3D.vec_z velocity))))
      else (filters, unfiltered lm)
  | None => (filters, unfiltered lm)
  end.

(** [landmarks.map((lm, idx) => ...)] from index [idx] on. *)
Fixpoint filterLandmarks_from (idx : nat) (landmarks : list Landmark) (timestamp : float)
    (filters : list (nat * Kalman3D.KalmanFilter3D))
    : list (nat * Kalman3D.KalmanFilter3D) * list FilteredLandmark :=
  match landmarks with
  | [] => (filters, [])
  | lm :: rest =>
      let '(filters, out) := filterLandmark idx lm timestamp filters in
      let '(filters, outs) := filterLandmarks_from (S idx) rest timestamp filters in
      (filters, out :: outs)
  end.

(** [filterLandmarks(landmarks, timestamp)] *)
Definition filterLandmarks (landmarks : list Landmark) (timestamp : float)
    (s : PoseDetectionService) : PoseDetectionService * list FilteredLandmark :=
  let '(filters, out) := filterLandmarks_from 0 landmarks timestamp (landmarkFilters s) in
  (mkPoseDetectionService (config_dominantHand s) filters (angleFilters s) (dominantHand s)
     (handActivityCount_left s) (handActivityCount_right s),
   out).

(** [filterAngle(name, rawAngle)], the helper of [calculateJointAngles]. *)
Definition filterAngle (name : AngleName) (rawAngle timestamp : float)
    (s : PoseDetectionService) : PoseDetectionService * float :=
  match map_get angleName_eqb name (angleFilters s) with
  | Some filter =>
      let '(filter, (angle, _)) := AngleFilter.update rawAngle timestamp filter in
      (mkPoseDetectionService (config_dominantHand s) (landmarkFilters s)
         (map_set angleName_eqb name filter (angleFilters s)) (dominantHand s)
         (handActivityCount_left s) (handActivityCount_right s),
       angle)
  | None => (s, rawAngle)
  end.

Definition set_hand (h : Hand) (s : PoseDetectionService) : PoseDetectionService :=
  mkPoseDetectionService (config_dominantHand s) (landmarkFilters s) (angleFilters s) h
    (handActivityCount_left s) (handActivityCount_right s).

Definition set_counts (l r : Z) (s : PoseDetectionService) : PoseDetectionService :=
  mkPoseDetectionService (config_dominantHand s) (landmarkFilters s) (angleFilters s)
    (dominantHand s) l r.

(** [detectDominantHand(filteredLandmarks)].  [None] stands for the
    TypeError thrown when a wrist landmark is missing from the array. *)
Definition detectDominantHand (filteredLandmarks : list FilteredLandmark)
    (s : PoseDetectionService) : option PoseDetectionService :=
  match config_dominantHand s with
  | fixed h => Some (set_hand h s)
  | auto =>
      match nth_error filteredLandmarks LEFT_WRIST,
            nth_error filteredLandmarks RIGHT_WRIST with
      | Some leftWrist, Some rightWrist =>
          let s :=
            if gt (speed leftWrist) (speed rightWrist + 0.05) then
              set_counts (handActivityCount_left s + 1) (handActivityCount_right s) s
            else if gt (speed rightWrist) (speed leftWrist + 0.05) then
              set_counts (handActivityCount_left s) (handActivityCount_right s + 1) s
            else s in
          let s :=
            if (handActivityCount_right s + 10 <? handActivityCount_left s)%Z then
              set_hand Left s
            else if (handActivityCount_left s + 10 <? handActivityCount_right s)%Z then
              set_hand Right s
            else s in
          Some s
      | _, _ => None
      end
  end.

(** [resetFilters()] *)
Definition resetFilters (s : PoseDetectionService) : PoseDetectionService :=
  mkPoseDetectionService (config_dominantHand s)
    (map (fun e => (fst e, Kalman3D.reset (Kalman3D.mkVec3 0 0 0) (snd e)))
       (landmarkFilters s))
    (map (fun e => (fst e, AngleFilter.reset 0 (snd e))) (angleFilters s))
    (dominantHand s) (handActivityCount_left s) (handActivityCount_right s).

(** [setDominantHand(hand)] *)
Definition setDominantHand (hand : Hand) (s : PoseDetectionService)
    : PoseDetectionService :=
  mkPoseDetectionService (fixed hand) (landmarkFilters s) (angleFilters s) hand 0 0.

Definition getDominantHand (s : PoseDetectionService) : Hand := dominantHand s.

(** Pose results one after the other: the hand detection of each, oldest
    first, stopping at the first that throws. *)
Fixpoint detections (frames : list (list FilteredLandmark)) (s : PoseDetectionService)
    : option PoseDetectionService :=
  match frames with
  | [] => Some s
  | fl :: frames =>
      match detectDominantHand fl s with
      | Some s => detections frames s
      | None => None
      end
  end.

End Pose.


(* ------------------------------------------------------------------------- *)
(** ** stores.ts: the application state and its actions *)
(* ------------------------------------------------------------------------- *)

Module Stores.

Record SessionState := mkSessionState {
  isActive : bool;
  isPaused : bool;
  startTime : option float;          (* number | null *)
  kettlebellWeight : float;
  dominantHand : Hand;
  currentPhase : SnatchPhase;
}.

Inductive Trend : Set := up | down | stable.

(** [repCount] and [setCount] only ever hold small non-negative integers
    and are kept in [Z], like the counters of the detector. *)
Record RealtimeMetrics := mkRealtimeMetrics {
  currentVelocity : float;
  peakVelocity : float;
  currentPower : float;
  repCount : Z;
  setCount : Z;
  lastRepVelocity : float;
  velocityTrend : Trend;
  jointAngles : option JointAngles;  (* JointAngles | null *)
}.

Record VelocityDataPoint := mkVelocityDataPoint {
  point_timestamp : float;
  point_velocity : float;
  point_repNumber : option Z;        (* repNumber?: number *)
}.

(** The writable stores that the session actions read and write, taken
    together ([cameraState] and [settings] are not among them). *)
Record Stores := mkStores {
  sessionState : SessionState;
  realtimeMetrics : RealtimeMetrics;
  reps : list RepData;
  sets : list SetData;
  fatigueAlerts : list FatigueAlert;
  velocityHistory : list VelocityDataPoint;
}.

Definition initialSessionState : SessionState :=
  {| isActive := false; isPaused := false; startTime := None;
     kettlebellWeight := 16; dominantHand := Right; currentPhase := IDLE |}.

Definition initialRealtimeMetrics : RealtimeMetrics :=
  {| currentVelocity := 0; peakVelocity := 0; currentPower := 0;
     repCount := 0; setCount := 0; lastRepVelocity := 0;
     velocityTrend := stable; jointAngles := None |}.

(** The stores as the module creates them. *)
Definition initial : Stores :=
  {| sessionState := initialSessionState;
     realtimeMetrics := initialRealtimeMetrics;
     reps := []; sets := []; fatigueAlerts := []; velocityHistory := [] |}.

Definition set_sessionState (v : SessionState) (st : Stores) : Stores :=
  mkStores v (realtimeMetrics st) (reps st) (sets st) (fatigueAlerts st) (velocityHistory st).
Definition set_realtimeMetrics (v : RealtimeMetrics) (st : Stores) : Stores :=
  mkStores (sessionState st) v (reps st) (sets st) (fatigueAlerts st) (velocityHistory st).
Definition set_reps (v : list RepData) (st : Stores) : Stores :=
  mkStores (sessionState st) (realtimeMetrics st) v (sets st) (fatigueAlerts st)
    (velocityHistory st).
Definition set_sets (v : list SetData) (st : Stores) : Stores :=
  mkStores (sessionState st) (realtimeMetrics st) (reps st) v (fatigueAlerts st)
    (velocityHistory st).
Definition set_fatigueAlerts (v : list FatigueAlert) (st : Stores) : Stores :=
  mkStores (sessionState st) (realtimeMetrics st) (reps st) (sets st) v (velocityHistory st).
Definition set_velocityHistory (v : list VelocityDataPoint) (st : Stores) : Stores :=
  mkStores (sessionState st) (realtimeMetrics st) (reps st) (sets st) (fatigueAlerts st) v.

(** [resetSession()] *)
Definition resetSession (st : Stores) : Stores :=
  let st := set_sessionState initialSessionState st in
  let st := set_realtimeMetrics initialRealtimeMetrics st in
  let st := set_reps [] st in
  let st := set_sets [] st in
  let st := set_fatigueAlerts [] st in
  set_velocityHistory [] st.

(** [addRep(rep)] *)
Definition addRep (rep : RepData) (st : Stores) : Stores :=
  let st := set_reps (reps st ++ [rep]) st in
  let st :=
    set_velocityHistory
      (velocityHistory st
       ++ [ {| point_timestamp := rep_endTime rep;
               point_velocity := rep_peakVelocity rep;
               point_repNumber := Some (repNumber rep) |} ]) st in
  let current := realtimeMetrics st in
  let velocityTrend :=
    if gt (rep_peakVelocity rep) (lastRepVelocity current) then up
    else if lt (rep_peakVelocity rep) (lastRepVelocity current) then down
    else stable in
  set_realtimeMetrics
    (mkRealtimeMetrics (currentVelocity current)
       (JS.Math_max (peakVelocity current) (rep_peakVelocity rep))
       (currentPower current) (repCount current + 1)%Z (setCount current)
       (rep_peakVelocity rep) velocityTrend (jointAngles current)) st.

(** [addSet(set)] *)
Definition addSet (set : SetData) (st : Stores) : Stores :=
  let st := set_sets (sets st ++ [set]) st in
  let current := realtimeMetrics st in
  set_realtimeMetrics
    (mkRealtimeMetrics (currentVelocity current) (peakVelocity current)
       (currentPower current) (repCount current) (setCount current + 1)%Z
       (lastRepVelocity current) (velocityTrend current) (jointAngles current)) st.

(** [addFatigueAlert(alert)] *)
Definition addFatigueAlert (alert : FatigueAlert) (st : Stores) : Stores :=
  set_fatigueAlerts (fatigueAlerts st ++ [alert]) st.

(** [current.slice(-299)] *)
Definition slice_last_299 {A} (xs : list A) : list A :=
  skipn (List.length xs - 299) xs.

(** [updateRealtimeVelocity(velocity, timestamp)] *)
Definition updateRealtimeVelocity (v t : float) (st : Stores) : Stores :=
  let current := realtimeMetrics st in
  let st :=
    set_realtimeMetrics
      (mkRealtimeMetrics v (peakVelocity current) (currentPower current)
         (repCount current) (setCount current) (lastRepVelocity current)
         (velocityTrend current) (jointAngles current)) st in
  let current := velocityHistory st in
  let newHistory :=
    if (300 <? List.length current)%nat then slice_last_299 current else current in
  set_velocityHistory
    (newHistory
     ++ [ {| point_timestamp := t; point_velocity := v; point_repNumber := None |} ]) st.

(** [updatePhase(phase)] *)
Definition updatePhase (phase : SnatchPhase) (st : Stores) : Stores :=
  let current := sessionState st in
  set_sessionState
    (mkSessionState (isActive current) (isPaused current) (startTime current)
       (kettlebellWeight current) (dominantHand current) phase) st.

(** [updateJointAngles(angles)] *)
Definition updateJointAngles (angles : JointAngles) (st : Stores) : Stores :=
  let current := realtimeMetrics st in
  set_realtimeMetrics
    (mkRealtimeMetrics (currentVelocity current) (peakVelocity current)
       (currentPower current) (repCount current) (setCount current)
       (lastRepVelocity current) (velocityTrend current) (Some angles)) st.

(** [startSession(weight, hand)]; [now] is the reading of [Date.now()]. *)
Definition startSession (weight : float) (hand : Hand) (now : float) (st : Stores)
    : Stores :=
  let st := resetSession st in
  let current := sessionState st in
  set_sessionState
    (mkSessionState true false (Some now) weight hand (currentPhase current)) st.

(** [stopSession()] *)
Definition stopSession (st : Stores) : Stores :=
  let current := sessionState st in
  set_sessionState
    (mkSessionState false false (startTime current) (kettlebellWeight current)
       (dominantHand current) (currentPhase current)) st.

(** [togglePause()] *)
Definition togglePause (st : Stores) : Stores :=
  let current := sessionState st in
  set_sessionState
    (mkSessionState (isActive current) (negb (isPaused current)) (startTime current)
       (kettlebellWeight current) (dominantHand current) (currentPhase current)) st.

(** [switchHand(hand)] *)
Definition switchHand (hand : Hand) (st : Stores) : Stores :=
  let current := sessionState st in
  set_sessionState
    (mkSessionState (isActive current) (isPaused current) (startTime current)
       (kettlebellWeight current) hand (currentPhase current)) st.

(** The derived store [latestFatigueAlert]. *)
Definition latestFatigueAlert (st : Stores) : option FatigueAlert :=
  if (0 <? List.length (fatigueAlerts st))%nat
  then nth_error (fatigueAlerts st) (List.length (fatigueAlerts st) - 1)
  else None.

(** The store actions, as calls. *)
Inductive Action :=
  | ResetSession
  | AddRep (rep : RepData)
  | AddSet (set : SetData)
  | AddFatigueAlert (alert : FatigueAlert)
  | UpdateRealtimeVelocity (velocity timestamp : float)
  | UpdatePhase (phase : SnatchPhase)
  | UpdateJointAngles (angles : JointAngles)
  | StartSession (weight : float) (hand : Hand) (now : float)
  | StopSession
  | TogglePause
  | SwitchHand (hand : Hand).

Definition act (st : Stores) (a : Action) : Stores :=
  match a with
  | ResetSession => resetSession st
  | AddRep rep => addRep rep st
  | AddSet set => addSet set st
  | AddFatigueAlert alert => addFatigueAlert alert st
  | UpdateRealtimeVelocity v t => updateRealtimeVelocity v t st
  | UpdatePhase phase => updatePhase phase st
  | UpdateJointAngles angles => updateJointAngles angles st
  | StartSession weight hand now => startSession weight hand now st
  | StopSession => stopSession st
  | TogglePause => togglePause st
  | SwitchHand hand => switchHand hand st
  end.

Definition after (st : Stores) (actions : list Action) : Stores :=
  fold_left act actions st.

End Stores.

(* ------------------------------------------------------------------------- *)
(** ** Runs of a detector                                                     *)
(* ------------------------------------------------------------------------- *)

(** The public operations a client may invoke, with the clock readings and
    arguments they consume. *)
Inductive Op :=
  | OpStart (hand : Hand) (now : float)
  | OpStop (now : float)
  | OpPause
  | OpResume
  | OpReset
  | OpProcessFrame (frame : PoseFrame)
  | OpSwitchHand (hand : Hand) (now : float)
  | OpSetKettlebellWeight (weight : float).

(** One call: the detector afterwards and the events delivered during it. *)
Definition step (s : Detector) (op : Op) : Detector * list Event :=
  match op with
  | OpStart hand now => (start hand now s, [])
  | OpStop now => let '(s, ev, _) := stop now s in (s, ev)
  | OpPause => (pause s, [])
  | OpResume => (resume s, [])
  | OpReset => (reset s, [])
  | OpProcessFrame frame => processFrame frame s
  | OpSwitchHand hand now => switchHand hand now s
  | OpSetKettlebellWeight w => (setKettlebellWeight w s, [])
  end.

(** A sequence of calls, oldest first. *)
Fixpoint run (s : Detector) (ops : list Op) : Detector * list Event :=
  match ops with
  | [] => (s, [])
  | op :: ops =>
      let '(s1, ev1) := step s op in
      let '(s2, ev2) := run s1 ops in
      (s2, ev1 ++ ev2)
  end.

Definition final (s : Detector) (ops : list Op) : Detector := fst (run s ops).
Definition events (s : Detector) (ops : list Op) : list Event := snd (run s ops).

(** The part of an event list seen by each kind of callback. *)
Fixpoint repsOf (evs : list Event) : list RepData :=
  match evs with
  | [] => []
  | RepEvent r :: evs => r :: repsOf evs
  | _ :: evs => repsOf evs
  end.

Fixpoint phasesOf (evs : list Event) : list SnatchPhase :=
  match evs with
  | [] => []
  | PhaseEvent p :: evs => p :: phasesOf evs
  | _ :: evs => phasesOf evs
  end.

Fixpoint setsOf (evs : list Event) : list SetData :=
  match evs with
  | [] => []
  | SetEvent r :: evs => r :: setsOf evs
  | _ :: evs => setsOf evs
  end.

Fixpoint alertsOf (evs : list Event) : list FatigueAlert :=
  match evs with
  | [] => []
  | FatigueEvent r :: evs => r :: alertsOf evs
  | _ :: evs => alertsOf evs
  end.

(* ------------------------------------------------------------------------- *)
(** ** Vocabulary of the properties *)
(* ------------------------------------------------------------------------- *)

(** The definitions below are not part of the program: they name what the
    properties proved afterwards talk about. *)

(** *** Numbers *)

(** [x] is NaN, or [lo <= x <= hi]. *)
Definition in_range (lo hi x : float) : Prop :=
  PrimFloat.is_nan x = true \/ (le lo x = true /\ le x hi = true).

(** *** The scalar estimator *)

(** The filter as [update] leaves it between its predict and correct parts,
    written with the formulas of the specification. *)
Definition predicted_filter (timestamp : float) (f : Kalman.KalmanFilter1D)
    : Kalman.KalmanFilter1D :=
  {| Kalman.state :=
       Kalman.predicted_spec (Kalman.processNoise (Kalman.config f))
         (Kalman.time_step timestamp f) (Kalman.state f);
     Kalman.config := Kalman.config f;
     Kalman.lastTimestamp := Some timestamp |}.

(** *** Repetitions and sets *)

(** The power of a repetition in the words of the specification (section
    4.6), before any rounding: [(m*g*|h| + 0.5*m*v_peak^2) / t]. *)
Definition power_spec (m meanVelocity v_peak duration_ms : float) : float :=
  let g := 9.81 in
  let t := duration_ms / 1000 in
  let h := meanVelocity * t * 0.5 in
  (m * g * JS.Math_abs h + 0.5 * m * (v_peak * v_peak)) / t.

(** The test at the head of [finalizeSet]. *)
Definition belowMinimum (s : Detector) : bool :=
  lt (JS.length (currentSetReps s)) (minRepsForSet (config s)).

(** The quantity [finalizeSet] clamps into the fatigue factor: the velocity
    dropoff over 50 plus half the relative power drop, first to last
    repetition. *)
Definition fatigueSum (reps : list RepData) : float :=
  let velocities := map rep_peakVelocity reps in
  let powers := map power reps in
  ((JS.index velocities 0 - JS.last velocities) / JS.index velocities 0) * 100 / 50
  + (JS.index powers 0 - JS.last powers) / JS.index powers 0 / 2.

Definition clamp01 (x : float) : float := JS.Math_min 1 (JS.Math_max 0 x).

(** *** Events and the session ledger *)

(** [k+1, k+2, ..., k+n] *)
Definition countFrom (k : Z) (n : nat) : list Z :=
  map (fun i => (k + Z.of_nat i)%Z) (seq 1 n).

(** Between [s] and [s'], while the events [ev] were delivered: the set list
    and the alert log grew by exactly the sets and alerts delivered, and the
    two counters advanced by one per repetition and per set delivered, each
    delivered record carrying the counter value it was given. *)
Record ledger (s s' : Detector) (ev : list Event) : Prop := mkLedger {
  ledger_sets : sets s' = sets s ++ setsOf ev;
  ledger_alerts : fatigueAlerts s' = fatigueAlerts s ++ alertsOf ev;
  ledger_repNumbers :
    map repNumber (repsOf ev) = countFrom (repCounter s) (List.length (repsOf ev));
  ledger_repCounter :
    repCounter s' = (repCounter s + Z.of_nat (List.length (repsOf ev)))%Z;
  ledger_setNumbers :
    map setNumber (setsOf ev) = countFrom (setCounter s) (List.length (setsOf ev));
  ledger_setCounter :
    setCounter s' = (setCounter s + Z.of_nat (List.length (setsOf ev)))%Z;
}.

(** The fields no private method other than the phase logic touches. *)
Definition same_control (s s' : Detector) : Prop :=
  config s' = config s /\ isActive s' = isActive s /\ currentHand s' = currentHand s
  /\ currentPhase s' = currentPhase s /\ phaseStartTime s' = phaseStartTime s
  /\ velocityFilter s' = velocityFilter s.

(** The accumulated results of a session. *)
Definition same_results (s s' : Detector) : Prop :=
  sets s' = sets s /\ fatigueAlerts s' = fatigueAlerts s
  /\ repCounter s' = repCounter s /\ setCounter s' = setCounter s
  /\ currentSetReps s' = currentSetReps s
  /\ baselineVelocities s' = baselineVelocities s
  /\ baselinePowers s' = baselinePowers s
  /\ lastRepEndTime s' = lastRepEndTime s.

(** *** Outcomes of a phase change in the private handler *)

(** What [onPhaseChange_handler] does with the repetition in progress. *)
Inductive RepOutcome := Opened | Finalized | Abandoned | Unaffected.

Definition repOutcome (oldPhase newPhase : SnatchPhase) (inProgress : bool)
    : RepOutcome :=
  if phase_eqb newPhase BACKSWING && negb inProgress then Opened
  else if phase_eqb oldPhase LOCKOUT && phase_eqb newPhase DROP then
    if inProgress then Finalized else Unaffected
  else if phase_eqb newPhase IDLE && inProgress then Abandoned
  else Unaffected.

(** What each outcome means for the detector [s'] after the change and for
    the events [ev] delivered, relative to the detector [s] before. *)
Definition outcome_effect (o : RepOutcome) (timestamp : float) (newPhase : SnatchPhase)
    (s s' : Detector) (ev : list Event) : Prop :=
  match o with
  | Opened =>
      repInProgress s' = true /\ currentRepStartTime s' = timestamp
      /\ ev = [PhaseEvent newPhase] /\ same_results s s'
  | Finalized =>
      repInProgress s' = false
      /\ exists r alerts,
           ev = PhaseEvent newPhase :: map FatigueEvent alerts ++ [RepEvent r]
           /\ repNumber r = (repCounter s + 1)%Z
           /\ power r = JS.Math_round
                (power_spec (kettlebellWeight (config s))
                   (meanVelocity r) (rep_peakVelocity r) (rep_duration r))
           /\ repCounter s' = (repCounter s + 1)%Z
           /\ currentSetReps s' = currentSetReps s ++ [r]
           /\ lastRepEndTime s' = timestamp
           /\ sets s' = sets s /\ setCounter s' = setCounter s
           /\ fatigueAlerts s' = fatigueAlerts s ++ alerts
           /\ (alerts <> [] -> (3 <= List.length (baselineVelocities s))%nat)
           /\ baselineVelocities s' =
                (if (List.length (baselineVelocities s) <? 3)%nat
                 then baselineVelocities s ++ [rep_peakVelocity r]
                 else baselineVelocities s)
           /\ baselinePowers s' =
                (if (List.length (baselineVelocities s) <? 3)%nat
                 then baselinePowers s ++ [power r] else baselinePowers s)
  | Abandoned =>
      repInProgress s' = false /\ phaseHistory s' = []
      /\ ev = [PhaseEvent newPhase] /\ same_results s s'
  | Unaffected =>
      repInProgress s' = repInProgress s
      /\ ev = [PhaseEvent newPhase] /\ same_results s s'
  end.

(** *** The three stages of [processFrame] *)

(** The filtered vertical velocity and the height ratio of a frame. *)
Definition filteredVelocity (frame : PoseFrame) (s : Detector) : float :=
  Kalman.velocity
    (snd (Kalman.update (- velocityY (wristPosition frame)) (timestamp frame)
            (velocityFilter s))).

Definition heightRatioOf (frame : PoseFrame) : float :=
  (hipHeight frame - y (wristPosition frame)) / (hipHeight frame - shoulderHeight frame).

(** Stage 1: filter update and the bounded histories. *)
Definition ingest (frame : PoseFrame) (s : Detector) : Detector :=
  let t := timestamp frame in
  let verticalVelocity := filteredVelocity frame s in
  let s := set_velocityFilter
             (fst (Kalman.update (- velocityY (wristPosition frame)) t (velocityFilter s))) s in
  let s := set_velocityHistory (velocityHistory s ++ [(t, verticalVelocity)]) s in
  let s := set_heightHistory (heightHistory s ++ [(t, 1 - y (wristPosition frame))]) s in
  let s := set_angleHistory (angleHistory s ++ [(t, jointAngles frame)]) s in
  if (300 <? List.length (velocityHistory s))%nat then
    set_angleHistory (tl (angleHistory s))
      (set_heightHistory (tl (heightHistory s))
         (set_velocityHistory (tl (velocityHistory s)) s))
  else s.

(** Stage 2: the phase [detectPhase] names for the frame, and the call of
    [onPhaseChange] made when it differs from the current one. *)
Definition nextPhase (frame : PoseFrame) (s : Detector) : SnatchPhase :=
  detectPhase (filteredVelocity frame s) (heightRatioOf frame) (jointAngles frame)
    (timestamp frame) (ingest frame s).

Definition phaseStage (frame : PoseFrame) (s : Detector) : Detector :=
  let s1 := ingest frame s in
  if negb (phase_eqb (nextPhase frame s) (currentPhase s1))
  then onPhaseChange (NotAFunction (currentPhase s1)) s1
  else s1.

(** Stage 3: the set-gap test. *)
Definition gapElapsed (t : float) (s : Detector) : bool :=
  (0 <? List.length (currentSetReps s))%nat
  && gt (t - lastRepEndTime s) (maxRepGap (config s))
  && phase_eqb (currentPhase s) IDLE.

Definition gapStage (t : float) (s : Detector) : Detector * list Event :=
  if gapElapsed t s
  then (set_currentSetStartTime t (fst (finalizeSet s)), snd (finalizeSet s))
  else (s, []).

(** *** The phase graph *)

(** The edges of the phase graph. *)
Definition follows (p q : SnatchPhase) : bool :=
  match p, q with
  | IDLE, BACKSWING | BACKSWING, HIKE | HIKE, PULL | HIKE, BACKSWING
  | PULL, PUNCH | PUNCH, LOCKOUT | LOCKOUT, DROP | DROP, RETURN
  | RETURN, BACKSWING | RETURN, IDLE => true
  | _, _ => false
  end.

(** *** A detector that has finalized nothing *)

(** The state of the repetition logic as the constructor leaves it. *)
Definition pristine (s : Detector) : Prop :=
  currentPhase s = IDLE /\ repInProgress s = false /\ phaseHistory s = []
  /\ currentSetReps s = [] /\ repCounter s = 0%Z /\ fatigueAlerts s = []
  /\ baselineVelocities s = [] /\ baselinePowers s = [].

(** The entries [processFrame] has appended to [phaseCallbacks]. *)
Definition strays (s : Detector) : list SnatchPhase :=
  flat_map (fun c => match c with NotAFunction p => [p] | Listener _ => [] end)
    (phaseCallbacks s).

(** The fields that only the first stage of [processFrame], [start] and
    [reset] write. *)
Definition same_signal (s s' : Detector) : Prop :=
  velocityHistory s' = velocityHistory s /\ heightHistory s' = heightHistory s
  /\ angleHistory s' = angleHistory s /\ velocityFilter s' = velocityFilter s
  /\ currentHand s' = currentHand s /\ sessionStartTime s' = sessionStartTime s
  /\ config s' = config s /\ isActive s' = isActive s.

(** The three history buffers grow together and hold at most 300 entries. *)
Definition histories_bounded (s : Detector) : Prop :=
  List.length (heightHistory s) = List.length (velocityHistory s)
  /\ List.length (angleHistory s) = List.length (velocityHistory s)
  /\ (List.length (velocityHistory s) <= 300)%nat.

(** *** Fatigue alerts *)

(** The percentage by which [x] lies below the mean of a baseline window. *)
Definition dropPercent (baseline : list float) (x : float) : float :=
  let b := JS.sum baseline / JS.length baseline in
  ((b - x) / b) * 100.

(** The drop an alert reports, and the thresholds of its kind. *)
Definition reportedDrop (a : FatigueAlert) : float := snd (message a).

Definition warningThreshold (cfg : SnatchDetectorConfig) (ty : AlertType) : float :=
  match ty with
  | power_drop => powerDropWarning cfg
  | _ => velocityDropWarning cfg
  end.

Definition criticalThreshold (cfg : SnatchDetectorConfig) (ty : AlertType) : float :=
  match ty with
  | power_drop => powerDropCritical cfg
  | _ => velocityDropCritical cfg
  end.

(** An alert is backed by its thresholds: a critical one reports a drop at
    or above the critical threshold of its kind, a warning one a drop at or
    above the warning threshold and not at or above the critical one; the
    kind is a velocity or a power drop, and only a velocity alert carries
    [velocityDropPercent]. *)
Definition alert_justified (cfg : SnatchDetectorConfig) (a : FatigueAlert) : Prop :=
  alert_type a <> form_degradation
  /\ velocityDropPercent a =
       (match alert_type a with
        | velocity_drop => Some (reportedDrop a)
        | _ => None
        end)
  /\ match severity a with
     | critical => ge (reportedDrop a) (criticalThreshold cfg (alert_type a)) = true
     | warning =>
         ge (reportedDrop a) (warningThreshold cfg (alert_type a)) = true
         /\ ge (reportedDrop a) (criticalThreshold cfg (alert_type a)) = false
     end.

(** What ties an alert to the repetition [r] checked in state [s]. *)
Definition alert_about (s : Detector) (r : RepData) (a : FatigueAlert) : Prop :=
  alert_timestamp a = rep_endTime r
  /\ alert_repNumber a = repNumber r
  /\ alert_setNumber a = (setCounter s + 1)%Z
  /\ reportedDrop a =
       (match alert_type a with
        | power_drop => dropPercent (baselinePowers s) (power r)
        | _ => dropPercent (baselineVelocities s) (rep_peakVelocity r)
        end)
  /\ alert_justified (config s) a.

(** *** The stores *)

(** The realtime metrics agree with the list of repetitions and the list of
    sets kept beside them. *)
Definition metrics_summarize (st : Stores.Stores) : Prop :=
  let m := Stores.realtimeMetrics st in
  let peaks := map rep_peakVelocity (Stores.reps st) in
  Stores.repCount m = Z.of_nat (List.length (Stores.reps st))
  /\ Stores.setCount m = Z.of_nat (List.length (Stores.sets st))
  /\ Stores.peakVelocity m = fold_left JS.Math_max peaks 0
  /\ Stores.lastRepVelocity m = List.last peaks 0.

(** *** Runs of the scalar estimator *)

(** A sequence of [update] calls, each a measurement with its timestamp. *)
Definition updates (ms : list (float * float)) (f : Kalman.KalmanFilter1D)
    : Kalman.KalmanFilter1D :=
  fold_left (fun f mt => fst (Kalman.update (fst mt) (snd mt) f)) ms f.

(** The estimate of the filter is lost: its position is NaN. *)
Definition poisoned (f : Kalman.KalmanFilter1D) : Prop :=
  PrimFloat.is_nan (Kalman.position (Kalman.state f)) = true.

(** *** Pose processing *)

(** A number that is not below zero: NaN, or at least 0. *)
Definition not_negative (v : float) : Prop :=
  PrimFloat.is_nan v = true \/ le 0 v = true.

(** A filter that [reset] puts back into the state the service's
    constructor gave it: a landmark filter, an angle filter. *)
Definition as_constructed3 (f : Kalman3D.KalmanFilter3D) : Prop :=
  Kalman3D.reset (Kalman3D.mkVec3 0 0 0) f
  = Kalman3D.new (Kalman.mkPartialKalmanConfig (Some 0.1) (Some 0.3) None None).

Definition as_constructed1 (f : AngleFilter.AngleKalmanFilter) : Prop :=
  AngleFilter.reset 0 f
  = AngleFilter.new
      (AngleFilter.mkPartialConfig (AngleFilter.Value 0.05) (AngleFilter.Value 0.2)
         AngleFilter.Absent AngleFilter.Absent).

(** The calls that feed the filters of the pose service. *)
Inductive FilterOp :=
  | OpFilterLandmarks (landmarks : list Pose.Landmark) (timestamp : float)
  | OpFilterAngle (name : Pose.AngleName) (rawAngle timestamp : float).

Definition filterStep (s : Pose.PoseDetectionService) (op : FilterOp)
    : Pose.PoseDetectionService :=
  match op with
  | OpFilterLandmarks landmarks timestamp => fst (Pose.filterLandmarks landmarks timestamp s)
  | OpFilterAngle name rawAngle timestamp => fst (Pose.filterAngle name rawAngle timestamp s)
  end.

(* ------------------------------------------------------------------------- *)
(** ** Concrete sessions *)
(* ------------------------------------------------------------------------- *)

(** Frames as a pose provider delivers them at 30 frames per second
    (33 ms apart): the body is still (hip at y = 0.6, shoulder at y = 0.3 in
    image coordinates, which grow downwards), and the wrist moves.  A frame
    is determined by its time [t], the upward wrist velocity [z] the provider
    reports (so [velocityY = -z]), the wrist height [y] and the shoulder
    abduction angle [sh]. *)
Module Scenario.

Definition angles (sh : float) : JointAngles :=
  mkJointAngles 90 90 90 90 90 90 90 90 0 sh sh.

Definition frame (t z y sh : float) : PoseFrame :=
  {| timestamp := t;
     wristPosition := mkFilteredLandmark 0.5 y 0 1 0 (- z) 0 (abs z);
     wristSpeed := abs z;
     jointAngles := angles sh;
     shoulderHeight := 0.3;
     hipHeight := 0.6 |}.

(** A stretch of [count] frames during which the reported velocity changes
    by [dz] per frame while the wrist stays at [wristY]. *)
Record Segment := mkSegment {
  count : nat;
  dz : float;
  wristY : float;
  shoulderAngle : float;
}.

Fixpoint segment_frames (n : nat) (t z : float) (sg : Segment) : list Op :=
  match n with
  | O => []
  | S n =>
      OpProcessFrame (frame t (z + dz sg) (wristY sg) (shoulderAngle sg))
      :: segment_frames n (t + 33) (z + dz sg) sg
  end.

(** Time and reported velocity after [n] frames of a segment. *)
Fixpoint advance (n : nat) (t z : float) (sg : Segment) : float * float :=
  match n with
  | O => (t, z)
  | S n => advance n (t + 33) (z + dz sg) sg
  end.

(** The frames of a movement that starts at time [t] with reported
    velocity [z]. *)
Fixpoint movement (t z : float) (segs : list Segment) : list Op :=
  match segs with
  | [] => []
  | sg :: segs =>
      let '(t', z') := advance (count sg) t z sg in
      segment_frames (count sg) t z sg ++ movement t' z' segs
  end.

(** One snatch: the bell swings back below the hip for a second, is pulled
    up for [up] frames at [pull] per frame, rests overhead for [hold] frames,
    is let go, and comes to rest at hip height. *)
Definition snatch (pull : float) (up hold : nat) : list Segment :=
  [ mkSegment 30 (-0.0132) 0.75 20;
    mkSegment up pull 0.45 100;
    mkSegment hold 0 0 175;
    mkSegment 10 (-0.0132) 0.1 175;
    mkSegment 40 0 0.1 175;
    mkSegment 30 0 0.6 20 ].

End Scenario.

(** The default configuration, except that a set needs no repetition. *)
Definition noMinimum : SnatchDetectorConfig :=
  {| kettlebellWeight := 16;
     backswingMin := -0.15; pullMin := 0.2; lockoutMax := 0.05;
     backswingHeightRatio := 0.7; lockoutHeightRatio := 0.3;
     velocityDropWarning := 15; velocityDropCritical := 25;
     powerDropWarning := 20; powerDropCritical := 35;
     maxRepGap := 5000; minRepsForSet := 0 |}.

(** One session with the default configuration (16 kg): the 195 frames of a
    single snatch, 6.4 s of movement from the backswing to the rest at hip
    height. *)
Definition brisk_session : list Op :=
  OpStart Right 1000 :: Scenario.movement 1033 0 (Scenario.snatch 0.0132 25 60).

(** A pose array of 17 landmarks whose wrists (entries 15 and 16) move at
    the given speeds. *)
Definition wrists (left right : float) : list FilteredLandmark :=
  repeat (mkFilteredLandmark 0 0 0 1 0 0 0 0) 15
  ++ [mkFilteredLandmark 0 0 0 1 0 0 0 left; mkFilteredLandmark 0 0 0 1 0 0 0 right].

(* ------------------------------------------------------------------------- *)
(** ** Proof tools *)
(* ------------------------------------------------------------------------- *)

(* The arithmetic of the model is not to be unfolded by [simpl]/[cbn]. *)
Arguments JS.Math_max : simpl never.
Arguments JS.Math_min : simpl never.
Arguments JS.Math_max_list : simpl never.
Arguments JS.Math_min_list : simpl never.
Arguments JS.Math_round : simpl never.
Arguments JS.Math_abs : simpl never.
Arguments JS.length : simpl never.
Arguments JS.sum : simpl never.
Arguments JS.index : simpl never.
Arguments JS.last : simpl never.
Arguments JS.sq : simpl never.
Arguments Kalman.update : simpl never.
Arguments calculatePower : simpl never.
Arguments getSessionData : simpl never.
Arguments detectPhase : simpl never.
Arguments lt : simpl never.
Arguments gt : simpl never.
Arguments le : simpl never.
Arguments ge : simpl never.

(** Case analysis on the tests of a method body. *)
Ltac split_tests :=
  repeat match goal with
         | |- context [if ?b then _ else _] => destruct b eqn:?
         | |- context [match ?x with (_, _) => _ end] => destruct x eqn:?
         end.

(** Evaluation of closed float terms. *)
Ltac evaluate := vm_compute; repeat split.

(* ------------------------------------------------------------------------- *)
(** ** Comparisons of binary64 numbers *)
(* ------------------------------------------------------------------------- *)

Lemma SFcompare_swap a b c :
  SFcompare a b = Some c -> SFcompare b a = Some (CompOpp c).
Proof.
  destruct a as [sa|sa| |sa ma ea], b as [sb|sb| |sb mb eb]; simpl;
    try discriminate;
    try (destruct sa, sb; intros [= <-]; reflexivity);
    try (destruct sa; intros [= <-]; reflexivity);
    try (destruct sb; intros [= <-]; reflexivity);
    try (intros [= <-]; reflexivity).
  destruct sa, sb; intros [= <-]; try reflexivity;
    rewrite (Z.compare_antisym ea eb); destruct (ea ?= eb)%Z; simpl; try reflexivity;
    rewrite (Pos.compare_cont_antisym ma mb Eq); simpl;
    rewrite ?CompOpp_involutive; reflexivity.
Qed.

Lemma compare_lt_le a b : PrimFloat.compare a b = FLt -> le a b = true.
Proof.
  unfold le. rewrite FloatAxioms.compare_spec, FloatAxioms.leb_spec. unfold SFleb.
  destruct (SFcompare (Prim2SF a) (Prim2SF b)) as [[]|]; simpl; congruence.
Qed.

Lemma compare_eq_le a b : PrimFloat.compare a b = FEq -> le a b = true /\ le b a = true.
Proof.
  unfold le. rewrite FloatAxioms.compare_spec, !FloatAxioms.leb_spec. unfold SFleb.
  destruct (SFcompare (Prim2SF a) (Prim2SF b)) as [[]|] eqn:E; simpl; try congruence.
  apply SFcompare_swap in E. rewrite E. auto.
Qed.

Lemma compare_gt_le a b : PrimFloat.compare a b = FGt -> le b a = true.
Proof.
  unfold le. rewrite FloatAxioms.compare_spec, !FloatAxioms.leb_spec. unfold SFleb.
  destruct (SFcompare (Prim2SF a) (Prim2SF b)) as [[]|] eqn:E; simpl; try congruence.
  apply SFcompare_swap in E. rewrite E. auto.
Qed.

(** Division by zero in binary64, and what the clamp makes of the results. *)
Lemma zero_divisors :
  (0 - 0) / 0 = nan /\ (0 - 1) / 0 = neg_infinity /\ (1 - 0) / 0 = infinity
  /\ clamp01 nan = nan /\ clamp01 neg_infinity = 0 /\ clamp01 infinity = 1.
Proof. evaluate. Qed.

(** The clamp of [finalizeSet] does what it is meant to do on every number;
    only NaN passes through it. *)
Lemma clamp01_range x : in_range 0 1 (clamp01 x).
Proof.
  unfold in_range, clamp01, JS.Math_max.
  destruct (PrimFloat.compare 0 x) eqn:Hlo;
    try (vm_compute; auto; fail).
  unfold JS.Math_min.
  destruct (PrimFloat.compare 1 x) eqn:Hhi.
  - change (PrimFloat.get_sign 1) with false. cbv iota.
    right. split; [apply compare_lt_le, Hlo | exact (proj2 (compare_eq_le _ _ Hhi))].
  - vm_compute; auto.
  - right. split; [apply compare_lt_le, Hlo | apply compare_gt_le, Hhi].
  - vm_compute; auto.
Qed.

(** The time step of [update] is within [0.001, 0.5] (or NaN, when a
    timestamp is). *)
Lemma time_step_range timestamp f : in_range 0.001 0.5 (Kalman.time_step timestamp f).
Proof.
  unfold in_range, Kalman.time_step.
  destruct (Kalman.lastTimestamp f) as [last|]; [|vm_compute; auto].
  set (dt := (timestamp - last) / 1000). clearbody dt.
  assert (K : forall d, le d 0.5 = true -> in_range 0.001 0.5 (JS.Math_max 0.001 d)).
  { intros d Hd. unfold in_range, JS.Math_max.
    destruct (PrimFloat.compare 0.001 d) eqn:C; try (vm_compute; auto; fail).
    right. split; [apply compare_lt_le, C | exact Hd]. }
  unfold JS.Math_min.
  destruct (PrimFloat.compare dt 0.5) eqn:C.
  - destruct (PrimFloat.get_sign dt).
    + apply K. exact (proj1 (compare_eq_le _ _ C)).
    + vm_compute; auto.
  - apply K, compare_lt_le, C.
  - vm_compute; auto.
  - vm_compute; auto.
Qed.

(* ------------------------------------------------------------------------- *)
(** ** Scalar estimator: the predict step *)
(* ------------------------------------------------------------------------- *)

Lemma predict_frame dt g :
  Kalman.config (Kalman.predict dt g) = Kalman.config g
  /\ Kalman.lastTimestamp (Kalman.predict dt g) = Kalman.lastTimestamp g
  /\ Kalman.velocity (Kalman.state (Kalman.predict dt g)) = Kalman.velocity (Kalman.state g).
Proof. repeat split. Qed.

(** C2.  In every call [update(measurement, timestamp)] the predict step
    maps the state to: position + velocity*dt, the same velocity,
    positionVariance + 2*dt*covariance + dt^2*velocityVariance + Q*dt^2,
    velocityVariance + Q, and covariance + dt*velocityVariance + Q*dt (with
    the velocity variance read before any assignment), where Q is the
    configured process noise and dt the clamped time step: 1/30 on the first
    call, otherwise the elapsed time in seconds brought into [0.001, 0.5].
    The result of [update] is the correction applied to exactly this state. *)
Theorem update_predict_step (f : Kalman.KalmanFilter1D) (measurement timestamp : float) :
  let dt := Kalman.time_step timestamp f in
  let Q := Kalman.processNoise (Kalman.config f) in
  let st := Kalman.state f in
  Kalman.predict dt (Kalman.set_lastTimestamp (Some timestamp) f)
  = predicted_filter timestamp f
  /\ Kalman.state (predicted_filter timestamp f) =
       {| Kalman.position := Kalman.position st + Kalman.velocity st * dt;
          Kalman.velocity := Kalman.velocity st;
          Kalman.positionVariance :=
            Kalman.positionVariance st + 2 * dt * Kalman.covariance st
            + dt * dt * Kalman.velocityVariance st + Q * (dt * dt);
          Kalman.velocityVariance := Kalman.velocityVariance st + Q;
          Kalman.covariance :=
            Kalman.covariance st + dt * Kalman.velocityVariance st + Q * dt |}
  /\ dt = match Kalman.lastTimestamp f with
          | None => 1 / 30
          | Some last =>
              JS.Math_max 0.001 (JS.Math_min ((timestamp - last) / 1000) 0.5)
          end
  /\ in_range 0.001 0.5 dt
  /\ Kalman.update measurement timestamp f =
       (Kalman.correct measurement (predicted_filter timestamp f),
        Kalman.state (Kalman.correct measurement (predicted_filter timestamp f))).
Proof.
  cbv zeta. split; [reflexivity|]. split; [reflexivity|]. split; [reflexivity|].
  split; [apply time_step_range | reflexivity].
Qed.

(* ------------------------------------------------------------------------- *)
(** ** Event lists *)
(* ------------------------------------------------------------------------- *)

Lemma repsOf_app a b : repsOf (a ++ b) = repsOf a ++ repsOf b.
Proof. induction a as [|[] a IH]; simpl; congruence. Qed.

Lemma setsOf_app a b : setsOf (a ++ b) = setsOf a ++ setsOf b.
Proof. induction a as [|[] a IH]; simpl; congruence. Qed.

Lemma alertsOf_app a b : alertsOf (a ++ b) = alertsOf a ++ alertsOf b.
Proof. induction a as [|[] a IH]; simpl; congruence. Qed.

Lemma repsOf_finalized q al r :
  repsOf (PhaseEvent q :: map FatigueEvent al ++ [RepEvent r]) = [r].
Proof. simpl. induction al; simpl; auto. Qed.

Lemma alertsOf_finalized q al r :
  alertsOf (PhaseEvent q :: map FatigueEvent al ++ [RepEvent r]) = al.
Proof. simpl. induction al; simpl; congruence. Qed.

Lemma countFrom_shift k j b n :
  map (fun i => (k + Z.of_nat i)%Z) (seq (j + b) n)
  = map (fun i => (k + Z.of_nat j + Z.of_nat i)%Z) (seq b n).
Proof.
  revert b; induction n as [|n IH]; intros b; simpl; [reflexivity|].
  f_equal; [lia|]. rewrite <- IH. f_equal. f_equal. lia.
Qed.

Lemma countFrom_nat n m :
  countFrom (0 + Z.of_nat n) m = map Z.of_nat (seq (1 + n) m).
Proof.
  unfold countFrom. generalize 1%nat as b.
  induction m as [|m IH]; intros b; simpl; [reflexivity|].
  f_equal; [lia|]. apply (IH (S b)).
Qed.

Lemma countFrom_app k n m :
  countFrom k (n + m) = countFrom k n ++ countFrom (k + Z.of_nat n) m.
Proof.
  unfold countFrom. rewrite seq_app, map_app. f_equal.
  rewrite (Nat.add_comm 1 n). apply countFrom_shift.
Qed.

(* ------------------------------------------------------------------------- *)
(** ** The session ledger *)
(* ------------------------------------------------------------------------- *)

Lemma ledger_refl s : ledger s s [].
Proof. split; simpl; rewrite ?app_nil_r; try reflexivity; lia. Qed.

Lemma ledger_trans s s1 s2 e1 e2 :
  ledger s s1 e1 -> ledger s1 s2 e2 -> ledger s s2 (e1 ++ e2).
Proof.
  intros [A1 A2 A3 A4 A5 A6] [B1 B2 B3 B4 B5 B6].
  split; rewrite ?repsOf_app, ?setsOf_app, ?alertsOf_app, ?length_app, ?map_app.
  - rewrite B1, A1. apply eq_sym, app_assoc.
  - rewrite B2, A2. apply eq_sym, app_assoc.
  - rewrite countFrom_app, A3, B3, A4. reflexivity.
  - rewrite B4, A4. lia.
  - rewrite countFrom_app, A5, B5, A6. reflexivity.
  - rewrite B6, A6. lia.
Qed.

(** A call that delivers nothing and leaves the four ledger fields alone. *)
Lemma ledger_silent s s' :
  sets s' = sets s -> fatigueAlerts s' = fatigueAlerts s ->
  repCounter s' = repCounter s -> setCounter s' = setCounter s ->
  ledger s s' [].
Proof.
  intros H1 H2 H3 H4. split; simpl; rewrite ?app_nil_r; try assumption;
    try reflexivity; lia.
Qed.

Lemma same_results_refl s : same_results s s.
Proof. repeat split. Qed.

Lemma same_control_refl s : same_control s s.
Proof. repeat split. Qed.

Lemma same_results_ledger s s' : same_results s s' -> ledger s s' [].
Proof. intros (H1 & H2 & H3 & H4 & _). apply ledger_silent; assumption. Qed.

(* ------------------------------------------------------------------------- *)
(** ** Effects of the private methods *)
(* ------------------------------------------------------------------------- *)

(** [checkFatigue] only appends to the alert log, delivers alerts only, and
    does either only when the baseline window holds three samples. *)
Lemma checkFatigue_effect rep s :
  let r := checkFatigue rep s in
  fst r = set_fatigueAlerts (fatigueAlerts s ++ alertsOf (snd r)) s
  /\ repsOf (snd r) = [] /\ setsOf (snd r) = []
  /\ (snd r <> [] -> (3 <= List.length (baselineVelocities s))%nat)
  /\ snd r = map FatigueEvent (alertsOf (snd r)).
Proof.
  unfold checkFatigue, emitFatigueAlert.
  destruct (List.length (baselineVelocities s) <? 3)%nat eqn:Hlen.
  - simpl. rewrite app_nil_r. repeat split. intros H; contradiction H; reflexivity.
  - apply Nat.ltb_ge in Hlen.
    split_tests; simpl; rewrite <- ?app_assoc, ?app_nil_r; repeat split; auto.
Qed.

Lemma finalizeRep_effect timestamp s :
  exists r alerts,
    let s' := fst (finalizeRep timestamp s) in
    snd (finalizeRep timestamp s) = map FatigueEvent alerts ++ [RepEvent r]
    /\ same_control s s'
    /\ repNumber r = (repCounter s + 1)%Z
    /\ power r = JS.Math_round
         (power_spec (kettlebellWeight (config s))
            (meanVelocity r) (rep_peakVelocity r) (rep_duration r))
    /\ rep_endTime r = timestamp
    /\ repInProgress s' = false
    /\ repCounter s' = (repCounter s + 1)%Z
    /\ currentSetReps s' = currentSetReps s ++ [r]
    /\ lastRepEndTime s' = timestamp
    /\ sets s' = sets s /\ setCounter s' = setCounter s
    /\ fatigueAlerts s' = fatigueAlerts s ++ alerts
    /\ (alerts <> [] -> (3 <= List.length (baselineVelocities s))%nat)
    /\ baselineVelocities s' =
         (if (List.length (baselineVelocities s) <? 3)%nat
          then baselineVelocities s ++ [rep_peakVelocity r] else baselineVelocities s)
    /\ baselinePowers s' =
         (if (List.length (baselineVelocities s) <? 3)%nat
          then baselinePowers s ++ [power r] else baselinePowers s).
Proof.
  unfold finalizeRep.
  match goal with
  | |- context [checkFatigue ?r ?s1] =>
      pose proof (checkFatigue_effect r s1) as H; cbv zeta in H;
      destruct (checkFatigue r s1) as [s2 ev] eqn:E; exists r, (alertsOf ev)
  end.
  simpl in H. destruct H as (-> & Hr & Hs & Hlen & Hev).
  cbv zeta. simpl.
  destruct (List.length (baselineVelocities s) <? 3)%nat eqn:Hb; simpl;
    repeat split; try (rewrite Hev at 1; reflexivity);
    intros Hne; apply Hlen; intros ->; apply Hne; reflexivity.
Qed.

Lemma finalizeSet_effect s :
  let s' := fst (finalizeSet s) in
  same_control s s' /\ repInProgress s' = repInProgress s
  /\ repCounter s' = repCounter s /\ fatigueAlerts s' = fatigueAlerts s
  /\ lastRepEndTime s' = lastRepEndTime s
  /\ currentSetReps s' = []
  /\ ((belowMinimum s = true
       /\ snd (finalizeSet s) = []
       /\ sets s' = sets s /\ setCounter s' = setCounter s
       /\ baselineVelocities s' = baselineVelocities s
       /\ baselinePowers s' = baselinePowers s)
      \/ (belowMinimum s = false
          /\ exists sd,
               snd (finalizeSet s) = [SetEvent sd]
               /\ sets s' = sets s ++ [sd]
               /\ setNumber sd = (setCounter s + 1)%Z
               /\ setCounter s' = (setCounter s + 1)%Z
               /\ reps sd = currentSetReps s
               /\ baselineVelocities s' = []
               /\ baselinePowers s' = []
               /\ fatigueFactor sd = clamp01 (fatigueSum (currentSetReps s)))).
Proof.
  unfold finalizeSet, belowMinimum.
  destruct (lt (JS.length (currentSetReps s)) (minRepsForSet (config s))); simpl.
  - repeat split. left. repeat split.
  - repeat split. right. split; [reflexivity|].
    eexists. repeat split.
Qed.

Lemma phase_eqb_eq p q : phase_eqb p q = true <-> p = q.
Proof. unfold phase_eqb. destruct (SnatchPhase_eq_dec p q); split; congruence. Qed.

Lemma repOutcome_finalized p q b : repOutcome p q b = Finalized -> q = DROP.
Proof.
  unfold repOutcome.
  destruct (phase_eqb q BACKSWING && negb b); [discriminate|].
  destruct (phase_eqb p LOCKOUT && phase_eqb q DROP) eqn:E.
  - intros _. apply andb_prop in E. apply phase_eqb_eq, E.
  - destruct (phase_eqb q IDLE && b); discriminate.
Qed.

(** X1.  The private handler does what the specification says of a phase change:
    it moves to the new phase and opens, finalizes or abandons the repetition
    in progress. *)
Lemma onPhaseChange_handler_effect oldPhase newPhase timestamp s :
  let s' := fst (onPhaseChange_handler oldPhase newPhase timestamp s) in
  let ev := snd (onPhaseChange_handler oldPhase newPhase timestamp s) in
  currentPhase s' = newPhase /\ config s' = config s /\ isActive s' = isActive s
  /\ outcome_effect (repOutcome oldPhase newPhase (repInProgress s)) timestamp newPhase
       s s' ev.
Proof.
  unfold onPhaseChange_handler, repOutcome, outcome_effect. cbv zeta.
  match goal with
  | |- context [set_phaseStartTime _ (set_currentPhase _ ?S)] =>
      assert (HS : same_results s S /\ repInProgress S = repInProgress s
                   /\ config S = config s /\ isActive S = isActive s)
        by (destruct (gt (phaseStartTime s) 0); repeat split);
      generalize dependent S; intros s0 HS
  end.
  destruct HS as ((E1 & E2 & E3 & E4 & E5 & E6 & E7 & E8) & Erip & Ecfg & Eact).
  change (repInProgress (set_phaseStartTime timestamp (set_currentPhase newPhase s0)))
    with (repInProgress s0).
  rewrite Erip.
  destruct (phase_eqb newPhase BACKSWING && negb (repInProgress s)) eqn:HA.
  { simpl. repeat split; assumption. }
  destruct (phase_eqb oldPhase LOCKOUT && phase_eqb newPhase DROP) eqn:HB.
  { destruct (repInProgress s) eqn:Hrip.
    - match goal with
      | |- context [finalizeRep ?t ?S] =>
          destruct (finalizeRep_effect t S) as (r & al & H); cbv zeta in H;
          destruct (finalizeRep t S) as [s2 ev2] eqn:E
      end.
      simpl in H.
      destruct H as (Hev & (D1 & D2 & D3 & D4 & D5 & D6) & Hn & Hp & Het & Hr & Hc & Hs & Hl
                     & Hsets & Hsc & Hfa & Hal & Hbv & Hbp).
      simpl. rewrite D1, D2, D4. simpl. rewrite Ecfg, Eact. repeat split; try assumption.
      exists r, al.
      rewrite E3 in Hn, Hc. rewrite Ecfg in Hp. rewrite E5 in Hs. rewrite E1 in Hsets.
      rewrite E4 in Hsc. rewrite E2 in Hfa. rewrite E6 in Hal, Hbv, Hbp.
      rewrite E7 in Hbp. subst ev2.
      repeat split; assumption.
    - simpl. repeat split; assumption. }
  destruct (phase_eqb newPhase IDLE && repInProgress s) eqn:HC.
  { simpl. repeat split; assumption. }
  simpl. repeat split; assumption.
Qed.

(** X2.  [detectPhase]: whatever the velocity, the height and the angles, the
    phase it names is the current phase or one of its successors in the
    phase graph: Idle to Backswing; Backswing to Hike; Hike to Pull or back
    to Backswing; Pull to Punch; Punch to Lockout; Lockout to Drop; Drop to
    Return; Return to Backswing or Idle. *)
Lemma detectPhase_follows velocity heightRatio angles timestamp s :
  let q := detectPhase velocity heightRatio angles timestamp s in
  q = currentPhase s \/ follows (currentPhase s) q = true.
Proof.
  unfold detectPhase. cbv zeta.
  destruct (currentPhase s); split_tests; auto.
Qed.

(* ------------------------------------------------------------------------- *)
(** ** [processFrame] in three stages *)
(* ------------------------------------------------------------------------- *)

Lemma processFrame_stages frame s :
  processFrame frame s =
    if isActive s then gapStage (timestamp frame) (phaseStage frame s) else (s, []).
Proof.
  transitivity
    (if isActive s then
       let s2 := phaseStage frame s in
       if gapElapsed (timestamp frame) s2
       then let '(s, ev) := finalizeSet s2 in
            (set_currentSetStartTime (timestamp frame) s, ev)
       else (s2, [])
     else (s, [])).
  { unfold processFrame. destruct (isActive s); reflexivity. }
  destruct (isActive s); [|reflexivity].
  unfold gapStage. cbv zeta.
  destruct (gapElapsed (timestamp frame) (phaseStage frame s)); [|reflexivity].
  destruct (finalizeSet (phaseStage frame s)); reflexivity.
Qed.

Lemma ingest_effect frame s :
  same_results s (ingest frame s)
  /\ config (ingest frame s) = config s /\ isActive (ingest frame s) = isActive s
  /\ currentPhase (ingest frame s) = currentPhase s
  /\ repInProgress (ingest frame s) = repInProgress s.
Proof.
  unfold ingest. cbv zeta.
  match goal with |- context [if ?b then _ else _] => destruct b end; repeat split.
Qed.

(** The second stage never writes the phase: whatever [detectPhase] names,
    the call of [onPhaseChange] only appends the old phase to
    [phaseCallbacks]. *)
Lemma phaseStage_effect frame s :
  let s' := phaseStage frame s in
  same_results s s' /\ config s' = config s /\ isActive s' = isActive s
  /\ currentHand s' = currentHand s
  /\ currentPhase s' = currentPhase s /\ repInProgress s' = repInProgress s
  /\ phaseHistory s' = phaseHistory s /\ phaseStartTime s' = phaseStartTime s
  /\ phaseCallbacks s' =
       phaseCallbacks s
       ++ (if phase_eqb (nextPhase frame s) (currentPhase s) then []
           else [NotAFunction (currentPhase s)]).
Proof.
  cbv zeta. unfold phaseStage, onPhaseChange. cbv zeta.
  assert (I : same_results s (ingest frame s) /\ config (ingest frame s) = config s
              /\ isActive (ingest frame s) = isActive s
              /\ currentHand (ingest frame s) = currentHand s
              /\ currentPhase (ingest frame s) = currentPhase s
              /\ repInProgress (ingest frame s) = repInProgress s
              /\ phaseHistory (ingest frame s) = phaseHistory s
              /\ phaseStartTime (ingest frame s) = phaseStartTime s
              /\ phaseCallbacks (ingest frame s) = phaseCallbacks s).
  { unfold ingest. cbv zeta.
    match goal with |- context [if ?b then _ else _] => destruct b end; repeat split. }
  destruct I as (I1 & I2 & I3 & I4 & I5 & I6 & I7 & I8 & I9). rewrite I5.
  destruct (phase_eqb (nextPhase frame s) (currentPhase s)); simpl;
    rewrite ?app_nil_r, ?I9; repeat split; try assumption; apply I1.
Qed.

Lemma gapStage_effect t s :
  let s' := fst (gapStage t s) in
  let ev := snd (gapStage t s) in
  currentPhase s' = currentPhase s /\ config s' = config s /\ isActive s' = isActive s
  /\ repInProgress s' = repInProgress s /\ repCounter s' = repCounter s
  /\ fatigueAlerts s' = fatigueAlerts s
  /\ repsOf ev = [] /\ alertsOf ev = []
  /\ ((gapElapsed t s = false /\ s' = s /\ ev = [])
      \/ (gapElapsed t s = true /\ currentPhase s = IDLE /\ currentSetReps s' = []
          /\ ev = snd (finalizeSet s)
          /\ baselineVelocities s' = baselineVelocities (fst (finalizeSet s))
          /\ baselinePowers s' = baselinePowers (fst (finalizeSet s)))).
Proof.
  cbv zeta. unfold gapStage. destruct (gapElapsed t s) eqn:Hg; simpl.
  - destruct (finalizeSet_effect s)
      as ((D1 & D2 & D3 & D4 & D5 & D6) & Hr & Hc & Ha & Hl & Hs & H).
    assert (He : repsOf (snd (finalizeSet s)) = [] /\ alertsOf (snd (finalizeSet s)) = []).
    { destruct H as [(_ & -> & _) | (_ & sd & -> & _)]; split; reflexivity. }
    destruct He as (He1 & He2).
    repeat split; try assumption. right. repeat split; try assumption.
    unfold gapElapsed in Hg. apply andb_prop in Hg. destruct Hg as (_ & Hg).
    apply phase_eqb_eq in Hg. exact Hg.
  - repeat split. left. repeat split.
Qed.

(* ------------------------------------------------------------------------- *)
(** ** Runs *)
(* ------------------------------------------------------------------------- *)

Lemma run_cons s op ops :
  run s (op :: ops) =
    (fst (run (fst (step s op)) ops), snd (step s op) ++ snd (run (fst (step s op)) ops)).
Proof.
  simpl. destruct (step s op) as [s1 ev1]. simpl.
  destruct (run s1 ops); reflexivity.
Qed.

Lemma run_app s ops1 ops2 :
  run s (ops1 ++ ops2) =
    (fst (run (fst (run s ops1)) ops2), snd (run s ops1) ++ snd (run (fst (run s ops1)) ops2)).
Proof.
  revert s; induction ops1 as [|op ops1 IH]; intros s.
  - simpl. destruct (run s ops2); reflexivity.
  - rewrite <- app_comm_cons, !run_cons, IH. simpl. rewrite app_assoc. reflexivity.
Qed.

Lemma run_snoc s ops op :
  run s (ops ++ [op]) =
    (fst (step (final s ops) op), events s ops ++ snd (step (final s ops) op)).
Proof.
  rewrite run_app. unfold final, events. simpl.
  destruct (step (fst (run s ops)) op). simpl. rewrite app_nil_r. reflexivity.
Qed.

Lemma stop_step now s : fst (stop now s) = step s (OpStop now).
Proof. simpl. destruct (stop now s) as [[s1 ev] d]. reflexivity. Qed.

Lemma stop_snapshot now s :
  snd (stop now s) = getSessionData now (fst (step s (OpStop now))).
Proof.
  rewrite <- stop_step. unfold stop.
  match goal with |- context [if ?b then _ else _] => destruct b end.
  - destruct (finalizeSet _); reflexivity.
  - reflexivity.
Qed.

Lemma stop_quiet now s :
  let s' := fst (step s (OpStop now)) in
  currentPhase s' = currentPhase s /\ repInProgress s' = repInProgress s
  /\ repsOf (snd (step s (OpStop now))) = []
  /\ alertsOf (snd (step s (OpStop now))) = [].
Proof.
  rewrite <- stop_step. unfold stop.
  match goal with |- context [if ?b then _ else _] => destruct b end.
  - destruct (finalizeSet_effect (set_isActive false s))
      as ((_ & _ & _ & D4 & _) & Hr & _ & _ & _ & _ & H).
    destruct (finalizeSet (set_isActive false s)) as [s1 ev]. simpl in *.
    repeat split; try assumption;
      destruct H as [(_ & -> & _) | (_ & sd & -> & _)]; reflexivity.
  - repeat split.
Qed.

Lemma switchHand_quiet hand now s :
  let s' := fst (switchHand hand now s) in
  currentPhase s' = currentPhase s /\ repInProgress s' = repInProgress s
  /\ repsOf (snd (switchHand hand now s)) = []
  /\ alertsOf (snd (switchHand hand now s)) = [].
Proof.
  unfold switchHand.
  match goal with |- context [if ?b then _ else _] => destruct b end.
  - destruct (finalizeSet_effect s) as ((_ & _ & _ & D4 & _) & Hr & _ & _ & _ & _ & H).
    destruct (finalizeSet s) as [s1 ev]. simpl in *.
    repeat split; try assumption;
      destruct H as [(_ & -> & _) | (_ & sd & -> & _)]; reflexivity.
  - repeat split.
Qed.

(* ------------------------------------------------------------------------- *)
(** ** Every call keeps the ledger *)
(* ------------------------------------------------------------------------- *)

Lemma finalizeSet_ledger s : ledger s (fst (finalizeSet s)) (snd (finalizeSet s)).
Proof.
  destruct (finalizeSet_effect s) as (_ & _ & Hc & Ha & _ & _ & H).
  destruct H as [(_ & -> & Hs & Hsc & _) | (_ & sd & -> & Hs & Hn & Hsc & _)].
  - apply ledger_silent; assumption.
  - split; simpl; rewrite ?app_nil_r; try assumption; try reflexivity.
    + rewrite Hc. lia.
    + unfold countFrom; simpl. f_equal. exact Hn.
Qed.

Lemma gapStage_ledger t s : ledger s (fst (gapStage t s)) (snd (gapStage t s)).
Proof.
  unfold gapStage. destruct (gapElapsed t s); simpl.
  - rewrite <- (app_nil_r (snd (finalizeSet s))).
    apply (ledger_trans s (fst (finalizeSet s))); [apply finalizeSet_ledger|].
    apply ledger_silent; reflexivity.
  - apply ledger_refl.
Qed.

Lemma processFrame_ledger frame s :
  ledger s (fst (processFrame frame s)) (snd (processFrame frame s)).
Proof.
  rewrite processFrame_stages. destruct (isActive s); simpl.
  - destruct (phaseStage_effect frame s) as (H & _).
    cbv zeta in H. revert H. generalize (phaseStage frame s). intros s2 H.
    apply (ledger_trans s s2 _ []);
      [apply same_results_ledger, H | apply gapStage_ledger].
  - apply ledger_refl.
Qed.

Lemma step_ledger s op : ledger s (fst (step s op)) (snd (step s op)).
Proof.
  destruct op; simpl; try (apply ledger_silent; reflexivity).
  - unfold stop.
    match goal with |- context [if ?b then _ else _] => destruct b end.
    + destruct (finalizeSet (set_isActive false s)) as [s1 ev] eqn:E. simpl.
      change s1 with (fst (s1, ev)). change ev with (snd (s1, ev)) at 2.
      rewrite <- E.
      rewrite <- (app_nil_l (snd _)).
      apply (ledger_trans s (set_isActive false s));
        [apply ledger_silent; reflexivity | apply finalizeSet_ledger].
    + simpl. apply ledger_silent; reflexivity.
  - apply processFrame_ledger.
  - unfold switchHand.
    match goal with |- context [if ?b then _ else _] => destruct b end.
    + destruct (finalizeSet s) as [s1 ev] eqn:E. simpl.
      rewrite <- (app_nil_r ev).
      apply (ledger_trans s s1).
      * change s1 with (fst (s1, ev)). change ev with (snd (s1, ev)) at 2.
        rewrite <- E. apply finalizeSet_ledger.
      * apply ledger_silent; reflexivity.
    + simpl. apply ledger_silent; reflexivity.
Qed.

Lemma run_ledger s ops : ledger s (final s ops) (events s ops).
Proof.
  unfold final, events. revert s; induction ops as [|op ops IH]; intros s.
  - apply ledger_refl.
  - rewrite run_cons. simpl. eapply ledger_trans; [apply step_ledger | apply IH].
Qed.

(* ------------------------------------------------------------------------- *)
(** ** What no call does *)
(* ------------------------------------------------------------------------- *)

Lemma finalizeSet_delivers_sets_only s :
  repsOf (snd (finalizeSet s)) = [] /\ alertsOf (snd (finalizeSet s)) = []
  /\ phasesOf (snd (finalizeSet s)) = [].
Proof.
  destruct (finalizeSet_effect s) as (_ & _ & _ & _ & _ & _ & H).
  destruct H as [(_ & -> & _) | (_ & sd & -> & _)]; repeat split.
Qed.

(** On the class as it runs, [finalizeRep], [checkFatigue] and the phase
    callbacks are out of reach of every public method: a call delivers
    sets, if anything. *)
Lemma step_delivers_sets_only s op :
  repsOf (snd (step s op)) = [] /\ alertsOf (snd (step s op)) = []
  /\ phasesOf (snd (step s op)) = [].
Proof.
  destruct op as [hand now|now| | | |frame|hand now|w]; try (repeat split; fail).
  - rewrite <- stop_step. unfold stop.
    match goal with |- context [if ?b then _ else _] => destruct b end;
      [|repeat split].
    pose proof (finalizeSet_delivers_sets_only (set_isActive false s)) as F.
    destruct (finalizeSet (set_isActive false s)). exact F.
  - cbn [step]. rewrite processFrame_stages.
    destruct (isActive s); [|repeat split].
    generalize (phaseStage frame s). intros s2.
    destruct (gapStage_effect (timestamp frame) s2) as (_ & _ & _ & _ & _ & _ & G1 & G2 & G).
    cbv zeta in G1, G2, G. do 2 (split; [assumption|]).
    destruct G as [(_ & _ & ->) | (_ & _ & _ & -> & _)];
      [reflexivity | apply finalizeSet_delivers_sets_only].
  - cbn [step]. unfold switchHand.
    match goal with |- context [if ?b then _ else _] => destruct b end;
      [|repeat split].
    pose proof (finalizeSet_delivers_sets_only s) as F.
    destruct (finalizeSet s). exact F.
Qed.

Lemma run_delivers_sets_only s ops :
  repsOf (events s ops) = [] /\ alertsOf (events s ops) = [].
Proof.
  unfold events. revert s. induction ops as [|op ops IH]; intros s; [split; reflexivity|].
  rewrite run_cons. cbn [snd]. rewrite repsOf_app, alertsOf_app.
  destruct (step_delivers_sets_only s op) as (-> & -> & _). apply IH.
Qed.

(** A frame never moves the phase machine or the repetition in progress. *)
Lemma frame_keeps_the_phase frame s :
  let s' := fst (processFrame frame s) in
  currentPhase s' = currentPhase s /\ repInProgress s' = repInProgress s
  /\ repCounter s' = repCounter s.
Proof.
  cbv zeta. rewrite processFrame_stages. destruct (isActive s); [|repeat split].
  destruct (phaseStage_effect frame s) as ((_ & _ & R3 & _) & _ & _ & _ & P & R & _).
  cbv zeta in R3, P, R. revert R3 P R.
  generalize (phaseStage frame s). intros s2 R3 P R.
  destruct (gapStage_effect (timestamp frame) s2) as (G1 & _ & _ & G4 & G5 & _).
  cbv zeta in G1, G4, G5. repeat split; congruence.
Qed.

Lemma step_pristine s op : pristine s -> pristine (fst (step s op)).
Proof.
  intros (P1 & P2 & P3 & P4 & P5 & P6 & P7 & P8).
  assert (F : forall s0, currentPhase s0 = IDLE -> repInProgress s0 = false ->
              phaseHistory s0 = [] -> currentSetReps s0 = [] -> repCounter s0 = 0%Z ->
              fatigueAlerts s0 = [] -> baselineVelocities s0 = [] ->
              baselinePowers s0 = [] -> pristine (fst (finalizeSet s0))).
  { intros s0 Q1 Q2 Q3 Q4 Q5 Q6 Q7 Q8. unfold finalizeSet.
    destruct (lt _ _); repeat split; assumption. }
  destruct op as [hand now|now| | | |frame|hand now|w];
    try (repeat split; assumption).
  - rewrite <- stop_step. unfold stop.
    match goal with |- context [if ?b then _ else _] => destruct b end.
    + pose proof (F (set_isActive false s) P1 P2 P3 P4 P5 P6 P7 P8) as K.
      destruct (finalizeSet (set_isActive false s)). exact K.
    + repeat split; assumption.
  - cbn [step]. rewrite processFrame_stages.
    destruct (isActive s); [|repeat split; assumption].
    destruct (phaseStage_effect frame s)
      as ((_ & R2 & R3 & _ & R5 & R6 & R7 & _) & _ & _ & _ & Q1 & Q2 & Q3 & _).
    cbv zeta in R2, R3, R5, R6, R7, Q1, Q2, Q3. revert R2 R3 R5 R6 R7 Q1 Q2 Q3.
    generalize (phaseStage frame s). intros s2 R2 R3 R5 R6 R7 Q1 Q2 Q3.
    unfold gapStage, gapElapsed. rewrite R5, P4. cbn [List.length Nat.ltb Nat.leb andb fst].
    repeat split; congruence.
  - cbn [step]. unfold switchHand. rewrite P4. repeat split; assumption.
Qed.

Lemma run_pristine cfg ops : pristine (final (new cfg) ops).
Proof.
  assert (G : forall s, pristine s -> pristine (final s ops)).
  { induction ops as [|op ops IH]; intros s P; [exact P|].
    unfold final. rewrite run_cons. apply IH, step_pristine, P. }
  apply G. repeat split.
Qed.

Lemma step_minReps s op :
  minRepsForSet (config (fst (step s op))) = minRepsForSet (config s).
Proof.
  destruct op as [hand now|now| | | |frame|hand now|w]; try reflexivity.
  - rewrite <- stop_step. unfold stop.
    match goal with |- context [if ?b then _ else _] => destruct b end; [|reflexivity].
    destruct (finalizeSet_effect (set_isActive false s)) as ((C & _) & _).
    destruct (finalizeSet (set_isActive false s)). simpl in *. rewrite C. reflexivity.
  - cbn [step]. rewrite processFrame_stages.
    destruct (isActive s); [|reflexivity].
    destruct (phaseStage_effect frame s) as (_ & C & _).
    cbv zeta in C. revert C. generalize (phaseStage frame s). intros s2 C.
    destruct (gapStage_effect (timestamp frame) s2) as (_ & G & _).
    cbv zeta in G. rewrite G, C. reflexivity.
  - cbn [step]. unfold switchHand.
    match goal with |- context [if ?b then _ else _] => destruct b end; [|reflexivity].
    destruct (finalizeSet_effect s) as ((C & _) & _).
    destruct (finalizeSet s). simpl in *. rewrite C. reflexivity.
Qed.

Lemma run_minReps s ops : minRepsForSet (config (final s ops)) = minRepsForSet (config s).
Proof.
  revert s. induction ops as [|op ops IH]; intros s; [reflexivity|].
  unfold final. rewrite run_cons. cbn [fst]. fold (final (fst (step s op)) ops).
  rewrite IH. apply step_minReps.
Qed.

(* ------------------------------------------------------------------------- *)
(** ** Phase changes never reach the handler *)
(* ------------------------------------------------------------------------- *)

(** C1 at [brisk_session], the frames of one snatch.  The eleventh call is
    the first frame for which [detectPhase] names Backswing while the machine
    is in Idle with no repetition open: the private handler, had it been
    called, would have moved to Backswing and opened a repetition, as the
    specification says; the call [this.onPhaseChange(...)] of [processFrame]
    reaches the public registration instead, which appends the old phase to
    [phaseCallbacks] and nothing else.  So it goes for every frame: after
    the whole movement the machine has never left Idle, no repetition was
    opened or delivered, 27 phases sit in [phaseCallbacks], and the snapshot
    of [stop] counts no repetition and no set. *)
Lemma phase_change_reaches_the_registration :
  let before := final (new DEFAULT_CONFIG) (firstn 10 brisk_session) in
  let s := final (new DEFAULT_CONFIG) brisk_session in
  exists frame,
    nth_error brisk_session 10 = Some (OpProcessFrame frame)
    /\ currentPhase before = IDLE /\ repInProgress before = false
    /\ nextPhase frame before = BACKSWING
    /\ currentPhase
         (fst (onPhaseChange_handler IDLE BACKSWING (timestamp frame) (ingest frame before)))
       = BACKSWING
    /\ repInProgress
         (fst (onPhaseChange_handler IDLE BACKSWING (timestamp frame) (ingest frame before)))
       = true
    /\ currentPhase (fst (processFrame frame before)) = IDLE
    /\ repInProgress (fst (processFrame frame before)) = false
    /\ phaseCallbacks (fst (processFrame frame before)) = [NotAFunction IDLE]
    /\ snd (processFrame frame before) = []
    /\ events (new DEFAULT_CONFIG) brisk_session = []
    /\ currentPhase s = IDLE /\ repInProgress s = false /\ repCounter s = 0%Z
    /\ currentSetReps s = []
    /\ strays s = repeat IDLE 27
    /\ totalReps (snd (stop 7500 s)) = 0
    /\ session_sets (snd (stop 7500 s)) = [].
Proof.
  cbv zeta.
  let v := eval vm_compute in (nth_error brisk_session 10) in
  match v with Some (OpProcessFrame ?f) => exists f end.
  evaluate.
Qed.

(* ------------------------------------------------------------------------- *)
(** ** Repetition numbers, alerts and baselines on the class as it runs *)
(* ------------------------------------------------------------------------- *)


(** C10.  [start] on a detector that already holds session state keeps the
    finalized sets, the alert log, both counters and the buffered
    repetitions (and baseline samples) as they are; whatever happens between
    that [start] and the next [stop], the snapshot returned by [stop] begins
    with the earlier sets and alerts, and the repetitions finalized in
    between are numbered on from the earlier repetition counter. *)
Theorem start_keeps_session_state (s : Detector) (hand : Hand) (now : float) :
  let s' := start hand now s in
  sets s' = sets s
  /\ fatigueAlerts s' = fatigueAlerts s
  /\ setCounter s' = setCounter s
  /\ repCounter s' = repCounter s
  /\ currentSetReps s' = currentSetReps s
  /\ baselineVelocities s' = baselineVelocities s
  /\ baselinePowers s' = baselinePowers s
  /\ forall (ops : list Op) (now' : float),
       let cycle := ops ++ [OpStop now'] in
       let snapshot := snd (stop now' (final s' ops)) in
       let finalized := repsOf (events s' cycle) in
       session_sets snapshot = sets s ++ setsOf (events s' cycle)
       /\ session_fatigueAlerts snapshot = fatigueAlerts s ++ alertsOf (events s' cycle)
       /\ map repNumber finalized = countFrom (repCounter s) (List.length finalized).
Proof.
  cbv zeta. repeat split.
  - rewrite stop_snapshot.
    pose proof (run_ledger (start hand now s) (ops ++ [OpStop now'])) as L.
    destruct L as [L _ _ _ _ _]. unfold final, events in *.
    rewrite run_app in L. simpl in L. rewrite run_app.
    unfold getSessionData. simpl.
    destruct (stop now' (fst (run (start hand now s) ops))) as [[s1 ev] d]. exact L.
  - rewrite stop_snapshot.
    pose proof (run_ledger (start hand now s) (ops ++ [OpStop now'])) as L.
    destruct L as [_ L _ _ _ _]. unfold final, events in *.
    rewrite run_app in L. simpl in L. rewrite run_app.
    unfold getSessionData. simpl.
    destruct (stop now' (fst (run (start hand now s) ops))) as [[s1 ev] d]. exact L.
  - apply (ledger_repNumbers _ _ _ (run_ledger (start hand now s) (ops ++ [OpStop now']))).
Qed.

(* ------------------------------------------------------------------------- *)
(** ** Alerts and the baseline windows *)
(* ------------------------------------------------------------------------- *)



(* ------------------------------------------------------------------------- *)
(** ** What holds of every emitted set *)
(* ------------------------------------------------------------------------- *)

(** A set delivered by a call was built by [finalizeSet] from the buffer
    held before the call, which was not below the minimum, and the call ends
    with the baseline windows empty. *)
Lemma emitted_set_origin s op sd :
  In sd (setsOf (snd (step s op))) ->
  exists s0,
    config s0 = config s /\ currentSetReps s0 = currentSetReps s
    /\ belowMinimum s0 = false
    /\ reps sd = currentSetReps s0
    /\ fatigueFactor sd = clamp01 (fatigueSum (currentSetReps s0))
    /\ baselineVelocities (fst (step s op)) = []
    /\ baselinePowers (fst (step s op)) = [].
Proof.
  assert (F : forall s0 s1 ev, finalizeSet s0 = (s1, ev) -> In sd (setsOf ev) ->
              belowMinimum s0 = false /\ reps sd = currentSetReps s0
              /\ fatigueFactor sd = clamp01 (fatigueSum (currentSetReps s0))
              /\ baselineVelocities s1 = [] /\ baselinePowers s1 = []).
  { intros s0 s1 ev E Hin.
    destruct (finalizeSet_effect s0) as (_ & _ & _ & _ & _ & _ & H).
    rewrite E in H. simpl in H.
    destruct H as [(_ & -> & _) | (Hb & sd' & -> & _ & _ & _ & Hr & Hv & Hp & Hf)].
    - contradiction.
    - destruct Hin as [<- | []]. repeat split; assumption. }
  destruct op; try (simpl; contradiction).
  - rewrite <- stop_step. unfold stop.
    match goal with |- context [if ?b then _ else _] => destruct b end;
      [|simpl; contradiction].
    destruct (finalizeSet (set_isActive false s)) as [s1 ev] eqn:E. simpl. intros Hin.
    exists (set_isActive false s). do 2 (split; [reflexivity|]). exact (F _ _ _ E Hin).
  - cbn [step]. rewrite processFrame_stages.
    destruct (isActive s); cbn [fst snd]; [|simpl; contradiction].
    destruct (phaseStage_effect frame s) as ((_ & _ & _ & _ & Hb & _) & Hc & _).
    cbv zeta in Hb, Hc. revert Hb Hc. generalize (phaseStage frame s). intros s2 Hb Hc.
    unfold gapStage.
    destruct (gapElapsed (timestamp frame) s2); [|simpl; contradiction].
    destruct (finalizeSet s2) as [s1 ev] eqn:E. simpl. intros Hin.
    exists s2. split; [exact Hc|]. split; [exact Hb|].
    exact (F _ _ _ E Hin).
  - cbn [step]. unfold switchHand.
    match goal with |- context [if ?b then _ else _] => destruct b end;
      [|simpl; contradiction].
    destruct (finalizeSet s) as [s1 ev] eqn:E. simpl. intros Hin.
    exists s. do 2 (split; [reflexivity|]). exact (F _ _ _ E Hin).
Qed.

(** The clamp holds on every emitted set: its fatigue factor is never below
    0 or above 1; it is in [0, 1] or it is NaN. *)
Lemma emitted_fatigueFactor_range s op sd :
  In sd (setsOf (snd (step s op))) -> in_range 0 1 (fatigueFactor sd).
Proof.
  intros H. destruct (emitted_set_origin s op sd H) as (s0 & _ & _ & _ & _ & -> & _).
  apply clamp01_range.
Qed.




(* ------------------------------------------------------------------------- *)
(** ** A set without repetitions *)
(* ------------------------------------------------------------------------- *)


(** C4 at the same session.  The set emitted by [stop] has no repetition,
    so all its repetitions have non-negative peak velocities and powers; its
    fatigue factor is NaN, which [Math.min(1, Math.max(0, ...))] lets
    through, and NaN is not within [0, 1]. *)
Lemma fatigueFactor_outside_unit_interval :
  let s := final (new noMinimum) [OpStart Right 1000] in
  exists sd,
    snd (fst (stop 2000 s)) = [SetEvent sd]
    /\ session_sets (snd (stop 2000 s)) = [sd]
    /\ Forall (fun r => le 0 (rep_peakVelocity r) = true /\ le 0 (power r) = true) (reps sd)
    /\ PrimFloat.is_nan (fatigueFactor sd) = true
    /\ le 0 (fatigueFactor sd) = false
    /\ le (fatigueFactor sd) 1 = false.
Proof.
  cbv zeta.
  let v := eval vm_compute in
    (hd_error (session_sets (snd (stop 2000 (final (new noMinimum) [OpStart Right 1000]))))) in
  match v with Some ?sd => exists sd end.
  evaluate. constructor.
Qed.

(* ------------------------------------------------------------------------- *)
(** ** The power of a repetition *)
(* ------------------------------------------------------------------------- *)

(** C9 (as the code has it).  [calculatePower] returns the value
    [(m*g*|h| + 0.5*m*v_peak^2) / t] ROUNDED to the nearest integer
    ([Math.round]), where m is the implement mass configured, g = 9.81,
    h = meanVelocity * duration_seconds * 0.5, v_peak the peak velocity and t
    the duration in seconds; and the repetition that [finalizeRep] builds and
    delivers carries as its power that rounded value for its own peak
    velocity, mean velocity and duration. *)
Theorem rep_power_is_rounded_estimate
    (s : Detector) (v_peak v_mean duration_ms timestamp : float) :
  calculatePower v_peak v_mean duration_ms s
  = JS.Math_round (power_spec (kettlebellWeight (config s)) v_mean v_peak duration_ms)
  /\ exists r alerts,
       snd (finalizeRep timestamp s) = map FatigueEvent alerts ++ [RepEvent r]
       /\ power r = JS.Math_round
                      (power_spec (kettlebellWeight (config s))
                         (meanVelocity r) (rep_peakVelocity r) (rep_duration r)).
Proof.
  split; [reflexivity|].
  destruct (finalizeRep_effect timestamp s) as (r & al & H). cbv zeta in H.
  exists r, al. split; apply H.
Qed.

(** C9 as stated fails here.  [calculatePower(2, 1, 1000)] on a new
    detector (16 kg) returns 110, while [(m*g*|h| + 0.5*m*v_peak^2) / t] is
    110.48.  And [finalizeRep], called at 2320 ms on the detector that
    [start] and the first 40 frames of [brisk_session] leave behind, builds a
    repetition from the velocity history those frames filled and stores the
    power 19, while the quotient for its peak velocity, mean velocity and
    duration is 19.231827272164583. *)
Lemma stored_power_is_not_the_quotient :
  let s := final (new DEFAULT_CONFIG) (firstn 41 brisk_session) in
  calculatePower 2 1 1000 (new DEFAULT_CONFIG) = 110
  /\ power_spec 16 1 2 1000 = 110.48
  /\ calculatePower 2 1 1000 (new DEFAULT_CONFIG)
     <> power_spec (kettlebellWeight DEFAULT_CONFIG) 1 2 1000
  /\ exists r,
       snd (finalizeRep 2320 s) = [RepEvent r]
       /\ power r = 19
       /\ power_spec 16 (meanVelocity r) (rep_peakVelocity r) (rep_duration r)
          = 19.231827272164583
       /\ power r
          <> power_spec (kettlebellWeight (config s))
               (meanVelocity r) (rep_peakVelocity r) (rep_duration r).
Proof.
  cbv zeta.
  split; [vm_compute; reflexivity|].
  split; [vm_compute; reflexivity|].
  split.
  { intros H. apply (f_equal (fun x => PrimFloat.eqb x 110)) in H.
    vm_compute in H. discriminate H. }
  let v := eval vm_compute in
    (hd_error (repsOf (snd (finalizeRep 2320
                              (final (new DEFAULT_CONFIG) (firstn 41 brisk_session)))))) in
  match v with Some ?r => exists r end.
  do 3 (split; [vm_compute; reflexivity|]).
  intros H.
  apply (f_equal (fun x => PrimFloat.eqb x 19)) in H. vm_compute in H. discriminate H.
Qed.

Lemma finalizeSet_signal s : same_signal s (fst (finalizeSet s)).
Proof.
  unfold finalizeSet.
  destruct (lt (JS.length (currentSetReps s)) (minRepsForSet (config s))); repeat split.
Qed.

Lemma same_signal_trans a b c : same_signal a b -> same_signal b c -> same_signal a c.
Proof.
  unfold same_signal. intros (A1 & A2 & A3 & A4 & A5 & A6 & A7 & A8)
    (B1 & B2 & B3 & B4 & B5 & B6 & B7 & B8).
  repeat split; congruence.
Qed.

Lemma same_signal_refl s : same_signal s s.
Proof. repeat split. Qed.

Lemma phaseStage_signal frame s : same_signal (ingest frame s) (phaseStage frame s).
Proof.
  unfold phaseStage, onPhaseChange. cbv zeta.
  destruct (negb _); repeat split.
Qed.

Lemma gapStage_signal t s : same_signal s (fst (gapStage t s)).
Proof.
  unfold gapStage. destruct (gapElapsed t s); [|apply same_signal_refl].
  refine (same_signal_trans _ _ _ (finalizeSet_signal s) _). repeat split.
Qed.

Lemma processFrame_signal frame s :
  isActive s = true -> same_signal (ingest frame s) (fst (processFrame frame s)).
Proof.
  intros A. rewrite processFrame_stages, A.
  pose proof (phaseStage_signal frame s) as P. revert P.
  generalize (phaseStage frame s). intros s2 P.
  exact (same_signal_trans _ _ _ P (gapStage_signal _ _)).
Qed.

Lemma stop_signal now s : same_signal (pause s) (fst (step s (OpStop now))).
Proof.
  rewrite <- stop_step. unfold stop. fold (pause s).
  destruct (ge _ _); [|apply same_signal_refl].
  pose proof (finalizeSet_signal (pause s)) as F.
  destruct (finalizeSet (pause s)) as [s1 e1]. exact F.
Qed.

Lemma switchHand_signal hand now s :
  let s' := fst (switchHand hand now s) in
  velocityHistory s' = velocityHistory s /\ heightHistory s' = heightHistory s
  /\ angleHistory s' = angleHistory s /\ velocityFilter s' = velocityFilter s
  /\ currentHand s' = hand /\ sessionStartTime s' = sessionStartTime s
  /\ config s' = config s /\ isActive s' = isActive s.
Proof.
  unfold switchHand. destruct (0 <? _)%nat; [|repeat split].
  destruct (finalizeSet_signal s) as (H1 & H2 & H3 & H4 & H5 & H6 & H7 & H8).
  destruct (finalizeSet s) as [s1 e1]. simpl in *. repeat split; assumption.
Qed.

Lemma ingest_histories frame s : histories_bounded s -> histories_bounded (ingest frame s).
Proof.
  unfold histories_bounded, ingest. intros (H1 & H2 & H3). cbv zeta. simpl.
  rewrite !length_app. simpl List.length.
  destruct (300 <? _)%nat eqn:E; simpl.
  - apply Nat.ltb_lt in E.
    destruct (velocityHistory s ++ _) eqn:V; [apply (f_equal (@List.length _)) in V; rewrite length_app in V; simpl in V; lia|].
    destruct (heightHistory s ++ _) eqn:Hh; [apply (f_equal (@List.length _)) in Hh; rewrite length_app in Hh; simpl in Hh; lia|].
    destruct (angleHistory s ++ _) eqn:Ha; [apply (f_equal (@List.length _)) in Ha; rewrite length_app in Ha; simpl in Ha; lia|].
    apply (f_equal (@List.length _)) in V, Hh, Ha. rewrite length_app in V, Hh, Ha.
    simpl in *. lia.
  - apply Nat.ltb_ge in E. rewrite !length_app in *. simpl in *. lia.
Qed.

Lemma histories_signal s s' : same_signal s s' -> histories_bounded s -> histories_bounded s'.
Proof.
  unfold histories_bounded. intros (H1 & H2 & H3 & _) ?. rewrite H1, H2, H3. assumption.
Qed.

Lemma step_histories s op : histories_bounded s -> histories_bounded (fst (step s op)).
Proof.
  intros H. destruct op as [hand now|now| | | |frame|hand now|w].
  - repeat split; simpl; lia.
  - exact (histories_signal _ _ (stop_signal now s) H).
  - exact H.
  - exact H.
  - repeat split; simpl; lia.
  - simpl. destruct (isActive s) eqn:A.
    + exact (histories_signal _ _ (processFrame_signal frame s A) (ingest_histories frame s H)).
    + rewrite processFrame_stages, A. exact H.
  - simpl. destruct (switchHand_signal hand now s) as (H1 & H2 & H3 & _).
    unfold histories_bounded. rewrite H1, H2, H3. exact H.
  - exact H.
Qed.

Lemma histories_bounded_run s ops : histories_bounded s -> histories_bounded (final s ops).
Proof.
  revert s. induction ops as [|op ops IH]; intros s H; [exact H|].
  unfold final. rewrite run_cons. simpl fst. apply IH, step_histories, H.
Qed.

(** X3.  [processFrame], history buffers: in every state a detector can
    reach, the velocity, height and angle histories hold the same number of
    samples, and never more than 300. *)
Theorem histories_hold_300_frames (cfg : SnatchDetectorConfig) (ops : list Op) :
  let s := final (new cfg) ops in
  List.length (heightHistory s) = List.length (velocityHistory s)
  /\ List.length (angleHistory s) = List.length (velocityHistory s)
  /\ (List.length (velocityHistory s) <= 300)%nat.
Proof.
  apply (histories_bounded_run (new cfg) ops). repeat split; simpl; lia.
Qed.

(* ------------------------------------------------------------------------- *)
(** ** The sets of a session *)
(* ------------------------------------------------------------------------- *)

Lemma final_snoc s ops op : final s (ops ++ [op]) = fst (step (final s ops) op).
Proof. unfold final at 1. rewrite run_snoc. reflexivity. Qed.

Lemma events_snoc s ops op :
  events s (ops ++ [op]) = events s ops ++ snd (step (final s ops) op).
Proof. unfold events at 1. rewrite run_snoc. reflexivity. Qed.

(** X4.  [finalizeSet], numbering: the sets a detector delivers over its
    lifetime are numbered 1, 2, 3, ... in the order of delivery, across
    [start], [reset] and [switchHand]; the detector keeps exactly the sets
    it has delivered, in that order, and [setCounter] is their number. *)
Theorem setNumbers_gapless (cfg : SnatchDetectorConfig) (ops : list Op) :
  let emitted := setsOf (events (new cfg) ops) in
  map setNumber emitted = map Z.of_nat (seq 1 (List.length emitted))
  /\ sets (final (new cfg) ops) = emitted
  /\ setCounter (final (new cfg) ops) = Z.of_nat (List.length emitted).
Proof.
  cbv zeta. destruct (run_ledger (new cfg) ops) as [L1 _ _ _ L5 L6].
  repeat split.
  - rewrite L5. unfold countFrom. apply map_ext. intros i. reflexivity.
  - exact L1.
  - rewrite L6. reflexivity.
Qed.

Lemma inactive_frames s frames :
  isActive s = false -> run s (map OpProcessFrame frames) = (s, []).
Proof.
  intros A. induction frames as [|f frames IH]; [reflexivity|].
  simpl map. rewrite run_cons. simpl step. rewrite processFrame_stages, A.
  simpl fst. simpl snd. rewrite IH. reflexivity.
Qed.

(** X5.  [processFrame], the activity gate: frames handed to a detector
    that was never started, is paused or was stopped change nothing and
    deliver nothing, however many they are; in particular they do not reach
    the velocity filter or the histories, and [resume] after any number of
    frames received while paused gives the state [resume] would have given
    at once. *)
Theorem frames_are_ignored_unless_active
    (cfg : SnatchDetectorConfig) (s : Detector) (now : float) (frames : list PoseFrame) :
  run (new cfg) (map OpProcessFrame frames) = (new cfg, [])
  /\ run (pause s) (map OpProcessFrame frames) = (pause s, [])
  /\ run (fst (step s (OpStop now))) (map OpProcessFrame frames)
     = (fst (step s (OpStop now)), [])
  /\ run s (OpPause :: map OpProcessFrame frames ++ [OpResume]) = (resume s, []).
Proof.
  repeat split.
  - apply inactive_frames. reflexivity.
  - apply inactive_frames. reflexivity.
  - apply inactive_frames.
    destruct (stop_signal now s) as (_ & _ & _ & _ & _ & _ & _ & A). exact A.
  - rewrite run_cons. simpl step. simpl fst. simpl snd.
    rewrite run_app, inactive_frames by reflexivity. reflexivity.
Qed.

(* ------------------------------------------------------------------------- *)
(** ** What a used detector reports *)
(* ------------------------------------------------------------------------- *)

Lemma phasesOf_app a b : phasesOf (a ++ b) = phasesOf a ++ phasesOf b.
Proof. induction a as [|[] a IH]; simpl; congruence. Qed.

Lemma run_delivers_no_phase s ops : phasesOf (events s ops) = [].
Proof.
  unfold events. revert s. induction ops as [|op ops IH]; intros s; [reflexivity|].
  rewrite run_cons. cbn [snd]. rewrite phasesOf_app.
  destruct (step_delivers_sets_only s op) as (_ & _ & ->). apply IH.
Qed.

(** X6.  [getCurrentPhase], [isRepInProgress], [getCurrentSetReps] and the
    phase and rep callbacks, on the class as it runs: whatever calls a new
    detector receives, it reports Idle, no repetition in progress and an
    empty current set, and it never calls a phase callback or a rep
    callback. *)
Theorem detector_never_leaves_idle (cfg : SnatchDetectorConfig) (ops : list Op) :
  let s := final (new cfg) ops in
  getCurrentPhase s = IDLE /\ isRepInProgress s = false /\ getCurrentSetReps s = []
  /\ phaseHistory s = []
  /\ phasesOf (events (new cfg) ops) = [] /\ repsOf (events (new cfg) ops) = [].
Proof.
  cbv zeta. destruct (run_pristine cfg ops) as (P1 & P2 & P3 & P4 & _).
  destruct (run_delivers_sets_only (new cfg) ops) as (R & _).
  repeat split; try assumption. apply run_delivers_no_phase.
Qed.

Lemma finalizeSet_phaseCallbacks s : phaseCallbacks (fst (finalizeSet s)) = phaseCallbacks s.
Proof. unfold finalizeSet. destruct (lt _ _); reflexivity. Qed.

Lemma gapStage_phaseCallbacks t s : phaseCallbacks (fst (gapStage t s)) = phaseCallbacks s.
Proof.
  unfold gapStage. destruct (gapElapsed t s); [|reflexivity].
  pose proof (finalizeSet_phaseCallbacks s) as F.
  destruct (finalizeSet s) as [s1 ev]. exact F.
Qed.

Lemma processFrame_phaseCallbacks frame s :
  phaseCallbacks (fst (processFrame frame s)) =
    phaseCallbacks s
    ++ (if isActive s && negb (phase_eqb (nextPhase frame s) (currentPhase s))
        then [NotAFunction (currentPhase s)] else []).
Proof.
  rewrite processFrame_stages. destruct (isActive s); [|symmetry; apply app_nil_r].
  destruct (phaseStage_effect frame s) as (_ & _ & _ & _ & _ & _ & _ & _ & C).
  cbv zeta in C. revert C. generalize (phaseStage frame s). intros s2 C.
  rewrite gapStage_phaseCallbacks, C. cbn [andb].
  destruct (phase_eqb (nextPhase frame s) (currentPhase s)); reflexivity.
Qed.

(** X7.  [processFrame], the call of [onPhaseChange]: a frame for which
    [detectPhase] names another phase than the current one appends the
    current phase to [phaseCallbacks], and that is all it does about the
    change: the phase stays what it was and no phase callback is called.
    Any other frame leaves the array as it is. *)
Theorem frame_appends_the_old_phase (frame : PoseFrame) (s : Detector) :
  let s' := fst (processFrame frame s) in
  phaseCallbacks s' =
    phaseCallbacks s
    ++ (if isActive s && negb (phase_eqb (nextPhase frame s) (currentPhase s))
        then [NotAFunction (currentPhase s)] else [])
  /\ currentPhase s' = currentPhase s
  /\ phasesOf (snd (processFrame frame s)) = [].
Proof.
  cbv zeta. destruct (frame_keeps_the_phase frame s) as (K & _). cbv zeta in K.
  destruct (step_delivers_sets_only s (OpProcessFrame frame)) as (_ & _ & E).
  split; [apply processFrame_phaseCallbacks | split; [exact K | exact E]].
Qed.




Lemma finalizeSet_of_no_repetition s sd :
  currentSetReps s = [] -> In sd (setsOf (snd (finalizeSet s))) ->
  reps sd = [] /\ set_totalReps sd = 0
  /\ PrimFloat.is_nan (set_averageVelocity sd) = true
  /\ set_peakVelocity sd = neg_infinity
  /\ PrimFloat.is_nan (velocityDropoff sd) = true
  /\ PrimFloat.is_nan (set_averagePower sd) = true
  /\ PrimFloat.is_nan (fatigueFactor sd) = true.
Proof.
  intros E. unfold finalizeSet. destruct (lt _ _); [intros []|].
  cbv zeta. cbn [snd setsOf In]. intros [<- | []].
  cbn [reps set_totalReps set_averageVelocity set_peakVelocity velocityDropoff
       set_averagePower fatigueFactor currentSetReps set_setCounter].
  rewrite E. repeat split.
Qed.

(** With an empty buffer only [stop] can deliver a set, and only when the
    configured minimum is not above 0. *)
Lemma empty_buffer_step s op :
  currentSetReps s = [] ->
  snd (step s op) = []
  \/ (le (minRepsForSet (config s)) 0 = true
      /\ snd (step s op) = snd (finalizeSet (set_isActive false s))).
Proof.
  intros E. destruct op as [hand now|now| | | |frame|hand now|w];
    try (left; reflexivity).
  - rewrite <- stop_step. unfold stop.
    change (currentSetReps (set_isActive false s)) with (currentSetReps s).
    change (config (set_isActive false s)) with (config s).
    rewrite E. change (ge (JS.length (@nil RepData)) (minRepsForSet (config s)))
      with (le (minRepsForSet (config s)) 0).
    destruct (le (minRepsForSet (config s)) 0); [right | left; reflexivity].
    split; [reflexivity|]. destruct (finalizeSet (set_isActive false s)). reflexivity.
  - left. cbn [step]. rewrite processFrame_stages.
    destruct (isActive s); [|reflexivity].
    destruct (phaseStage_effect frame s) as ((_ & _ & _ & _ & B & _) & _).
    cbv zeta in B. revert B. generalize (phaseStage frame s). intros s2 B.
    unfold gapStage, gapElapsed. rewrite B, E. reflexivity.
  - left. cbn [step]. unfold switchHand. rewrite E. reflexivity.
Qed.

Lemma run_emits_sets_of_no_repetition cfg ops sd :
  In sd (setsOf (events (new cfg) ops)) ->
  le (minRepsForSet cfg) 0 = true
  /\ reps sd = [] /\ set_totalReps sd = 0
  /\ PrimFloat.is_nan (set_averageVelocity sd) = true
  /\ set_peakVelocity sd = neg_infinity
  /\ PrimFloat.is_nan (velocityDropoff sd) = true
  /\ PrimFloat.is_nan (set_averagePower sd) = true
  /\ PrimFloat.is_nan (fatigueFactor sd) = true.
Proof.
  induction ops as [|op ops IH] using rev_ind; [intros []|].
  rewrite events_snoc, setsOf_app. intros H. apply in_app_or in H.
  destruct H as [H|H]; [exact (IH H)|].
  destruct (run_pristine cfg ops) as (_ & _ & _ & B & _).
  destruct (empty_buffer_step (final (new cfg) ops) op B) as [E | (M & E)];
    rewrite E in H; [destruct H|].
  rewrite run_minReps in M. split; [exact M|].
  exact (finalizeSet_of_no_repetition (set_isActive false (final (new cfg) ops)) sd B H).
Qed.

(** X9.  [finalizeSet] as the class reaches it: every set a detector ever
    delivers holds no repetition.  It was delivered by [stop] under a
    minimum that is at most 0, it counts 0 repetitions, its peak velocity
    is -Infinity, and its averages, its velocity dropoff and its fatigue
    factor are NaN. *)
Theorem every_delivered_set_is_empty
    (cfg : SnatchDetectorConfig) (ops : list Op) (sd : SetData) :
  In sd (setsOf (events (new cfg) ops)) ->
  le (minRepsForSet cfg) 0 = true
  /\ reps sd = [] /\ set_totalReps sd = 0
  /\ PrimFloat.is_nan (set_averageVelocity sd) = true
  /\ set_peakVelocity sd = neg_infinity
  /\ PrimFloat.is_nan (velocityDropoff sd) = true
  /\ PrimFloat.is_nan (set_averagePower sd) = true
  /\ PrimFloat.is_nan (fatigueFactor sd) = true.
Proof. apply run_emits_sets_of_no_repetition. Qed.

Lemma every_delivered_set_is_empty_witness :
  exists sd,
    setsOf (events (new noMinimum) [OpStart Right 1000; OpStop 2000; OpStop 2500]) <> []
    /\ In sd (setsOf (events (new noMinimum) [OpStart Right 1000; OpStop 2000; OpStop 2500]))
    /\ le (minRepsForSet noMinimum) 0 = true
    /\ reps sd = [] /\ set_totalReps sd = 0
    /\ PrimFloat.is_nan (set_averageVelocity sd) = true
    /\ set_peakVelocity sd = neg_infinity
    /\ PrimFloat.is_nan (velocityDropoff sd) = true
    /\ PrimFloat.is_nan (set_averagePower sd) = true
    /\ PrimFloat.is_nan (fatigueFactor sd) = true.
Proof.
  let v := eval vm_compute in
    (setsOf (events (new noMinimum) [OpStart Right 1000; OpStop 2000; OpStop 2500])) in
  match v with
  | ?sd :: _ =>
      exists sd; split; [vm_compute; discriminate|];
      assert (H : In sd (setsOf (events (new noMinimum)
                                   [OpStart Right 1000; OpStop 2000; OpStop 2500])))
        by (vm_compute; left; reflexivity);
      split; [exact H|];
      exact (every_delivered_set_is_empty noMinimum
               [OpStart Right 1000; OpStop 2000; OpStop 2500] sd H)
  end.
Defined.

Lemma run_silent cfg ops :
  le (minRepsForSet cfg) 0 = false -> events (new cfg) ops = [].
Proof.
  intros M. induction ops as [|op ops IH] using rev_ind; [reflexivity|].
  rewrite events_snoc, IH.
  destruct (run_pristine cfg ops) as (_ & _ & _ & B & _).
  destruct (empty_buffer_step (final (new cfg) ops) op B) as [E | (M' & _)];
    [exact E|].
  rewrite run_minReps in M'. change (le (minRepsForSet cfg) 0 = true) in M'. congruence.
Qed.

(** X10.  The callbacks under a positive minimum: with [minRepsForSet] above 0,
    as in the default configuration, a detector never calls any callback --
    no phase, no repetition, no set, no alert --, whatever frames it is
    given; it keeps no set, and the snapshot [stop] returns has no set and
    counts no repetition. *)
Theorem positive_minimum_silences_the_detector
    (cfg : SnatchDetectorConfig) (ops : list Op) (now : float) :
  le (minRepsForSet cfg) 0 = false ->
  events (new cfg) ops = []
  /\ sets (final (new cfg) ops) = []
  /\ snd (step (final (new cfg) ops) (OpStop now)) = []
  /\ session_sets (snd (stop now (final (new cfg) ops))) = []
  /\ totalReps (snd (stop now (final (new cfg) ops))) = 0
  /\ totalSets (snd (stop now (final (new cfg) ops))) = 0.
Proof.
  intros M.
  assert (S0 : forall ops', sets (final (new cfg) ops') = []).
  { intros ops'. destruct (run_ledger (new cfg) ops') as [L1 _ _ _ _ _].
    rewrite L1, (run_silent cfg ops' M). reflexivity. }
  assert (E : snd (step (final (new cfg) ops) (OpStop now)) = []).
  { pose proof (run_silent cfg (ops ++ [OpStop now]) M) as R.
    rewrite events_snoc, (run_silent cfg ops M) in R. exact R. }
  split; [exact (run_silent cfg ops M)|]. split; [apply S0|]. split; [exact E|].
  rewrite stop_snapshot, <- final_snoc. unfold getSessionData. cbv zeta.
  cbn [session_sets totalReps totalSets]. rewrite S0. repeat split.
Qed.

Lemma positive_minimum_silences_the_detector_witness :
  events (new DEFAULT_CONFIG) brisk_session = []
  /\ sets (final (new DEFAULT_CONFIG) brisk_session) = []
  /\ snd (step (final (new DEFAULT_CONFIG) brisk_session) (OpStop 7500)) = []
  /\ session_sets (snd (stop 7500 (final (new DEFAULT_CONFIG) brisk_session))) = []
  /\ totalReps (snd (stop 7500 (final (new DEFAULT_CONFIG) brisk_session))) = 0
  /\ totalSets (snd (stop 7500 (final (new DEFAULT_CONFIG) brisk_session))) = 0.
Proof.
  apply (positive_minimum_silences_the_detector DEFAULT_CONFIG brisk_session 7500).
  vm_compute. reflexivity.
Defined.

Lemma flat_map_reps_nil l : Forall (fun sd => reps sd = []) l -> flat_map reps l = [].
Proof.
  induction 1 as [|sd l E _ IH]; [reflexivity|].
  exact (f_equal2 (@app RepData) E IH).
Qed.

Lemma kept_sets_are_empty cfg ops :
  Forall (fun sd => reps sd = []) (sets (final (new cfg) ops)).
Proof.
  destruct (run_ledger (new cfg) ops) as [L1 _ _ _ _ _]. rewrite L1.
  apply Forall_forall. intros sd H.
  destruct (run_emits_sets_of_no_repetition cfg ops sd H) as (_ & R & _). exact R.
Qed.

(** X11.  [getSessionData], as [stop] returns it: the totals of every snapshot
    are zero.  Whatever the session was, it counts no repetition, its
    average and peak velocity, its average power and its total work are 0
    -- the guards on the empty array apply --, it lists no fatigue alert,
    and the sets it lists hold no repetition; [duration] is the time since
    the last [start], or since 0 if there was none. *)
Theorem snapshot_totals_are_zero
    (cfg : SnatchDetectorConfig) (ops : list Op) (now : float) :
  let d := snd (stop now (final (new cfg) ops)) in
  totalReps d = 0 /\ session_averageVelocity d = 0 /\ session_peakVelocity d = 0
  /\ session_averagePower d = 0 /\ totalWork d = 0
  /\ session_fatigueAlerts d = []
  /\ Forall (fun sd => reps sd = []) (session_sets d)
  /\ totalSets d = JS.length (session_sets d)
  /\ session_duration d = now - sessionStartTime (final (new cfg) ops).
Proof.
  cbv zeta. rewrite stop_snapshot, <- final_snoc.
  pose proof (kept_sets_are_empty cfg (ops ++ [OpStop now])) as K.
  pose proof (flat_map_reps_nil _ K) as F.
  destruct (run_pristine cfg (ops ++ [OpStop now])) as (_ & _ & _ & _ & _ & A & _).
  assert (T : sessionStartTime (final (new cfg) (ops ++ [OpStop now]))
              = sessionStartTime (final (new cfg) ops)).
  { rewrite final_snoc.
    destruct (stop_signal now (final (new cfg) ops)) as (_ & _ & _ & _ & _ & T & _).
    exact T. }
  unfold getSessionData. cbv zeta.
  cbn [totalReps session_averageVelocity session_peakVelocity session_averagePower
       totalWork session_fatigueAlerts session_sets totalSets session_duration].
  rewrite F, T. repeat split; assumption.
Qed.

(* ------------------------------------------------------------------------- *)
(** ** [stop] and [start] *)
(* ------------------------------------------------------------------------- *)

Lemma final_cons s op ops : final s (op :: ops) = final (fst (step s op)) ops.
Proof. unfold final at 1. rewrite run_cons. reflexivity. Qed.

Lemma events_cons s op ops :
  events s (op :: ops) = snd (step s op) ++ events (fst (step s op)) ops.
Proof. unfold events at 1. rewrite run_cons. reflexivity. Qed.

Lemma set_isActive_same (b : bool) s : isActive s = b -> set_isActive b s = s.
Proof. intros <-. reflexivity. Qed.

(** X12.  [stop], called twice: with a positive [minRepsForSet], a second
    [stop] right after a first one delivers nothing and leaves the detector as
    the first one left it -- the set was either emitted, which empties the
    buffer, or is still below the minimum. *)
Theorem second_stop_changes_nothing (s : Detector) (now now' : float) :
  le (minRepsForSet (config s)) 0 = false ->
  step (fst (step s (OpStop now))) (OpStop now') = (fst (step s (OpStop now)), []).
Proof.
  intros M.
  assert (K : forall s1, isActive s1 = false -> config s1 = config s ->
              (currentSetReps s1 = []
               \/ ge (JS.length (currentSetReps s1)) (minRepsForSet (config s1)) = false) ->
              step s1 (OpStop now') = (s1, [])).
  { intros s1 A C B. rewrite <- stop_step. unfold stop.
    rewrite (set_isActive_same false s1 A).
    assert (G : ge (JS.length (currentSetReps s1)) (minRepsForSet (config s1)) = false).
    { destruct B as [B|B]; [|exact B]. rewrite B, C. exact M. }
    rewrite G. reflexivity. }
  rewrite <- (stop_step now s). unfold stop. fold (pause s).
  destruct (ge (JS.length (currentSetReps (pause s))) (minRepsForSet (config (pause s)))) eqn:G.
  - destruct (finalizeSet_effect (pause s)) as ((C & A & _) & _ & _ & _ & _ & B & _).
    destruct (finalizeSet (pause s)) as [s1 e1]. simpl in *.
    apply K; auto.
  - simpl. apply K; auto.
Qed.

Lemma second_stop_changes_nothing_witness :
  let s := final (new DEFAULT_CONFIG) brisk_session in
  step (fst (step s (OpStop 7500))) (OpStop 7600) = (fst (step s (OpStop 7500)), []).
Proof.
  apply (second_stop_changes_nothing (final (new DEFAULT_CONFIG) brisk_session) 7500 7600).
  vm_compute. reflexivity.
Defined.

Lemma step_filter_config s op :
  Kalman.config (velocityFilter (fst (step s op))) = Kalman.config (velocityFilter s).
Proof.
  destruct op as [hand now|now| | | |frame|hand now|w]; try reflexivity.
  - destruct (stop_signal now s) as (_ & _ & _ & -> & _). reflexivity.
  - simpl step. destruct (isActive s) eqn:A.
    + destruct (processFrame_signal frame s A) as (_ & _ & _ & -> & _).
      unfold ingest. cbv zeta. destruct (300 <? _)%nat; reflexivity.
    + rewrite processFrame_stages, A. reflexivity.
  - simpl step. destruct (switchHand_signal hand now s) as (_ & _ & _ & -> & _). reflexivity.
Qed.

Lemma run_filter_config s ops :
  Kalman.config (velocityFilter (final s ops)) = Kalman.config (velocityFilter s).
Proof.
  revert s. induction ops as [|op ops IH]; intros s; [reflexivity|].
  rewrite final_cons, IH. apply step_filter_config.
Qed.

(** X13.  [start], what it clears: whatever a detector has been
    through, [start] leaves it active in Idle with no repetition open,
    empty histories and phase list, and a velocity filter equal to the one
    a new detector is constructed with; so the signal side of every session
    starts from the same state. *)
Theorem start_gives_a_fresh_signal_state
    (cfg : SnatchDetectorConfig) (ops : list Op) (hand : Hand) (now : float) :
  let s' := start hand now (final (new cfg) ops) in
  velocityFilter s' = velocityFilter (new cfg)
  /\ velocityHistory s' = [] /\ heightHistory s' = [] /\ angleHistory s' = []
  /\ phaseHistory s' = [] /\ currentPhase s' = IDLE /\ repInProgress s' = false
  /\ isActive s' = true /\ currentHand s' = hand
  /\ sessionStartTime s' = now /\ currentSetStartTime s' = now.
Proof.
  cbv zeta. split; [|repeat split].
  change (Kalman.reset 0 (velocityFilter (final (new cfg) ops)) = velocityFilter (new cfg)).
  unfold Kalman.reset. rewrite run_filter_config. reflexivity.
Qed.

(* ------------------------------------------------------------------------- *)
(** ** The fatigue check *)
(* ------------------------------------------------------------------------- *)

(** X14.  [checkFatigue], called on a repetition: it raises at most one
    velocity alert and then at most one power alert, and none while the
    baseline holds fewer than three repetitions.  Each alert carries the end
    time and number of the repetition and the number of the set being
    built, reports the drop of the repetition below the mean of the
    baseline window of its kind, and is backed by the thresholds of the
    configuration: critical at or above the critical threshold, warning at
    or above the warning threshold only. *)
Theorem checkFatigue_alerts_are_justified (rep : RepData) (s : Detector) :
  exists va pa,
    alertsOf (snd (checkFatigue rep s)) = va ++ pa
    /\ (List.length va <= 1)%nat /\ (List.length pa <= 1)%nat
    /\ Forall (fun a => alert_type a = velocity_drop) va
    /\ Forall (fun a => alert_type a = power_drop) pa
    /\ Forall (alert_about s rep) (va ++ pa)
    /\ ((List.length (baselineVelocities s) <? 3)%nat = true -> va ++ pa = []).
Proof.
  unfold checkFatigue, emitFatigueAlert.
  destruct (List.length (baselineVelocities s) <? 3)%nat.
  { exists [], []. repeat split; auto. }
  cbv zeta.
  match goal with
  | |- context [let '(_, _) := (if ?c1 then (_, [FatigueEvent ?a1])
                                else if ?c2 then (_, [FatigueEvent ?a2]) else _) in _] =>
      assert (V : exists va,
                 (if c1 then [a1] else if c2 then [a2] else []) = va
                 /\ (List.length va <= 1)%nat
                 /\ Forall (fun a => alert_type a = velocity_drop) va
                 /\ Forall (alert_about s rep) va)
  end.
  { eexists. split; [reflexivity|].
    destruct (ge _ (velocityDropCritical _)) eqn:C1;
      [|destruct (ge _ (velocityDropWarning _)) eqn:C2];
      repeat split; simpl; auto; repeat constructor; simpl; auto; discriminate. }
  match goal with
  | |- context [let '(_, _) := (if ?c1 then (_, [FatigueEvent ?a1])
                                else if ?c2 then (_, [FatigueEvent ?a2]) else _) in (_, _ ++ _)] =>
      assert (P : exists pa,
                 (if c1 then [a1] else if c2 then [a2] else []) = pa
                 /\ (List.length pa <= 1)%nat
                 /\ Forall (fun a => alert_type a = power_drop) pa
                 /\ Forall (alert_about s rep) pa)
  end.
  { eexists. split; [reflexivity|].
    destruct (ge _ (powerDropCritical _)) eqn:C1;
      [|destruct (ge _ (powerDropWarning _)) eqn:C2];
      repeat split; simpl; auto; repeat constructor; simpl; auto; discriminate. }
  destruct V as (va & Ev & Lv & Tv & Av), P as (pa & Ep & Lp & Tp & Ap).
  exists va, pa.
  split; [|repeat split; auto; try (intros B; discriminate B); apply Forall_app; split; assumption].
  rewrite <- Ev, <- Ep. split_tests; reflexivity.
Qed.

(* ------------------------------------------------------------------------- *)
(** ** The scalar estimator: NaN and [reset] *)
(* ------------------------------------------------------------------------- *)

Lemma is_nan_eq x : PrimFloat.is_nan x = true -> x = nan.
Proof.
  intros H. apply Prim2SF_inj. unfold Prim2SF at 1. rewrite H. reflexivity.
Qed.

Lemma add_nan_l y : nan + y = nan.
Proof. apply Prim2SF_inj. rewrite FloatAxioms.add_spec. reflexivity. Qed.

Lemma add_nan_r y : y + nan = nan.
Proof.
  apply Prim2SF_inj. rewrite FloatAxioms.add_spec. change (Prim2SF nan) with S754_nan.
  destruct (Prim2SF y); reflexivity.
Qed.

Lemma sub_nan_l y : nan - y = nan.
Proof. apply Prim2SF_inj. rewrite FloatAxioms.sub_spec. reflexivity. Qed.

Lemma sub_nan_r y : y - nan = nan.
Proof.
  apply Prim2SF_inj. rewrite FloatAxioms.sub_spec. change (Prim2SF nan) with S754_nan.
  destruct (Prim2SF y); reflexivity.
Qed.

Lemma mul_nan_r y : y * nan = nan.
Proof.
  apply Prim2SF_inj. rewrite FloatAxioms.mul_spec. change (Prim2SF nan) with S754_nan.
  destruct (Prim2SF y); reflexivity.
Qed.

Lemma lt_nan_l y : lt nan y = false.
Proof. unfold lt. rewrite FloatAxioms.ltb_spec. reflexivity. Qed.

Lemma lt_nan_r y : lt y nan = false.
Proof.
  unfold lt. rewrite FloatAxioms.ltb_spec. change (Prim2SF nan) with S754_nan.
  unfold SFltb. destruct (Prim2SF y); reflexivity.
Qed.

Lemma update_config m t f : Kalman.config (fst (Kalman.update m t f)) = Kalman.config f.
Proof. reflexivity. Qed.

Lemma update_state m t f : Kalman.state (fst (Kalman.update m t f)) = snd (Kalman.update m t f).
Proof. reflexivity. Qed.

Lemma update_nan m t f :
  PrimFloat.is_nan m = true \/ poisoned f ->
  Kalman.position (snd (Kalman.update m t f)) = nan
  /\ Kalman.velocity (snd (Kalman.update m t f)) = nan.
Proof.
  unfold poisoned, Kalman.update, Kalman.correct, Kalman.predict. cbv zeta. simpl.
  intros [H|H]; apply is_nan_eq in H; rewrite H;
    rewrite ?add_nan_l, ?sub_nan_l, ?sub_nan_r, ?mul_nan_r, ?add_nan_r; split; reflexivity.
Qed.

Lemma update_poisoned m t f :
  PrimFloat.is_nan m = true \/ poisoned f -> poisoned (fst (Kalman.update m t f)).
Proof.
  intros H. destruct (update_nan m t f H) as (E & _).
  exact (eq_trans (f_equal PrimFloat.is_nan E) eq_refl).
Qed.

Lemma updates_poisoned ms f : poisoned f -> poisoned (updates ms f).
Proof.
  revert f. induction ms as [|[m t] ms IH]; intros f P; [exact P|].
  apply IH, update_poisoned. right. exact P.
Qed.

(** X15.  [KalmanFilter1D.update], NaN: one NaN measurement turns the
    estimated position and velocity into NaN, and they stay NaN through every
    later [update], whatever is measured and whenever, since [update] has no
    guard; only [reset] gives the filter an estimate again. *)
Theorem nan_measurement_poisons_the_filter
    (f : Kalman.KalmanFilter1D) (m t m' t' x : float) (later : list (float * float)) :
  PrimFloat.is_nan m = true ->
  let f' := updates later (fst (Kalman.update m t f)) in
  Kalman.position (snd (Kalman.update m' t' f')) = nan
  /\ Kalman.velocity (snd (Kalman.update m' t' f')) = nan
  /\ Kalman.getPosition (Kalman.reset x f') = x
  /\ Kalman.getVelocity (Kalman.reset x f') = 0.
Proof.
  intros H. cbv zeta.
  assert (P : poisoned (updates later (fst (Kalman.update m t f)))).
  { apply updates_poisoned, update_poisoned. left. exact H. }
  destruct (update_nan m' t' _ (or_intror P)) as (U1 & U2).
  repeat split; assumption.
Qed.

Lemma nan_measurement_poisons_the_filter_witness :
  let f := Kalman.new (Kalman.mkPartialKalmanConfig (Some 0.1) (Some 0.2) None None) in
  let f' := updates [(0.5, 1066); (0.6, 1099)] (fst (Kalman.update nan 1033 f)) in
  Kalman.position (snd (Kalman.update 0.7 1132 f')) = nan
  /\ Kalman.velocity (snd (Kalman.update 0.7 1132 f')) = nan
  /\ Kalman.getPosition (Kalman.reset 0 f') = 0
  /\ Kalman.getVelocity (Kalman.reset 0 f') = 0.
Proof.
  apply (nan_measurement_poisons_the_filter
           (Kalman.new (Kalman.mkPartialKalmanConfig (Some 0.1) (Some 0.2) None None))
           nan 1033 0.7 1132 0 [(0.5, 1066); (0.6, 1099)]).
  reflexivity.
Defined.

Lemma updates_config ms f : Kalman.config (updates ms f) = Kalman.config f.
Proof.
  revert f. induction ms as [|[m t] ms IH]; intros f; [reflexivity|].
  simpl. rewrite IH. apply update_config.
Qed.

(** X16.  [KalmanFilter1D.reset]: whatever measurements a filter has
    taken in since it was constructed, [reset()] puts it back exactly into
    the state the constructor gave it -- estimate, variances and the missing
    last timestamp --, so that the updates that follow give the results they
    would give on a new filter. *)
Theorem reset_restores_the_constructed_filter
    (c : Kalman.PartialKalmanConfig) (ms later : list (float * float)) :
  Kalman.reset 0 (updates ms (Kalman.new c)) = Kalman.new c
  /\ updates later (Kalman.reset 0 (updates ms (Kalman.new c))) = updates later (Kalman.new c).
Proof.
  assert (E : Kalman.reset 0 (updates ms (Kalman.new c)) = Kalman.new c).
  { unfold Kalman.reset. rewrite updates_config. reflexivity. }
  rewrite E. split; reflexivity.
Qed.
(* ------------------------------------------------------------------------- *)
(** ** [KalmanFilter3D] and [AngleKalmanFilter] *)
(* ------------------------------------------------------------------------- *)

Lemma Prim2SF_nan r : Prim2SF r = S754_nan -> PrimFloat.is_nan r = true.
Proof.
  unfold Prim2SF. destruct (PrimFloat.is_nan r); [reflexivity|].
  destruct (PrimFloat.is_zero r); [discriminate|].
  destruct (PrimFloat.is_infinity r); [discriminate|].
  repeat match goal with |- context [let (_, _) := ?p in _] => destruct p end.
  destruct (shr_m _); discriminate.
Qed.

Lemma SFsqrt_not_negative X :
  SF64sqrt X = S754_nan \/ SFleb (S754_zero false) (SF64sqrt X) = true.
Proof.
  destruct X as [s|s| |s m e].
  - right. reflexivity.
  - destruct s; [left | right]; reflexivity.
  - left. reflexivity.
  - destruct s; [left; reflexivity|].
    unfold SF64sqrt, SFsqrt.
    destruct (SFsqrt_core_binary prec emax (Z.pos m) e) as [[mz ez] lz].
    unfold binary_round_aux.
    destruct (shr_fexp prec emax mz ez lz) as [m1 e1].
    destruct (shr_fexp prec emax _ e1 loc_Exact) as [m2 e2].
    destruct (shr_m m2).
    + right. reflexivity.
    + destruct (e2 <=? emax - prec)%Z; right; reflexivity.
    + left. reflexivity.
Qed.

Lemma sqrt_not_negative v : not_negative (Math_sqrt v).
Proof.
  unfold not_negative, Math_sqrt, le.
  destruct (SFsqrt_not_negative (Prim2SF v)) as [H|H].
  - left. apply Prim2SF_nan. rewrite FloatAxioms.sqrt_spec. exact H.
  - right. rewrite FloatAxioms.leb_spec, FloatAxioms.sqrt_spec. exact H.
Qed.

Lemma filterLandmark_speed idx lm t fs :
  not_negative (speed (snd (Pose.filterLandmark idx lm t fs))).
Proof.
  unfold Pose.filterLandmark.
  destruct (Pose.map_get Nat.eqb idx fs) as [f|]; [|right; reflexivity].
  destruct (gt _ _); [|right; reflexivity].
  destruct (Kalman3D.update _ t f) as [f' [position velocity]].
  apply sqrt_not_negative.
Qed.

Lemma filterLandmarks_from_speed ls :
  forall idx t fs,
    Forall (fun fl => not_negative (speed fl)) (snd (Pose.filterLandmarks_from idx ls t fs)).
Proof.
  induction ls as [|lm ls IH]; intros idx t fs; simpl; [constructor|].
  pose proof (filterLandmark_speed idx lm t fs) as H.
  destruct (Pose.filterLandmark idx lm t fs) as [fs1 out].
  specialize (IH (S idx) t fs1).
  destruct (Pose.filterLandmarks_from (S idx) ls t fs1) as [fs2 outs].
  constructor; assumption.
Qed.

(** X17.  [KalmanFilter3D.getSpeed] and the speed of [filterLandmarks]:
    the speed reported for a filter or for a landmark is never negative -- it
    is NaN or at least 0 --, whatever the velocities estimated. *)
Theorem reported_speed_is_never_negative
    (f : Kalman3D.KalmanFilter3D) (landmarks : list Pose.Landmark) (timestamp : float)
    (s : Pose.PoseDetectionService) :
  not_negative (Kalman3D.getSpeed f)
  /\ Forall (fun fl => not_negative (speed fl))
       (snd (Pose.filterLandmarks landmarks timestamp s)).
Proof.
  split; [apply sqrt_not_negative|].
  unfold Pose.filterLandmarks.
  pose proof (filterLandmarks_from_speed landmarks 0 timestamp (Pose.landmarkFilters s)) as H.
  destruct (Pose.filterLandmarks_from 0 landmarks timestamp (Pose.landmarkFilters s)).
  exact H.
Qed.

(** X18.  [AngleKalmanFilter], constructor: the noise parameters of the
    filter built are the numbers given; the class's own defaults (0.05 and
    0.3) apply to a key that is left out; a key that is present with the
    value [undefined] is copied by the object spread over the default and
    falls through to the defaults of [KalmanFilter1D] (0.1 and 0.5). *)
Theorem angle_filter_noise_defaults (c : AngleFilter.PartialConfig) :
  let cfg := Kalman.config (AngleFilter.filter (AngleFilter.new c)) in
  Kalman.processNoise cfg =
    match AngleFilter.processNoise c with
    | AngleFilter.Value v => v
    | AngleFilter.Absent => 0.05
    | AngleFilter.Undefined => 0.1
    end
  /\ Kalman.measurementNoise cfg =
       match AngleFilter.measurementNoise c with
       | AngleFilter.Value v => v
       | AngleFilter.Absent => 0.3
       | AngleFilter.Undefined => 0.5
       end
  /\ AngleFilter.getAngle (AngleFilter.new c) = 0
  /\ AngleFilter.getAngularVelocity (AngleFilter.new c) = 0.
Proof.
  destruct c as [pn mn ipv ivv]. cbv zeta.
  repeat split; [destruct pn | destruct mn]; reflexivity.
Qed.

(* ------------------------------------------------------------------------- *)
(** ** Pose processing *)
(* ------------------------------------------------------------------------- *)

Lemma map_get_set_other {V} (k k' : nat) (v : V) m :
  k <> k' -> Pose.map_get Nat.eqb k (Pose.map_set Nat.eqb k' v m) = Pose.map_get Nat.eqb k m.
Proof.
  intros N. unfold Pose.map_get, Pose.map_set.
  assert (K' : (k' =? k)%nat = false) by (apply Nat.eqb_neq; auto).
  destruct (existsb _ m).
  - induction m as [|[a b] m IH]; simpl; [reflexivity|].
    destruct (a =? k')%nat eqn:A; simpl.
    + apply Nat.eqb_eq in A. subst a. rewrite K'. exact IH.
    + destruct (a =? k)%nat; [reflexivity | exact IH].
  - induction m as [|[a b] m IH]; simpl.
    + rewrite K'. reflexivity.
    + destruct (a =? k)%nat; [reflexivity | exact IH].
Qed.

Lemma filterLandmark_other idx lm t fs k :
  k <> idx ->
  Pose.map_get Nat.eqb k (fst (Pose.filterLandmark idx lm t fs)) = Pose.map_get Nat.eqb k fs.
Proof.
  intros N. unfold Pose.filterLandmark.
  destruct (Pose.map_get Nat.eqb idx fs) as [f|]; [|reflexivity].
  destruct (gt _ _); [|reflexivity].
  destruct (Kalman3D.update _ t f) as [f' [position velocity]].
  apply map_get_set_other, N.
Qed.

Lemma filterLandmarks_from_below ls :
  forall idx t fs k, (k < idx)%nat ->
    Pose.map_get Nat.eqb k (fst (Pose.filterLandmarks_from idx ls t fs))
    = Pose.map_get Nat.eqb k fs.
Proof.
  induction ls as [|lm ls IH]; intros idx t fs k L; simpl; [reflexivity|].
  pose proof (filterLandmark_other idx lm t fs k) as H.
  destruct (Pose.filterLandmark idx lm t fs) as [fs1 out].
  specialize (IH (S idx) t fs1 k).
  destruct (Pose.filterLandmarks_from (S idx) ls t fs1) as [fs2 outs].
  simpl in *. rewrite IH by lia. apply H. lia.
Qed.

Lemma filterLandmarks_from_unfiltered ls :
  forall idx t fs i lm,
    nth_error ls i = Some lm ->
    Pose.map_get Nat.eqb (idx + i)%nat fs = None \/ gt (Pose.lm_visibility lm) 0.5 = false ->
    nth_error (snd (Pose.filterLandmarks_from idx ls t fs)) i = Some (Pose.unfiltered lm)
    /\ Pose.map_get Nat.eqb (idx + i)%nat (fst (Pose.filterLandmarks_from idx ls t fs))
       = Pose.map_get Nat.eqb (idx + i)%nat fs.
Proof.
  induction ls as [|lm0 ls IH]; intros idx t fs i lm E C; [destruct i; discriminate E|].
  simpl. destruct i as [|i].
  - injection E as ->. rewrite Nat.add_0_r in *.
    assert (U : Pose.filterLandmark idx lm t fs = (fs, Pose.unfiltered lm)).
    { unfold Pose.filterLandmark. destruct C as [-> | C]; [reflexivity|].
      rewrite C. destruct (Pose.map_get _ _ _); reflexivity. }
    rewrite U.
    pose proof (filterLandmarks_from_below ls (S idx) t fs idx (Nat.lt_succ_diag_r idx)) as B.
    destruct (Pose.filterLandmarks_from (S idx) ls t fs) as [fs2 outs].
    split; [reflexivity | exact B].
  - simpl in E.
    pose proof (filterLandmark_other idx lm0 t fs (idx + S i)%nat) as O.
    destruct (Pose.filterLandmark idx lm0 t fs) as [fs1 out]. simpl in O.
    rewrite <- Nat.add_succ_comm in *.
    specialize (IH (S idx) t fs1 i lm E).
    rewrite O in IH by lia. specialize (IH C).
    destruct (Pose.filterLandmarks_from (S idx) ls t fs1) as [fs2 outs].
    simpl in *. destruct IH as (I1 & I2). split; [exact I1 | exact I2].
Qed.

Lemma filterLandmarks_from_length ls :
  forall idx t fs, List.length (snd (Pose.filterLandmarks_from idx ls t fs)) = List.length ls.
Proof.
  induction ls as [|lm ls IH]; intros idx t fs; simpl; [reflexivity|].
  destruct (Pose.filterLandmark idx lm t fs) as [fs1 out].
  specialize (IH (S idx) t fs1).
  destruct (Pose.filterLandmarks_from (S idx) ls t fs1) as [fs2 outs].
  simpl in *. congruence.
Qed.

(** X19.  [filterLandmarks], what is not filtered: a landmark for which the
    service keeps no filter, or whose visibility is not above 0.5 (NaN
    included), is returned with its own coordinates and visibility, zero
    velocities and zero speed, and the filter kept for its index, if any, is
    left exactly as it was -- it is not advanced; the array returned has
    one entry per landmark. *)
Theorem unfiltered_landmarks_pass_through
    (s : Pose.PoseDetectionService) (landmarks : list Pose.Landmark) (timestamp : float)
    (i : nat) (lm : Pose.Landmark) :
  nth_error landmarks i = Some lm ->
  Pose.map_get Nat.eqb i (Pose.landmarkFilters s) = None
  \/ gt (Pose.lm_visibility lm) 0.5 = false ->
  let r := Pose.filterLandmarks landmarks timestamp s in
  nth_error (snd r) i = Some (Pose.unfiltered lm)
  /\ Pose.map_get Nat.eqb i (Pose.landmarkFilters (fst r))
     = Pose.map_get Nat.eqb i (Pose.landmarkFilters s)
  /\ List.length (snd r) = List.length landmarks.
Proof.
  intros E C. cbv zeta. unfold Pose.filterLandmarks.
  pose proof (filterLandmarks_from_unfiltered landmarks 0 timestamp
                (Pose.landmarkFilters s) i lm E C) as (H1 & H2).
  pose proof (filterLandmarks_from_length landmarks 0 timestamp (Pose.landmarkFilters s)) as L.
  destruct (Pose.filterLandmarks_from 0 landmarks timestamp (Pose.landmarkFilters s)).
  simpl in *. repeat split; assumption.
Qed.

Lemma unfiltered_landmarks_pass_through_witness :
  let s := Pose.new None in
  let hidden := Pose.mkLandmark 0.4 0.6 0 0.3 in
  let landmarks := repeat (Pose.mkLandmark 0.5 0.5 0 0.9) 15%nat ++ [hidden] in
  let r := Pose.filterLandmarks landmarks 1000 s in
  nth_error (snd r) 15%nat = Some (Pose.unfiltered hidden)
  /\ Pose.map_get Nat.eqb 15%nat (Pose.landmarkFilters (fst r))
     = Pose.map_get Nat.eqb 15%nat (Pose.landmarkFilters s)
  /\ List.length (snd r) = List.length landmarks.
Proof.
  apply (unfiltered_landmarks_pass_through (Pose.new None)
           (repeat (Pose.mkLandmark 0.5 0.5 0 0.9) 15%nat ++ [Pose.mkLandmark 0.4 0.6 0 0.3])
           1000 15%nat (Pose.mkLandmark 0.4 0.6 0 0.3)).
  - reflexivity.
  - right. vm_compute. reflexivity.
Defined.

(** X20.  [setDominantHand] and [detectDominantHand]: once the hand has
    been set, hand detection is switched off for good: whatever pose arrays
    follow, and however short they are, detection does not throw and leaves
    the service as [setDominantHand] left it -- the hand set, both activity
    counters at 0. *)
Theorem setDominantHand_switches_detection_off
    (s : Pose.PoseDetectionService) (hand : Hand) (frames : list (list FilteredLandmark)) :
  Pose.detections frames (Pose.setDominantHand hand s) = Some (Pose.setDominantHand hand s)
  /\ Pose.getDominantHand (Pose.setDominantHand hand s) = hand.
Proof.
  split; [|reflexivity].
  induction frames as [|fl frames IH]; [reflexivity|]. simpl. exact IH.
Qed.

(** What hand detection keeps true of a service created in automatic
    mode, after [n] pose arrays. *)
Lemma detection_invariant fl s s' n :
  Pose.detectDominantHand fl s = Some s' ->
  (0 <= Pose.handActivityCount_left s)%Z /\ (0 <= Pose.handActivityCount_right s)%Z
  /\ (Pose.handActivityCount_left s + Pose.handActivityCount_right s <= Z.of_nat n)%Z
  /\ (Pose.dominantHand s = Left -> 11 <= Pose.handActivityCount_left s)%Z
  /\ Pose.config_dominantHand s = Pose.auto ->
  (0 <= Pose.handActivityCount_left s')%Z /\ (0 <= Pose.handActivityCount_right s')%Z
  /\ (Pose.handActivityCount_left s' + Pose.handActivityCount_right s' <= Z.of_nat (S n))%Z
  /\ (Pose.dominantHand s' = Left -> 11 <= Pose.handActivityCount_left s')%Z
  /\ Pose.config_dominantHand s' = Pose.auto.
Proof.
  unfold Pose.detectDominantHand. intros E (L & R & B & H & A). rewrite A in E.
  destruct (nth_error fl Pose.LEFT_WRIST) as [lw|]; [|discriminate E].
  destruct (nth_error fl Pose.RIGHT_WRIST) as [rw|]; [|discriminate E].
  injection E as <-. cbv zeta.
  destruct (gt (speed lw) _); [|destruct (gt (speed rw) _)]; simpl;
    match goal with
    | |- context [(?a <? ?b)%Z] =>
        destruct (Z.ltb_spec a b);
        [|match goal with
          | |- context [(?c <? ?d)%Z] => destruct (Z.ltb_spec c d)
          end]
    end; simpl; repeat split; try assumption; intros; try discriminate; try lia;
    match goal with Hl : Pose.dominantHand s = Left |- _ => specialize (H Hl); lia end.
Qed.

Lemma detections_invariant frames :
  forall s s' n,
    Pose.detections frames s = Some s' ->
    (0 <= Pose.handActivityCount_left s)%Z /\ (0 <= Pose.handActivityCount_right s)%Z
    /\ (Pose.handActivityCount_left s + Pose.handActivityCount_right s <= Z.of_nat n)%Z
    /\ (Pose.dominantHand s = Left -> 11 <= Pose.handActivityCount_left s)%Z
    /\ Pose.config_dominantHand s = Pose.auto ->
    (0 <= Pose.handActivityCount_left s')%Z /\ (0 <= Pose.handActivityCount_right s')%Z
    /\ (Pose.handActivityCount_left s' + Pose.handActivityCount_right s'
        <= Z.of_nat (n + List.length frames))%Z
    /\ (Pose.dominantHand s' = Left -> 11 <= Pose.handActivityCount_left s')%Z
    /\ Pose.config_dominantHand s' = Pose.auto.
Proof.
  induction frames as [|fl frames IH]; intros s s' n E I.
  - injection E as <-. simpl. rewrite Nat.add_0_r. exact I.
  - simpl in E. destruct (Pose.detectDominantHand fl s) as [s1|] eqn:D; [|discriminate E].
    simpl List.length. rewrite Nat.add_succ_r, <- Nat.add_succ_l.
    apply (IH s1 s' (S n) E). exact (detection_invariant fl s s1 n D I).
Qed.

(** X21.  [detectDominantHand], automatic mode: a service created without a
    hand starts with the right hand and reports the left one only after
    the left wrist has been the faster one, by more than 0.05, in at least
    eleven pose arrays; the two activity counters are never negative and
    together count at most one per pose array. *)
Theorem left_hand_needs_eleven_frames
    (frames : list (list FilteredLandmark)) (s' : Pose.PoseDetectionService) :
  Pose.detections frames (Pose.new None) = Some s' ->
  (0 <= Pose.handActivityCount_left s')%Z /\ (0 <= Pose.handActivityCount_right s')%Z
  /\ (Pose.handActivityCount_left s' + Pose.handActivityCount_right s'
      <= Z.of_nat (List.length frames))%Z
  /\ (Pose.getDominantHand s' = Left ->
      (11 <= Pose.handActivityCount_left s')%Z /\ (11 <= List.length frames)%nat).
Proof.
  intros E.
  destruct (detections_invariant frames (Pose.new None) s' 0 E) as (L & R & B & H & _).
  { simpl. repeat split; try lia. discriminate. }
  simpl in B. repeat split; try assumption; try (apply H; assumption).
  specialize (H H0). lia.
Qed.

Lemma left_hand_needs_eleven_frames_witness :
  exists s',
    Pose.detections (repeat (wrists 1 0) 11) (Pose.new None) = Some s'
    /\ Pose.getDominantHand s' = Left
    /\ (0 <= Pose.handActivityCount_left s')%Z /\ (0 <= Pose.handActivityCount_right s')%Z
    /\ (Pose.handActivityCount_left s' + Pose.handActivityCount_right s'
        <= Z.of_nat (List.length (repeat (wrists 1 0) 11)))%Z
    /\ (Pose.getDominantHand s' = Left ->
        (11 <= Pose.handActivityCount_left s')%Z
        /\ (11 <= List.length (repeat (wrists 1 0) 11))%nat).
Proof.
  let v := eval vm_compute in (Pose.detections (repeat (wrists 1 0) 11) (Pose.new None)) in
  match v with
  | Some ?s' =>
      exists s'; split; [vm_compute; reflexivity|]; split; [reflexivity|];
      apply (left_hand_needs_eleven_frames (repeat (wrists 1 0) 11) s');
      vm_compute; reflexivity
  end.
Defined.

(** The filters of a service are those it was constructed with, up to the
    measurements they have taken in: the keys are the same, in the same
    order, and resetting any of them gives the filter of the constructor. *)
Lemma map_set_present {K V} (eqb : K -> K -> bool) (k : K) (v v0 : V) m :
  (forall a b, eqb a b = true -> a = b) ->
  Pose.map_get eqb k m = Some v0 ->
  Pose.map_set eqb k v m = map (fun e => if eqb (fst e) k then (k, v) else e) m.
Proof.
  intros _ G. unfold Pose.map_set, Pose.map_get in *.
  destruct (existsb (fun e => eqb (fst e) k) m) eqn:E; [reflexivity|].
  destruct (find (fun e => eqb (fst e) k) m) as [e|] eqn:F; [|discriminate G].
  apply find_some in F. destruct F as (I & B).
  assert (X : existsb (fun e => eqb (fst e) k) m = true)
    by (apply existsb_exists; exists e; split; assumption).
  congruence.
Qed.

Lemma map_set_keeps {K V} (eqb : K -> K -> bool) (P : V -> Prop) (k : K) (v v0 : V) m :
  (forall a b, eqb a b = true -> a = b) ->
  Pose.map_get eqb k m = Some v0 -> P v ->
  Forall (fun e => P (snd e)) m ->
  map fst (Pose.map_set eqb k v m) = map fst m
  /\ Forall (fun e => P (snd e)) (Pose.map_set eqb k v m).
Proof.
  intros Heq G Pv F. rewrite (map_set_present eqb k v v0 m Heq G).
  clear G. induction F as [|e m Pe F IH]; [split; constructor|].
  destruct IH as (IH1 & IH2). cbn [map].
  destruct (eqb (fst e) k) eqn:B.
  - apply Heq in B. split; [cbn [fst]; rewrite B, IH1; reflexivity|].
    constructor; [exact Pv | exact IH2].
  - split; [rewrite IH1; reflexivity|]. constructor; assumption.
Qed.

Lemma map_get_in {K V} (eqb : K -> K -> bool) (k : K) (v : V) m :
  Pose.map_get eqb k m = Some v -> exists e, In e m /\ snd e = v.
Proof.
  unfold Pose.map_get. destruct (find _ m) as [e|] eqn:F; [|discriminate].
  intros [= <-]. apply find_some in F. exists e. split; [apply F | reflexivity].
Qed.

Lemma angleName_eqb_eq a b : Pose.angleName_eqb a b = true -> a = b.
Proof. destruct a, b; simpl; congruence. Qed.

Lemma nat_eqb_eq a b : Nat.eqb a b = true -> a = b.
Proof. apply Nat.eqb_eq. Qed.

Lemma filterLandmark_as_constructed idx lm t fs :
  Forall (fun e => as_constructed3 (snd e)) fs ->
  map fst (fst (Pose.filterLandmark idx lm t fs)) = map fst fs
  /\ Forall (fun e => as_constructed3 (snd e)) (fst (Pose.filterLandmark idx lm t fs)).
Proof.
  intros F. unfold Pose.filterLandmark.
  destruct (Pose.map_get Nat.eqb idx fs) as [f|] eqn:G; [|split; [reflexivity | exact F]].
  destruct (gt _ _); [|split; [reflexivity | exact F]].
  destruct (map_get_in _ _ _ _ G) as (e & I & E).
  pose proof (proj1 (Forall_forall _ _) F e I) as Pf. cbv beta in Pf. rewrite E in Pf.
  assert (Pu : as_constructed3 (fst (Kalman3D.update
                 (Kalman3D.mkVec3 (Pose.lm_x lm) (Pose.lm_y lm) (Pose.lm_z lm)) t f)))
    by exact Pf.
  destruct (Kalman3D.update _ t f) as [f' [position velocity]]. cbn [fst] in *.
  exact (map_set_keeps Nat.eqb as_constructed3 idx f' f fs nat_eqb_eq G Pu F).
Qed.

Lemma filterLandmarks_from_as_constructed ls :
  forall idx t fs,
    Forall (fun e => as_constructed3 (snd e)) fs ->
    map fst (fst (Pose.filterLandmarks_from idx ls t fs)) = map fst fs
    /\ Forall (fun e => as_constructed3 (snd e)) (fst (Pose.filterLandmarks_from idx ls t fs)).
Proof.
  induction ls as [|lm ls IH]; intros idx t fs F; [split; [reflexivity | exact F]|].
  simpl. destruct (filterLandmark_as_constructed idx lm t fs F) as (K1 & F1).
  destruct (Pose.filterLandmark idx lm t fs) as [fs1 out]. cbn [fst] in *.
  destruct (IH (S idx) t fs1 F1) as (K2 & F2).
  destruct (Pose.filterLandmarks_from (S idx) ls t fs1) as [fs2 outs]. cbn [fst] in *.
  split; [congruence | exact F2].
Qed.

Lemma filterStep_as_constructed s op :
  Forall (fun e => as_constructed3 (snd e)) (Pose.landmarkFilters s)
  /\ Forall (fun e => as_constructed1 (snd e)) (Pose.angleFilters s) ->
  (map fst (Pose.landmarkFilters (filterStep s op)) = map fst (Pose.landmarkFilters s)
   /\ map fst (Pose.angleFilters (filterStep s op)) = map fst (Pose.angleFilters s))
  /\ Forall (fun e => as_constructed3 (snd e)) (Pose.landmarkFilters (filterStep s op))
  /\ Forall (fun e => as_constructed1 (snd e)) (Pose.angleFilters (filterStep s op)).
Proof.
  intros (F3 & F1). destruct op as [landmarks t | name rawAngle t]; cbn [filterStep].
  - unfold Pose.filterLandmarks.
    destruct (filterLandmarks_from_as_constructed landmarks 0 t _ F3) as (K & F).
    destruct (Pose.filterLandmarks_from 0 landmarks t (Pose.landmarkFilters s)) as [fs out].
    cbn [fst] in *. repeat split; assumption.
  - unfold Pose.filterAngle.
    destruct (Pose.map_get Pose.angleName_eqb name (Pose.angleFilters s)) as [f|] eqn:G;
      [|repeat split; assumption].
    destruct (map_get_in _ _ _ _ G) as (e & I & E).
    pose proof (proj1 (Forall_forall _ _) F1 e I) as Pf. cbv beta in Pf. rewrite E in Pf.
    assert (Pu : as_constructed1 (fst (AngleFilter.update rawAngle t f))) by exact Pf.
    destruct (AngleFilter.update rawAngle t f) as [f' [angle w]]. cbn [fst] in *.
    destruct (map_set_keeps Pose.angleName_eqb as_constructed1 name f' f _
                angleName_eqb_eq G Pu F1) as (K & F).
    repeat split; assumption.
Qed.

Lemma filterSteps_as_constructed ops :
  forall s,
    Forall (fun e => as_constructed3 (snd e)) (Pose.landmarkFilters s)
    /\ Forall (fun e => as_constructed1 (snd e)) (Pose.angleFilters s) ->
    (map fst (Pose.landmarkFilters (fold_left filterStep ops s))
     = map fst (Pose.landmarkFilters s)
     /\ map fst (Pose.angleFilters (fold_left filterStep ops s))
        = map fst (Pose.angleFilters s))
    /\ Forall (fun e => as_constructed3 (snd e))
         (Pose.landmarkFilters (fold_left filterStep ops s))
    /\ Forall (fun e => as_constructed1 (snd e))
         (Pose.angleFilters (fold_left filterStep ops s)).
Proof.
  induction ops as [|op ops IH]; intros s F; [repeat split; apply F|].
  destruct (filterStep_as_constructed s op F) as ((K3 & K1) & F').
  destruct (IH _ F') as ((K3' & K1') & F''). cbn [fold_left].
  split; [split; congruence | exact F''].
Qed.

Lemma reset_all_as_constructed {K V} (r : V -> V) (v0 : V) (m : list (K * V)) :
  Forall (fun e => r (snd e) = v0) m ->
  map (fun e => (fst e, r (snd e))) m = map (fun k => (k, v0)) (map fst m).
Proof.
  induction 1 as [|e m E _ IH]; [reflexivity|].
  cbn [map]. rewrite IH. f_equal. f_equal. exact E.
Qed.

(** X22.  [resetFilters]: whatever landmarks and angles a service has filtered
    since it was constructed, [resetFilters()] puts every landmark filter and
    every angle filter back into the state the constructor gave it; the hand
    detected and the two activity counters are left as they are. *)
Theorem resetFilters_restores_the_constructed_filters
    (h : option Pose.HandSetting) (ops : list FilterOp) :
  let s := fold_left filterStep ops (Pose.new h) in
  Pose.landmarkFilters (Pose.resetFilters s) = Pose.landmarkFilters (Pose.new h)
  /\ Pose.angleFilters (Pose.resetFilters s) = Pose.angleFilters (Pose.new h)
  /\ Pose.dominantHand (Pose.resetFilters s) = Pose.dominantHand s
  /\ Pose.handActivityCount_left (Pose.resetFilters s) = Pose.handActivityCount_left s
  /\ Pose.handActivityCount_right (Pose.resetFilters s) = Pose.handActivityCount_right s.
Proof.
  cbv zeta.
  assert (F0 : Forall (fun e => as_constructed3 (snd e)) (Pose.landmarkFilters (Pose.new h))
               /\ Forall (fun e => as_constructed1 (snd e)) (Pose.angleFilters (Pose.new h))).
  { split; repeat constructor. }
  destruct (filterSteps_as_constructed ops (Pose.new h) F0) as ((K3 & K1) & F3 & F1).
  split; [|split; [|repeat split]].
  - unfold Pose.resetFilters. cbn [Pose.landmarkFilters].
    rewrite (reset_all_as_constructed _ _ _ F3), K3. reflexivity.
  - unfold Pose.resetFilters. cbn [Pose.angleFilters].
    rewrite (reset_all_as_constructed _ _ _ F1), K1. reflexivity.
Qed.

(* ------------------------------------------------------------------------- *)
(** ** The stores *)
(* ------------------------------------------------------------------------- *)

Lemma act_metrics_summarize st a :
  metrics_summarize st -> metrics_summarize (Stores.act st a).
Proof.
  unfold metrics_summarize. cbv zeta. intros (R & S & P & L).
  destruct a; try (repeat split; assumption); try (repeat split; fail).
  - (* addRep *)
    cbn [Stores.act]. unfold Stores.addRep. cbv zeta.
    cbn [Stores.realtimeMetrics Stores.set_realtimeMetrics Stores.reps Stores.sets
         Stores.set_velocityHistory Stores.set_reps Stores.repCount Stores.setCount
         Stores.peakVelocity Stores.lastRepVelocity].
    rewrite map_app. cbn [map]. rewrite fold_left_app, length_app, last_last.
    cbn [fold_left List.length].
    repeat split; try assumption.
    + rewrite R. lia.
    + exact (f_equal (fun x => JS.Math_max x (rep_peakVelocity rep)) P).
  - (* addSet *)
    cbn [Stores.act]. unfold Stores.addSet. cbv zeta.
    cbn [Stores.realtimeMetrics Stores.set_realtimeMetrics Stores.reps Stores.sets
         Stores.set_sets Stores.repCount Stores.setCount
         Stores.peakVelocity Stores.lastRepVelocity].
    rewrite length_app. cbn [List.length].
    repeat split; try assumption. rewrite S. lia.
Qed.

Lemma after_metrics_summarize actions :
  forall st, metrics_summarize st -> metrics_summarize (Stores.after st actions).
Proof.
  induction actions as [|a actions IH]; intros st H; [exact H|].
  exact (IH _ (act_metrics_summarize st a H)).
Qed.

(** X23.  stores.ts, [realtimeMetrics] against [reps] and [sets]: whatever
    store actions are called, in whatever order, [repCount] is the number of
    repetitions in [reps], [setCount] the number of sets in [sets],
    [peakVelocity] the largest peak velocity among the repetitions, or 0 if
    none is above 0 (NaN once a peak velocity is NaN), and [lastRepVelocity] the peak velocity of the latest
    repetition, or 0 before the first. *)
Theorem metrics_agree_with_the_rep_list (actions : list Stores.Action) :
  let st := Stores.after Stores.initial actions in
  let m := Stores.realtimeMetrics st in
  let peaks := map rep_peakVelocity (Stores.reps st) in
  Stores.repCount m = Z.of_nat (List.length (Stores.reps st))
  /\ Stores.setCount m = Z.of_nat (List.length (Stores.sets st))
  /\ Stores.peakVelocity m = fold_left JS.Math_max peaks 0
  /\ Stores.lastRepVelocity m = List.last peaks 0.
Proof.
  apply (after_metrics_summarize actions Stores.initial). repeat split.
Qed.

Lemma slice_last_299_length {A} (xs : list A) :
  (300 < List.length xs)%nat -> List.length (Stores.slice_last_299 xs) = 299%nat.
Proof. intros H. unfold Stores.slice_last_299. rewrite length_skipn. lia. Qed.

(** X24.  [updateRealtimeVelocity], the chart history: after the call the
    history ends with the new point and holds at most 301 points, whatever
    it held before -- a history of more than 300 points is cut to its last
    299 before the point is added, a history of exactly 300 is not cut --,
    and 301 points are reached. *)
Theorem chart_history_holds_301_points (st : Stores.Stores) (v t : float) :
  let h := Stores.velocityHistory (Stores.updateRealtimeVelocity v t st) in
  (List.length h <= 301)%nat
  /\ List.length h =
       (if (300 <? List.length (Stores.velocityHistory st))%nat then 300%nat
        else S (List.length (Stores.velocityHistory st)))
  /\ List.last h (Stores.mkVelocityDataPoint 0 0 None) = Stores.mkVelocityDataPoint t v None
  /\ exists st0,
       List.length (Stores.velocityHistory st0) = 300%nat
       /\ List.length (Stores.velocityHistory (Stores.updateRealtimeVelocity v t st0))
          = 301%nat.
Proof.
  cbv zeta. unfold Stores.updateRealtimeVelocity. cbv zeta.
  cbn [Stores.velocityHistory Stores.set_velocityHistory Stores.set_realtimeMetrics].
  rewrite length_app, last_last. cbn [List.length].
  assert (E : (List.length
                 (if (300 <? List.length (Stores.velocityHistory st))%nat
                  then Stores.slice_last_299 (Stores.velocityHistory st)
                  else Stores.velocityHistory st) + 1
               = if (300 <? List.length (Stores.velocityHistory st))%nat then 300
                 else S (List.length (Stores.velocityHistory st)))%nat).
  { destruct (Nat.ltb_spec 300 (List.length (Stores.velocityHistory st))) as [H|H].
    - rewrite slice_last_299_length by exact H. reflexivity.
    - lia. }
  split; [|split; [exact E|split; [reflexivity|]]].
  - rewrite E. destruct (Nat.ltb_spec 300 (List.length (Stores.velocityHistory st))); lia.
  - exists (Stores.set_velocityHistory
              (repeat (Stores.mkVelocityDataPoint 0 0 None) 300) Stores.initial).
    split; vm_compute; reflexivity.
Qed.

(** X25.  The derived store [latestFatigueAlert], action by action: it is the
    alert given to the latest [addFatigueAlert]; [resetSession] and
    [startSession] put it back to [null]; no other action changes it. *)
Theorem latest_alert_is_the_last_added (st : Stores.Stores) (a : Stores.Action) :
  Stores.latestFatigueAlert (Stores.act st a) =
    match a with
    | Stores.AddFatigueAlert alert => Some alert
    | Stores.ResetSession | Stores.StartSession _ _ _ => None
    | _ => Stores.latestFatigueAlert st
    end.
Proof.
  destruct a; try reflexivity.
  cbn [Stores.act]. unfold Stores.latestFatigueAlert, Stores.addFatigueAlert.
  cbn [Stores.fatigueAlerts Stores.set_fatigueAlerts].
  rewrite length_app. cbn [List.length].
  replace (List.length (Stores.fatigueAlerts st) + 1 - 1)%nat
    with (List.length (Stores.fatigueAlerts st)) by lia.
  rewrite nth_error_app2 by lia. rewrite Nat.sub_diag.
  destruct (Nat.ltb_spec 0 (List.length (Stores.fatigueAlerts st) + 1)); [reflexivity | lia].
Qed.
